(** * RAGineer backend: a shallow embedding of [backend/server.py]

    The development follows the layout of the source file: data model,
    vector store manager, document processing, authentication endpoints,
    document endpoints, chat endpoints.  Handlers are written in a small
    state-and-exception monad over the server state (the record store
    collections, the cached FAISS handle, the FAISS directory on disk and
    the upload directory).

    Conventions.
    - A MongoDB collection is the list of its documents in insertion
      order; [find_one] and [update_one] and [delete_one] act on the first
      match, [delete_many] on all of them.  Record store calls do not fail.
    - Python [bytes] is the [string] of the bytes; Python [str] is the
      [string] of its UTF-8 encoding, so [len] of a [str] counts code points
      ([utf8_length]) and [len] of [bytes] is [String.length]; Python [int]
      is [Z]; [len] results are [nat].
    - [datetime.now(timezone.utc).isoformat()] is the clock reading in
      microseconds as a [Z]; the ISO text of a UTC instant sorts the way the
      instant does, so comparisons of timestamps are comparisons on [Z].
    - A FAISS score is a [numpy.float32]; a finite float is the rational
      number it denotes, and the arithmetic of the source on scores rounds
      the result of each operation to the nearest float32, ties to even
      ([float32]).
    - What the source draws from its environment during one request (uuids,
      clock readings, the answers of the embedding service, of the language
      model, of the file system) is gathered in an environment record that
      the handler takes as an argument.
    - A route declared with [Depends(get_current_user)] is a handler that
      takes the authenticated user document as [current_user]; decoding the
      bearer token is not modelled.
    - A request runs from start to end on the state it finds: interleaving
      of requests at their [await] points is not modelled. *)

From Stdlib Require Import List String Ascii Bool Arith ZArith QArith Lia.
From Stdlib Require Import Qround Qpower Qabs Lqa.
From Stdlib Require Floats.SpecFloat.
From Stdlib Require Import Permutation Sorted.
Import ListNotations.

Close Scope Q_scope.
Local Open Scope string_scope.
Local Open Scope list_scope.

Set Implicit Arguments.

(** ** Exceptions and the handler monad *)

Inductive Exn : Type :=
| HTTPException (status_code : nat) (detail : string)
| Exception (what : string).

Inductive Result (A : Type) : Type :=
| Ok (a : A)
| Raise (e : Exn).

Arguments Ok {A} a.
Arguments Raise {A} e.

Definition is_ok {A} (r : Result A) : bool :=
  match r with Ok _ => true | Raise _ => false end.

Module Handler.

Definition M (S A : Type) : Type := S -> Result A * S.

Definition ret {S A} (a : A) : M S A := fun s => (Ok a, s).

Definition bind {S A B} (m : M S A) (k : A -> M S B) : M S B :=
  fun s => match m s with
           | (Ok a, s') => k a s'
           | (Raise e, s') => (Raise e, s')
           end.

Definition raise {S A} (e : Exn) : M S A := fun s => (Raise e, s).

(** [try: body except Exception as e: handler e].  What [body] wrote to
    the state before raising stays written. *)
Definition try_except {S A} (body : M S A) (handler : Exn -> M S A) : M S A :=
  fun s => match body s with
           | (Ok a, s') => (Ok a, s')
           | (Raise e, s') => handler e s'
           end.

Definition get {S} : M S S := fun s => (Ok s, s).
Definition modify {S} (f : S -> S) : M S unit := fun s => (Ok tt, f s).

End Handler.

Import Handler.

Declare Scope handler_scope.
Delimit Scope handler_scope with handler.
Notation "x <- c1 ;; c2" := (bind c1 (fun x => c2))
  (at level 61, c1 at next level, right associativity) : handler_scope.
Notation "c1 ;;; c2" := (bind c1 (fun _ => c2))
  (at level 61, right associativity) : handler_scope.
Local Open Scope handler_scope.

(** ** Models (pydantic classes and the dictionaries stored in MongoDB) *)

Definition Timestamp : Type := Z.
Bind Scope Z_scope with Timestamp.

(** [ROLE_PERMISSIONS] *)
Definition ROLE_PERMISSIONS (role : string) : option (list string) :=
  if role =? "admin" then
    Some ["upload_docs"; "delete_docs"; "manage_users"; "query_all"; "view_all"]
  else if role =? "engineer" then Some ["upload_docs"; "query_all"; "view_all"]
  else if role =? "technician" then Some ["query_sops"; "view_sops"]
  else if role =? "viewer" then Some ["query_limited"; "view_limited"]
  else None.

(** [RoleType = Literal["admin", "engineer", "technician", "viewer"]] *)
Definition RoleType : list string := ["admin"; "engineer"; "technician"; "viewer"].

Definition str_in (x : string) (l : list string) : bool :=
  existsb (String.eqb x) l.

(** A user document of [db.users]. *)
Record User : Type := mkUser {
  user_id : string;
  user_email : string;
  user_name : string;
  user_role : string;
  user_password_hash : string;
  user_created_at : Timestamp;
  user_is_active : bool
}.

(** [UserCreate], after validation. *)
Record UserCreate : Type := mkUserCreate {
  uc_email : string;
  uc_name : string;
  uc_role : string;
  uc_password : string
}.

(** The JSON body of a registration request, before validation: the
    [role] key may be absent. *)
Record RegisterBody : Type := mkRegisterBody {
  rb_email : string;
  rb_name : string;
  rb_role : option string;
  rb_password : string
}.

Record UserResponse : Type := mkUserResponse {
  ur_id : string;
  ur_email : string;
  ur_name : string;
  ur_role : string;
  ur_created_at : Timestamp;
  ur_is_active : bool
}.

Record TokenPayload : Type := mkTokenPayload {
  tp_sub : string;
  tp_email : string;
  tp_role : string;
  tp_exp : Timestamp
}.

Record TokenResponse : Type := mkTokenResponse {
  access_token : string;
  token_type : string;
  token_user : UserResponse
}.

(** A document record of [db.documents]. *)
Record DocRecord : Type := mkDocRecord {
  doc_id : string;
  doc_title : string;
  doc_description : string;
  doc_type : string;
  doc_filename : string;
  doc_file_path : string;
  doc_uploaded_by : string;
  doc_uploaded_by_name : string;
  doc_created_at : Timestamp;
  doc_chunk_count : nat;
  doc_file_size : nat
}.

Record DocumentResponse : Type := mkDocumentResponse {
  dr_title : string;
  dr_description : string;
  dr_doc_type : string;
  dr_id : string;
  dr_filename : string;
  dr_uploaded_by : string;
  dr_uploaded_by_name : string;
  dr_created_at : Timestamp;
  dr_chunk_count : nat;
  dr_file_size : nat
}.

(** [DocumentBase.doc_type]:
    [Literal["sop", "manual", "compliance", "other"]] *)
Definition DocType : list string := ["sop"; "manual"; "compliance"; "other"].

(** The metadata dictionary of an index entry.  The placeholder entry has
    no ["doc_type"] key. *)
Record Metadata : Type := mkMetadata {
  md_doc_id : string;
  md_title : string;
  md_doc_type : option string;
  md_chunk_index : nat
}.

(** A langchain [Document] held by the FAISS store. *)
Record Document : Type := mkDocument {
  page_content : string;
  metadata : Metadata
}.

(** The entries of a FAISS store, in the order they were added. *)
Definition Store : Type := list Document.

(** A citation, an element of [sources]. *)
Record Citation : Type := mkCitation {
  cit_doc_id : string;
  cit_title : string;
  cit_doc_type : string;
  cit_relevance_score : Q
}.

(** A document of [db.chat_sessions]. *)
Record Session : Type := mkSession {
  session_id : string;
  session_user_id : string;
  session_title : string;
  session_created_at : Timestamp;
  session_updated_at : Timestamp;
  message_count : Z
}.

(** A document of [db.chat_messages]; user messages have no ["sources"]. *)
Record Message : Type := mkMessage {
  msg_id : string;
  msg_session_id : string;
  msg_role : string;
  msg_content : string;
  msg_sources : option (list Citation);
  msg_timestamp : Timestamp
}.

Record ChatMessage : Type := mkChatMessage {
  cm_role : string;
  cm_content : string;
  cm_sources : option (list Citation);
  cm_timestamp : Timestamp
}.

Record ChatRequest : Type := mkChatRequest {
  req_message : string;
  req_session_id : option string
}.

Record ChatResponse : Type := mkChatResponse {
  resp_session_id : string;
  resp_message : ChatMessage;
  resp_sources : list Citation
}.

(** ** Server state *)

Record State : Type := mkState {
  vector_store : option Store;          (* [vector_manager.vector_store] *)
  faiss_index : option Store;           (* the directory [FAISS_INDEX_PATH] *)
  uploads : list (string * string);     (* files under [UPLOADS_PATH] *)
  db_users : list User;
  db_documents : list DocRecord;
  db_chat_sessions : list Session;
  db_chat_messages : list Message
}.

Definition initial_state : State :=
  mkState None None [] [] [] [] [].

Definition set_vector_store (v : option Store) (s : State) : State :=
  mkState v (faiss_index s) (uploads s) (db_users s) (db_documents s)
          (db_chat_sessions s) (db_chat_messages s).

Definition set_faiss_index (v : option Store) (s : State) : State :=
  mkState (vector_store s) v (uploads s) (db_users s) (db_documents s)
          (db_chat_sessions s) (db_chat_messages s).

Definition set_uploads (v : list (string * string)) (s : State) : State :=
  mkState (vector_store s) (faiss_index s) v (db_users s) (db_documents s)
          (db_chat_sessions s) (db_chat_messages s).

Definition set_db_users (v : list User) (s : State) : State :=
  mkState (vector_store s) (faiss_index s) (uploads s) v (db_documents s)
          (db_chat_sessions s) (db_chat_messages s).

Definition set_db_documents (v : list DocRecord) (s : State) : State :=
  mkState (vector_store s) (faiss_index s) (uploads s) (db_users s) v
          (db_chat_sessions s) (db_chat_messages s).

Definition set_db_chat_sessions (v : list Session) (s : State) : State :=
  mkState (vector_store s) (faiss_index s) (uploads s) (db_users s)
          (db_documents s) v (db_chat_messages s).

Definition set_db_chat_messages (v : list Message) (s : State) : State :=
  mkState (vector_store s) (faiss_index s) (uploads s) (db_users s)
          (db_documents s) (db_chat_sessions s) v.

(** ** Record store primitives *)

Module Mongo.

Section Collection.
Variable T : Type.

(** [find_one(query)]: the first document matching the query. *)
Definition find_one (q : T -> bool) (c : list T) : option T := find q c.

(** [insert_one(doc)] *)
Definition insert_one (d : T) (c : list T) : list T := c ++ [d].

(** [update_one(query, update)]: the first match is updated. *)
Fixpoint update_one (q : T -> bool) (u : T -> T) (c : list T) : list T :=
  match c with
  | [] => []
  | d :: c' => if q d then u d :: c' else d :: update_one q u c'
  end.

(** [delete_one(query)]: the first match is removed. *)
Fixpoint delete_one (q : T -> bool) (c : list T) : list T :=
  match c with
  | [] => []
  | d :: c' => if q d then c' else d :: delete_one q c'
  end.

(** [delete_many(query)] *)
Definition delete_many (q : T -> bool) (c : list T) : list T :=
  filter (fun d => negb (q d)) c.

(** [.sort(key, 1)]: ascending on an integer key (insertion sort,
    which keeps documents with equal keys in collection order). *)
Fixpoint insert_by (key : T -> Z) (d : T) (l : list T) : list T :=
  match l with
  | [] => [d]
  | x :: l' => if (key d <=? key x)%Z then d :: x :: l'
               else x :: insert_by key d l'
  end.

Definition sort_asc (key : T -> Z) (l : list T) : list T :=
  fold_right (insert_by key) [] l.

(** [.to_list(n)] *)
Definition to_list (n : nat) (l : list T) : list T := firstn n l.

End Collection.

End Mongo.

(** ** Vector store *)

(** The answers of the services the vector store manager calls during one
    request. *)
Record IndexEnv : Type := mkIndexEnv {
  (* the embedding service answers ... *)
  embed_placeholder_ok : bool;  (* [from_texts] in the [try] block *)
  embed_retry_ok : bool;        (* [from_texts] in the [except] block *)
  embed_chunks_ok : bool;       (* [add_texts] *)
  embed_query_ok : bool;        (* [similarity_search_with_score] *)
  load_ok : bool;         (* [FAISS.load_local] reads the directory *)
  save_new_ok : bool;     (* [save_local] of a new index succeeds *)
  save_ok : bool          (* [save_local] in [add_document] succeeds *)
}.

(** The embedding service answers every call of the request. *)
Definition embeddings_up (ie : IndexEnv) : bool :=
  embed_placeholder_ok ie && embed_retry_ok ie
  && embed_chunks_ok ie && embed_query_ok ie.

Definition placeholder : Document :=
  mkDocument "RAGineer - Industrial Engineering QA System initialized"
             (mkMetadata "system" "System" None 0).

(** *** Single precision arithmetic

    The scores FAISS returns are [numpy.float32] values, and numpy
    computes [1 + score] and [1 / (1 + score)] in single precision: the
    exact result of each operation is rounded to the nearest float32,
    ties to even.  The functions below round a non-negative rational
    below [2 ^ 128], the range of the finite floats; subnormal numbers are
    kept ([-126] is the least exponent of a normal number). *)

(** [floor (log2 x)] for [0 < x]. *)
Definition binade (x : Q) : Z :=
  let e := (Z.log2 (Qnum x) - Z.log2 (Zpos (Qden x)))%Z in
  if Qle_bool (2 ^ e) x then e else (e - 1)%Z.

(** The nearest integer, the even one of the two at a tie. *)
Definition round_half_even (x : Q) : Z :=
  let f := Qfloor x in
  match (x - inject_Z f ?= 1 # 2)%Q with
  | Lt => f
  | Gt => (f + 1)%Z
  | Eq => if Z.even f then f else (f + 1)%Z
  end.

(** The distance between neighbouring floats around [x]: 24 bits of
    significand. *)
Definition float32_ulp (x : Q) : Q :=
  (2 ^ (Z.max (binade x) (-126) - 23))%Q.

(** Rounding to the nearest float32. *)
Definition float32 (x : Q) : Q :=
  (inject_Z (round_half_even (x / float32_ulp x)) * float32_ulp x)%Q.

(** The largest finite float32. *)
Definition float32_max : Q := ((2 ^ 24 - 1) * 2 ^ 104)%Q.

(** The same arithmetic in the IEEE 754 specification of the standard
    library, at the parameters of binary32 (24 bits of precision, largest
    exponent 128), and the rational a finite float of that specification
    denotes: [float32] is compared with it on examples. *)
Definition binary32_relevance_score (score : SpecFloat.spec_float)
  : SpecFloat.spec_float :=
  let one := SpecFloat.S754_finite false 8388608 (-23) in
  SpecFloat.SFdiv 24 128 one (SpecFloat.SFadd 24 128 one score).

Definition binary32_value (f : SpecFloat.spec_float) : Q :=
  match f with
  | SpecFloat.S754_finite s m e =>
      ((if s then -1 else 1) * inject_Z (Zpos m) * 2 ^ e)%Q
  | _ => 0%Q
  end.

(** Ascending insertion sort of scored entries; entries at the same
    distance stay in index order. *)
Fixpoint insert_scored (x : Document * Q) (l : list (Document * Q))
  : list (Document * Q) :=
  match l with
  | [] => [x]
  | y :: l' => if Qle_bool (snd x) (snd y) then x :: y :: l'
               else y :: insert_scored x l'
  end.

Definition sort_scored (l : list (Document * Q)) : list (Document * Q) :=
  fold_right insert_scored [] l.

Section VectorStoreManager.

(** [RecursiveCharacterTextSplitter(chunk_size=1000, chunk_overlap=200)
    .split_text] *)
Variable split_text : string -> list string.

(** The distance FAISS reports between the embedding of a query and the
    embedding of a chunk text. *)
Variable distance : string -> string -> Q.

Variable ie : IndexEnv.

(** [FAISS.from_texts] on the placeholder: one call to the embedding
    service. *)
Definition from_texts_placeholder (embed_ok : bool) : M State Store :=
  if embed_ok then ret [placeholder]
  else raise (Exception "embedding request failed").

Definition load_local : M State Store :=
  s <- get ;;
  match faiss_index s with
  | Some d => if load_ok ie then ret d
              else raise (Exception "could not load index")
  | None => raise (Exception "no index directory")
  end.

(** [self.vector_store.save_local(str(FAISS_INDEX_PATH))] *)
Definition save_local (write_ok : bool) : M State unit :=
  if write_ok then modify (fun s => set_faiss_index (vector_store s) s)
  else raise (Exception "could not save index").

Definition FAISS_INDEX_PATH_exists (s : State) : bool :=
  match faiss_index s with Some _ => true | None => false end.

Definition load_or_create_store : M State Store :=
  s <- get ;;
  match vector_store s with
  | Some store => ret store
  | None =>
      try_except
        (if FAISS_INDEX_PATH_exists s then
           store <- load_local ;;
           modify (set_vector_store (Some store))
         else
           store <- from_texts_placeholder (embed_placeholder_ok ie) ;;
           modify (set_vector_store (Some store)) ;;;
           save_local (save_new_ok ie))
        (fun _ =>
           store <- from_texts_placeholder (embed_retry_ok ie) ;;
           modify (set_vector_store (Some store))) ;;;
      s' <- get ;;
      match vector_store s' with
      | Some store => ret store
      | None => raise (Exception "unreachable: store is set")
      end
  end.

(** [store.add_texts(chunks, metadatas)]: the chunks are embedded first,
    then appended to the store held by the manager.  The index refuses an
    empty batch of vectors: with no chunk the call raises [ValueError]
    and the store is as before. *)
Definition add_texts (chunks : list string) (metadatas : list Metadata)
  : M State unit :=
  if embed_chunks_ok ie then
    match chunks with
    | [] => raise (Exception "ValueError")
    | _ :: _ =>
        modify (fun s =>
          set_vector_store
            (Some (match vector_store s with Some st => st | None => [] end
                   ++ map (fun cm => mkDocument (fst cm) (snd cm))
                          (combine chunks metadatas))) s)
    end
  else raise (Exception "embedding request failed").

Definition chunk_metadatas (doc_id title doc_type : string) (n : nat)
  : list Metadata :=
  map (fun i => mkMetadata doc_id title (Some doc_type) i) (seq 0 n).

Definition add_document (doc_id title content doc_type : string)
  : M State nat :=
  let chunks := split_text content in
  let metadatas := chunk_metadatas doc_id title doc_type (List.length chunks) in
  _ <- load_or_create_store ;;
  add_texts chunks metadatas ;;;
  save_local (save_ok ie) ;;;
  ret (List.length chunks).

(** The [k] entries nearest to the query, nearest first. *)
Definition nearest (store : Store) (query : string) (k : nat)
  : list (Document * Q) :=
  firstn k (sort_scored
              (map (fun d => (d, distance query (page_content d))) store)).

(** [store.similarity_search_with_score(query, k)]: the query is embedded
    first, then the index is searched; the index asserts [k > 0], so the
    call raises [AssertionError] for [k = 0]. *)
Definition similarity_search_with_score (store : Store) (query : string)
           (k : nat) : M State (list (Document * Q)) :=
  if embed_query_ok ie then
    if Nat.eqb k 0 then raise (Exception "AssertionError")
    else ret (nearest store query k)
  else raise (Exception "embedding request failed").

(** [doc.metadata.get("doc_type") in doc_types] *)
Definition doc_type_in (doc : Document) (doc_types : list string) : bool :=
  match md_doc_type (metadata doc) with
  | Some t => str_in t doc_types
  | None => false
  end.

(** Truth value of an [Optional[List[str]]]. *)
Definition truthy_list {A} (l : option (list A)) : bool :=
  match l with
  | Some (_ :: _) => true
  | _ => false
  end.

Definition filter_doc_types (doc_types : list string)
           (results : list (Document * Q)) : list (Document * Q) :=
  filter (fun ds => doc_type_in (fst ds) doc_types) results.

Definition search (query : string) (k : nat)
           (doc_types : option (list string))
  : M State (list (Document * Q)) :=
  store <- load_or_create_store ;;
  if truthy_list doc_types then
    results <- similarity_search_with_score store query (k * 2) ;;
    ret (firstn k (filter_doc_types
                     (match doc_types with Some l => l | None => [] end)
                     results))
  else
    similarity_search_with_score store query k.

End VectorStoreManager.

(** ** Library functions the server calls *)

Local Open Scope string_scope.

(** Functions of the libraries the server imports; the development is
    parametric in them. *)
Record Libraries : Type := mkLibraries {
  split_text : string -> list string;       (* the text splitter *)
  distance : string -> string -> Q;         (* FAISS distance, query to chunk *)
  path_suffix : string -> string;           (* [Path(name).suffix] *)
  path_stem : string -> string;             (* [Path(name).stem] *)
  str_lower : string -> string;             (* [str.lower] *)
  PdfReader_pages : string -> option (list string);
    (* text of each page, [""] where [extract_text()] is empty; [None]
       when the reader raises *)
  Docx_paragraphs : string -> option (list string);
  decode_utf8_ignore : string -> string;    (* [bytes.decode('utf-8', errors='ignore')] *)
  EmailStr : string -> option string;       (* validated, normalised address *)
  bcrypt_hashpw : string -> string -> string;
    (* [bcrypt.hashpw(password, salt)], the hash when the call returns *)
  bcrypt_hashpw_raises : string -> bool;
    (* [bcrypt.hashpw] raises [ValueError] on this password: the releases
       of the library that refuse a password of more than 72 bytes *)
  jwt_encode : TokenPayload -> string
}.

Definition nl : string := String "010"%char EmptyString.

(** [str.isspace] on the ASCII range: U+0009 to U+000D, U+001C to U+0020. *)
Definition is_space (c : ascii) : bool :=
  let n := nat_of_ascii c in
  (Nat.leb 9 n && Nat.leb n 13) || (Nat.leb 28 n && Nat.leb n 32).

(** [str.isspace] on a character of two bytes: U+0085 and U+00A0. *)
Definition is_space2 (c1 c2 : ascii) : bool :=
  let n2 := nat_of_ascii c2 in
  Nat.eqb (nat_of_ascii c1) 194 && (Nat.eqb n2 133 || Nat.eqb n2 160).

(** [str.isspace] on a character of three bytes: U+1680, U+2000 to
    U+200A, U+2028, U+2029, U+202F, U+205F and U+3000. *)
Definition is_space3 (c1 c2 c3 : ascii) : bool :=
  let n1 := nat_of_ascii c1 in
  let n2 := nat_of_ascii c2 in
  let n3 := nat_of_ascii c3 in
  (Nat.eqb n1 225 && Nat.eqb n2 154 && Nat.eqb n3 128)
  || (Nat.eqb n1 226 && Nat.eqb n2 128
      && ((Nat.leb 128 n3 && Nat.leb n3 138)
          || Nat.eqb n3 168 || Nat.eqb n3 169 || Nat.eqb n3 175))
  || (Nat.eqb n1 226 && Nat.eqb n2 129 && Nat.eqb n3 159)
  || (Nat.eqb n1 227 && Nat.eqb n2 128 && Nat.eqb n3 128).

(** [not text.strip()]: every character of the text is white space. *)
Fixpoint strip_is_empty (s : string) : bool :=
  match s with
  | EmptyString => true
  | String c1 s1 =>
      if is_space c1 then strip_is_empty s1
      else
        match s1 with
        | EmptyString => false
        | String c2 s2 =>
            if is_space2 c1 c2 then strip_is_empty s2
            else
              match s2 with
              | EmptyString => false
              | String c3 s3 =>
                  if is_space3 c1 c2 c3 then strip_is_empty s3 else false
              end
        end
  end.

(** A byte that continues a character: [10xxxxxx]. *)
Definition is_continuation (c : ascii) : bool :=
  let n := nat_of_ascii c in Nat.leb 128 n && Nat.ltb n 192.

(** [len(text)]: the number of characters. *)
Fixpoint utf8_length (s : string) : nat :=
  match s with
  | EmptyString => 0
  | String c s' =>
      if is_continuation c then utf8_length s' else S (utf8_length s')
  end.

(** [text[:n]]: the first [n] characters. *)
Fixpoint utf8_take (n : nat) (s : string) : string :=
  match s with
  | EmptyString => EmptyString
  | String c s' =>
      if is_continuation c then String c (utf8_take n s')
      else match n with
           | 0 => EmptyString
           | S n' => String c (utf8_take n' s')
           end
  end.

Section Server.

Variable L : Libraries.

(** *** Auth helpers *)

Definition JWT_EXPIRATION_HOURS : Z := 24.

Definition hours (h : Z) : Z := (h * 3600 * 1000000)%Z.

(** [bcrypt.hashpw(password.encode(), bcrypt.gensalt()).decode()]; the
    salt drawn by [gensalt] is an argument. *)
Definition hash_password (salt password : string) : M State string :=
  if bcrypt_hashpw_raises L password then raise (Exception "ValueError")
  else ret (bcrypt_hashpw L password salt).

Definition create_token (now : Timestamp) (user_id email role : string)
  : string :=
  jwt_encode L (mkTokenPayload user_id email role
                               (now + hours JWT_EXPIRATION_HOURS)%Z).

Definition role_permissions (role : string) : list string :=
  match ROLE_PERMISSIONS role with Some l => l | None => [] end.

Definition check_permission (user : User) (permission : string)
  : M State unit :=
  if str_in permission (role_permissions (user_role user)) then ret tt
  else raise (HTTPException 403 ("Permission denied: " ++ permission)).

(** *** Document processing *)

Definition extract_text_from_pdf (file_content : string) : M State string :=
  match PdfReader_pages L file_content with
  | Some pages => ret (fold_left (fun text p => text ++ p) pages "")
  | None => raise (Exception "PdfReader")
  end.

Definition extract_text_from_docx (file_content : string) : M State string :=
  match Docx_paragraphs L file_content with
  | Some paras => ret (fold_left (fun text p => text ++ p ++ nl) paras "")
  | None => raise (Exception "DocxDocument")
  end.

Definition extract_text_from_txt (file_content : string) : M State string :=
  ret (decode_utf8_ignore L file_content).

(** *** Auth endpoints *)

Record RegisterEnv : Type := mkRegisterEnv {
  reg_uuid : string;
  reg_salt : string;
  reg_now : Timestamp;
  reg_now_token : Timestamp
}.

(** Validation of the request body against [UserCreate]. *)
Definition UserCreate_validate (b : RegisterBody) : M State UserCreate :=
  match EmailStr L (rb_email b) with
  | None => raise (HTTPException 422 "value is not a valid email address")
  | Some email =>
      match rb_role b with
      | None => ret (mkUserCreate email (rb_name b) "viewer" (rb_password b))
      | Some r =>
          if str_in r RoleType then
            ret (mkUserCreate email (rb_name b) r (rb_password b))
          else raise (HTTPException 422 "Input should be 'admin', 'engineer', 'technician' or 'viewer'")
      end
  end.

Definition register (env : RegisterEnv) (user : UserCreate)
  : M State TokenResponse :=
  s <- get ;;
  match Mongo.find_one (fun u => user_email u =? uc_email user) (db_users s) with
  | Some _ => raise (HTTPException 400 "Email already registered")
  | None =>
      let user_id := reg_uuid env in
      password_hash <- hash_password (reg_salt env) (uc_password user) ;;
      let user_doc :=
        mkUser user_id (uc_email user) (uc_name user) (uc_role user)
               password_hash (reg_now env) true in
      modify (fun s => set_db_users (Mongo.insert_one user_doc (db_users s)) s) ;;;
      let token := create_token (reg_now_token env) user_id
                                (uc_email user) (uc_role user) in
      ret (mkTokenResponse token "bearer"
             (mkUserResponse user_id (uc_email user) (uc_name user)
                             (uc_role user) (user_created_at user_doc) true))
  end.

(** [POST /api/auth/register]: the route has no dependency on
    [get_current_user]; the handler receives the body only. *)
Definition post_auth_register (env : RegisterEnv) (body : RegisterBody)
  : M State TokenResponse :=
  user <- UserCreate_validate body ;;
  register env user.

(** *** Document endpoints *)

Record UploadFile : Type := mkUploadFile {
  filename : string;
  file_bytes : string
}.

Record UploadEnv : Type := mkUploadEnv {
  up_index : IndexEnv;
  up_uuid : string;
  up_now : Timestamp;
  up_write_ok : bool      (* the raw file can be written *)
}.

Definition UPLOADS_PATH : string := "uploads/".

Definition allowed_extensions : list string := [".pdf"; ".docx"; ".txt"].

Definition write_file (ok : bool) (path content : string) : M State unit :=
  if ok then
    modify (fun s =>
      set_uploads ((path, content)
                   :: filter (fun pc => negb (fst pc =? path)) (uploads s)) s)
  else raise (Exception "could not write file").

(** The [try] block of [upload_document] that extracts the text. *)
Definition extract_text (file_ext content : string) : M State string :=
  try_except
    (if file_ext =? ".pdf" then extract_text_from_pdf content
     else if file_ext =? ".docx" then extract_text_from_docx content
     else extract_text_from_txt content)
    (fun _ => raise (HTTPException 400 "Could not extract text from file")).

(** The [DocumentResponse] built from [doc_record] at the end of
    [upload_document]: the model rejects a [doc_type] that is not one of
    its literals. *)
Definition DocumentResponse_fields (d : DocRecord) : DocumentResponse :=
  mkDocumentResponse (doc_title d) (doc_description d) (doc_type d)
                     (doc_id d) (doc_filename d) (doc_uploaded_by d)
                     (doc_uploaded_by_name d) (doc_created_at d)
                     (doc_chunk_count d) (doc_file_size d).

Definition DocumentResponse_of (d : DocRecord) : M State DocumentResponse :=
  if str_in (doc_type d) DocType then ret (DocumentResponse_fields d)
  else raise (Exception "ValidationError: doc_type").

Definition upload_document (env : UploadEnv) (file : UploadFile)
           (title description doc_type : string) (current_user : User)
  : M State DocumentResponse :=
  check_permission current_user "upload_docs" ;;;
  let file_ext := str_lower L (path_suffix L (filename file)) in
  if negb (str_in file_ext allowed_extensions) then
    raise (HTTPException 400 "File type not supported. Allowed: ['.pdf', '.docx', '.txt']")
  else
    let content := file_bytes file in
    let file_size := String.length content in
    text_content <- extract_text file_ext content ;;
    if strip_is_empty text_content then
      raise (HTTPException 400 "No text content found in file")
    else
      let doc_id := up_uuid env in
      let doc_title := if title =? "" then path_stem L (filename file)
                       else title in
      chunk_count <-
        add_document (split_text L) (up_index env)
                     doc_id doc_title text_content doc_type ;;
      let file_path := UPLOADS_PATH ++ doc_id ++ file_ext in
      write_file (up_write_ok env) file_path content ;;;
      let doc_record :=
        mkDocRecord doc_id doc_title description doc_type (filename file)
                    file_path (user_id current_user)
                    (user_name current_user) (up_now env)
                    chunk_count file_size in
      modify (fun s =>
        set_db_documents (Mongo.insert_one doc_record (db_documents s)) s) ;;;
      DocumentResponse_of doc_record.

Definition delete_document (doc_id' : string) (current_user : User)
  : M State string :=
  check_permission current_user "delete_docs" ;;;
  s <- get ;;
  match Mongo.find_one (fun d => doc_id d =? doc_id') (db_documents s) with
  | None => raise (HTTPException 404 "Document not found")
  | Some doc =>
      modify (fun s =>
        set_uploads (filter (fun pc => negb (fst pc =? doc_file_path doc))
                            (uploads s)) s) ;;;
      modify (fun s =>
        set_db_documents
          (Mongo.delete_one (fun d => doc_id d =? doc_id') (db_documents s)) s) ;;;
      ret "Document deleted"
  end.


(** *** Chat endpoints *)

Record ChatEnv : Type := mkChatEnv {
  chat_index : IndexEnv;
  uuid_session : string;
  uuid_user_msg : string;
  uuid_llm_hex : string;
  uuid_assistant_msg : string;
  now_session_created : Timestamp;
  now_session_updated : Timestamp;
  now_user_msg : Timestamp;
  now_assistant_msg : Timestamp;
  now_update : Timestamp;
  (* [LlmChat(session_id, system_message).send_message(text)];
     [None] when the call raises *)
  llm_send_message : string -> string -> string -> option string
}.

(** [float(1 / (1 + score))] on a [numpy.float32] score: the sum and the
    quotient are float32 operations; [float] converts the float32 quotient
    to a Python float of the same value. *)
Definition relevance_score (score : Q) : Q :=
  float32 (1 / float32 (1 + score)).

(** The three accumulators of the loop over the search results. *)
Record LoopState : Type := mkLoopState {
  context_parts : list string;
  sources : list Citation;
  seen_docs : list string
}.

Definition context_part (doc : Document) : string :=
  "[From: " ++ md_title (metadata doc) ++ "]" ++ nl ++ page_content doc.

Definition db_documents_find_one (documents : list DocRecord) (id : string)
  : option DocRecord :=
  Mongo.find_one (fun d => doc_id d =? id) documents.

Definition citation_of (doc_info : DocRecord) (id : string) (score : Q)
  : Citation :=
  mkCitation id (doc_title doc_info) (doc_type doc_info)
             (relevance_score score).

(** One iteration of [for doc, score in search_results]. *)
Definition chat_loop_body (documents : list DocRecord) (acc : LoopState)
           (ds : Document * Q) : LoopState :=
  let doc := fst ds in
  let score := snd ds in
  if md_doc_id (metadata doc) =? "system" then acc
  else
    let id := md_doc_id (metadata doc) in
    let acc1 :=
      if negb (str_in id (seen_docs acc)) then
        let seen := id :: seen_docs acc in
        match db_documents_find_one documents id with
        | Some doc_info =>
            mkLoopState (context_parts acc)
                        (sources acc ++ [citation_of doc_info id score])%list
                        seen
        | None => mkLoopState (context_parts acc) (sources acc) seen
        end
      else acc in
    mkLoopState (context_parts acc1 ++ [context_part doc])%list
                (sources acc1) (seen_docs acc1).

Definition chat_loop (documents : list DocRecord)
           (search_results : list (Document * Q)) : LoopState :=
  fold_left (chat_loop_body documents) search_results
            (mkLoopState [] [] []).

Definition context_separator : string := nl ++ nl ++ "---" ++ nl ++ nl.

Definition context_of (parts : list string) : string :=
  match parts with
  | [] => "No relevant documents found."
  | _ => String.concat context_separator parts
  end.

Definition system_prompt (context : string) : string :=
  "You are RAGineer, an expert industrial engineering QA assistant. " ++ nl ++
  "You help engineers, technicians, and operators find information in technical documentation including SOPs, manuals, and compliance documents." ++ nl ++
  nl ++
  "Guidelines:" ++ nl ++
  "- Provide precise, technical answers based on the provided context" ++ nl ++
  "- Always cite which document your answer comes from" ++ nl ++
  "- If the context doesn't contain relevant information, clearly state that" ++ nl ++
  "- Use proper technical terminology" ++ nl ++
  "- Format responses clearly with bullet points or numbered steps when appropriate" ++ nl ++
  "- Highlight safety-critical information when relevant" ++ nl ++
  nl ++
  "Context from documents:" ++ nl ++
  context.

(** The text sent back when the language model call raises. *)
Definition fallback_text (srcs : list Citation) : string :=
  "I found relevant information in the following documents: " ++
  String.concat ", " (map cit_title srcs) ++
  ". However, I encountered an error generating a detailed response. Please try again.".

(** Doc types a role may search; [None] leaves the search unfiltered. *)
Definition chat_doc_types (role : string) : option (list string) :=
  if role =? "technician" then Some ["sop"]
  else if role =? "viewer" then Some ["sop"; "manual"]
  else None.

(** [message[:50] + "..." if len(message) > 50 else message] *)
Definition session_title_of (message : string) : string :=
  if Nat.ltb 50 (utf8_length message) then utf8_take 50 message ++ "..."
  else message.

(** [not session_id] on an [Optional[str]] *)
Definition session_id_missing (sid : option string) : bool :=
  match sid with
  | None => true
  | Some s => s =? ""
  end.

Definition touch_session (now : Timestamp) (s : Session) : Session :=
  mkSession (session_id s) (session_user_id s) (session_title s)
            (session_created_at s) now (message_count s + 2)%Z.

Definition chat (env : ChatEnv) (request : ChatRequest) (current_user : User)
  : M State ChatResponse :=
  let role := user_role current_user in
  let doc_types := chat_doc_types role in
  search_results <-
    search (distance L) (chat_index env) (req_message request) 5 doc_types ;;
  s <- get ;;
  let acc := chat_loop (db_documents s) search_results in
  let srcs := sources acc in
  let context := context_of (context_parts acc) in
  sid <-
    (if session_id_missing (req_session_id request) then
       let sid := uuid_session env in
       let session_doc :=
         mkSession sid (user_id current_user)
                   (session_title_of (req_message request))
                   (now_session_created env) (now_session_updated env) 0 in
       modify (fun s =>
         set_db_chat_sessions
           (Mongo.insert_one session_doc (db_chat_sessions s)) s) ;;;
       ret sid
     else
       ret (match req_session_id request with Some x => x | None => "" end)) ;;
  let user_msg :=
    mkMessage (uuid_user_msg env) sid "user" (req_message request) None
              (now_user_msg env) in
  modify (fun s =>
    set_db_chat_messages (Mongo.insert_one user_msg (db_chat_messages s)) s) ;;;
  response_text <-
    try_except
      (match llm_send_message env ("rag_" ++ sid ++ "_" ++ uuid_llm_hex env)
                              (system_prompt context) (req_message request)
       with
       | Some text => ret text
       | None => raise (Exception "LLM error")
       end)
      (fun _ => ret (fallback_text srcs)) ;;
  let assistant_msg :=
    mkMessage (uuid_assistant_msg env) sid "assistant" response_text
              (Some srcs) (now_assistant_msg env) in
  modify (fun s =>
    set_db_chat_messages
      (Mongo.insert_one assistant_msg (db_chat_messages s)) s) ;;;
  modify (fun s =>
    set_db_chat_sessions
      (Mongo.update_one (fun x => session_id x =? sid)
                        (touch_session (now_update env))
                        (db_chat_sessions s)) s) ;;;
  ret (mkChatResponse sid
         (mkChatMessage "assistant" response_text (Some srcs)
                        (msg_timestamp assistant_msg))
         srcs).

Definition ChatMessage_of (m : Message) : ChatMessage :=
  mkChatMessage (msg_role m) (msg_content m) (msg_sources m)
                (msg_timestamp m).

Definition owned_session (sid : string) (current_user : User) (x : Session)
  : bool :=
  (session_id x =? sid) && (session_user_id x =? user_id current_user).

Definition get_session_messages (sid : string) (current_user : User)
  : M State (list ChatMessage) :=
  s <- get ;;
  match Mongo.find_one (owned_session sid current_user) (db_chat_sessions s) with
  | None => raise (HTTPException 404 "Session not found")
  | Some _ =>
      let messages :=
        Mongo.to_list 1000
          (Mongo.sort_asc msg_timestamp
             (filter (fun m => msg_session_id m =? sid) (db_chat_messages s))) in
      ret (map ChatMessage_of messages)
  end.

Definition delete_session (sid : string) (current_user : User)
  : M State string :=
  s <- get ;;
  match Mongo.find_one (owned_session sid current_user) (db_chat_sessions s) with
  | None => raise (HTTPException 404 "Session not found")
  | Some _ =>
      modify (fun s =>
        set_db_chat_messages
          (Mongo.delete_many (fun m => msg_session_id m =? sid)
                             (db_chat_messages s)) s) ;;;
      modify (fun s =>
        set_db_chat_sessions
          (Mongo.delete_one (fun x => session_id x =? sid)
                            (db_chat_sessions s)) s) ;;;
      ret "Session deleted"
  end.

End Server.

(** ** A concrete instance, used to run the handlers *)

Module Demo.

(** The last four characters of a name. *)
Definition suffix4 (name : string) : string :=
  substring (String.length name - 4) 4 name.

Definition stem4 (name : string) : string :=
  substring 0 (String.length name - 4) name.

(** Distance between two texts: the difference of their lengths. *)
Definition length_distance (q t : string) : Q :=
  inject_Z (Z.abs (Z.of_nat (String.length q) - Z.of_nat (String.length t))).

Definition libs : Libraries :=
  mkLibraries
    (fun text => [text])
    length_distance
    suffix4
    stem4
    (fun s => s)
    (fun _ => None)
    (fun _ => None)
    (fun s => s)
    (fun s => Some s)
    (fun password salt => salt ++ password)
    (fun password => Nat.ltb 72 (String.length password))
    (fun p => tp_sub p ++ "." ++ tp_role p).

Definition services_up : IndexEnv :=
  mkIndexEnv true true true true true true true.

Definition admin : User :=
  mkUser "u-admin" "admin@x.com" "Ada" "admin" "h" 1 true.

Definition technician : User :=
  mkUser "u-tech" "tech@x.com" "Tim" "technician" "h" 2 true.

Definition viewer : User :=
  mkUser "u-view" "view@x.com" "Vic" "viewer" "h" 3 true.

Definition sop_file : UploadFile := mkUploadFile "gloves.txt" "wear gloves".
Definition manual_file : UploadFile := mkUploadFile "pump.txt" "pump manual".
Definition blank_file : UploadFile := mkUploadFile "blank.txt" "   ".
Definition pdf_file : UploadFile := mkUploadFile "scan.pdf" "%PDF".

(** A text file of white space outside ASCII: U+00A0, U+0085, U+3000 and
    U+202F in UTF-8, and a line feed. *)
Definition unicode_blank : string :=
  string_of_list_ascii
    (map ascii_of_nat [194; 160; 194; 133; 227; 128; 128; 226; 128; 175; 10]).

Definition unicode_blank_file : UploadFile :=
  mkUploadFile "blank-utf8.txt" unicode_blank.

Definition upload_env (id : string) (now : Timestamp) : UploadEnv :=
  mkUploadEnv services_up id now true.

(** The state after an admin uploaded an SOP and a manual. *)
Definition two_docs : State :=
  snd (upload_document libs (upload_env "d-2" 20) manual_file
                       "Pump" "" "manual" admin
         (snd (upload_document libs (upload_env "d-1" 10) sop_file
                               "Gloves" "" "sop" admin initial_state))).

Definition llm_down (_ _ _ : string) : option string := None.
Definition llm_echo (_ _ text : string) : option string := Some ("re: " ++ text).

Definition chat_env (tag : string) (t : Timestamp)
           (llm : string -> string -> string -> option string) : ChatEnv :=
  mkChatEnv services_up ("s-" ++ tag) ("mu-" ++ tag) "0a1b2c3d" ("ma-" ++ tag)
            t (t + 1) (t + 2) (t + 3) (t + 4) llm.

(** A store where the three entries nearest to a short query are manuals
    and the only SOP is far from it. *)
Definition crowded_store : Store :=
  [ mkDocument "pump" (mkMetadata "d-1" "Pump" (Some "manual") 0);
    mkDocument "valve" (mkMetadata "d-2" "Valve" (Some "manual") 0);
    mkDocument "motor" (mkMetadata "d-3" "Motor" (Some "manual") 0);
    mkDocument "always wear gloves and goggles"
               (mkMetadata "d-4" "PPE" (Some "sop") 0) ].

Definition crowded : State :=
  mkState (Some crowded_store) (Some crowded_store) [] [] [] [] [].

(** Search results with two chunks of the SOP, the placeholder, and a
    chunk of a document that has no record. *)
Definition mixed_results : list (Document * Q) :=
  [ (mkDocument "wear gloves" (mkMetadata "d-1" "Gloves" (Some "sop") 0), 1 # 2);
    (placeholder, 1 # 1);
    (mkDocument "gloves off" (mkMetadata "d-1" "Gloves" (Some "sop") 1), 3 # 2);
    (mkDocument "old text" (mkMetadata "d-9" "Gone" (Some "sop") 0), 2 # 1) ]%Q.

(** Distances as binary32 floats: 0, [2 ^ -30], 1/2, 4, 0.1 rounded, the
    least subnormal number and the largest float. *)
Definition binary32_distances : list SpecFloat.spec_float :=
  [ SpecFloat.S754_zero false;
    SpecFloat.S754_finite false 8388608 (-53);
    SpecFloat.S754_finite false 8388608 (-24);
    SpecFloat.S754_finite false 8388608 (-21);
    SpecFloat.S754_finite false 13421773 (-27);
    SpecFloat.S754_finite false 1 (-149);
    SpecFloat.S754_finite false 16777215 104 ].

(** A message of 30 characters of two bytes each, and one of 60. *)
Definition e_acute : string :=
  string_of_list_ascii (map ascii_of_nat [195; 169]).

Definition accented (n : nat) : string :=
  String.concat "" (repeat e_acute n).

(** A request whose [session_id] is the empty string. *)
Definition empty_id_request : ChatRequest := mkChatRequest "gloves?" (Some "").

End Demo.

(** ** The other routes of the server *)

(** What [jwt.decode] does with a bearer token: the payload, of which the
    server reads the ["sub"] key only, or one of the two errors the server
    catches. *)
Inductive JwtOutcome : Type :=
| JwtDecoded (sub : option string)
| JwtExpired
| JwtInvalid.

(** Library functions of the authentication helpers. *)
Record AuthLibraries : Type := mkAuthLibraries {
  jwt_decode : Timestamp -> string -> JwtOutcome;  (* at a clock reading *)
  bcrypt_checkpw : string -> string -> bool        (* password, hash *)
}.

(** [UserLogin], before validation. *)
Record LoginBody : Type := mkLoginBody {
  lb_email : string;
  lb_password : string
}.

(** [UserUpdate]: every key may be absent. *)
Record UserUpdate : Type := mkUserUpdate {
  uu_name : option string;
  uu_role : option string;
  uu_is_active : option bool
}.

(** The answer of [GET /api/stats]. *)
Record Stats : Type := mkStats {
  total_documents : nat;
  total_users : nat;
  my_sessions : nat;
  stats_doc_types : list (string * nat)
}.

(** [{"$group": {"_id": key, "count": {"$sum": 1}}}]: one group per key,
    here in the order the keys first occur. *)
Fixpoint bump (k : string) (groups : list (string * nat))
  : list (string * nat) :=
  match groups with
  | [] => [(k, 1)]
  | (k', n) :: rest => if k' =? k then (k', S n) :: rest
                       else (k', n) :: bump k rest
  end.

Definition group_count (keys : list string) : list (string * nat) :=
  fold_left (fun groups k => bump k groups) keys [].

Section Accounts.

Variable L : Libraries.
Variable A : AuthLibraries.

Definition verify_password (password hashed : string) : bool :=
  bcrypt_checkpw A password hashed.

(** [not user_id] on the value of [payload.get("sub")] *)
Definition sub_missing (sub : option string) : bool :=
  match sub with
  | None => true
  | Some s => s =? ""
  end.

Definition get_current_user (now : Timestamp) (credentials : string)
  : M State User :=
  match jwt_decode A now credentials with
  | JwtExpired => raise (HTTPException 401 "Token expired")
  | JwtInvalid => raise (HTTPException 401 "Invalid token")
  | JwtDecoded sub =>
      if sub_missing sub then raise (HTTPException 401 "Invalid token")
      else
        let uid := match sub with Some s => s | None => "" end in
        s <- get ;;
        match Mongo.find_one (fun u => user_id u =? uid) (db_users s) with
        | None => raise (HTTPException 401 "User not found")
        | Some user =>
            if negb (user_is_active user) then
              raise (HTTPException 401 "User is deactivated")
            else ret user
        end
  end.

Definition UserResponse_of (u : User) : UserResponse :=
  mkUserResponse (user_id u) (user_email u) (user_name u) (user_role u)
                 (user_created_at u) (user_is_active u).

(** Validation of the request body against [UserLogin]. *)
Definition UserLogin_validate (b : LoginBody) : M State LoginBody :=
  match EmailStr L (lb_email b) with
  | None => raise (HTTPException 422 "value is not a valid email address")
  | Some email => ret (mkLoginBody email (lb_password b))
  end.

Definition login (now : Timestamp) (credentials : LoginBody)
  : M State TokenResponse :=
  s <- get ;;
  match Mongo.find_one (fun u => user_email u =? lb_email credentials)
                       (db_users s) with
  | None => raise (HTTPException 401 "Invalid credentials")
  | Some user =>
      if negb (verify_password (lb_password credentials)
                               (user_password_hash user)) then
        raise (HTTPException 401 "Invalid credentials")
      else if negb (user_is_active user) then
        raise (HTTPException 401 "Account is deactivated")
      else
        let token := create_token L now (user_id user) (user_email user)
                                  (user_role user) in
        ret (mkTokenResponse token "bearer" (UserResponse_of user))
  end.

Definition post_auth_login (now : Timestamp) (body : LoginBody)
  : M State TokenResponse :=
  credentials <- UserLogin_validate body ;;
  login now credentials.

Definition get_me (current_user : User) : M State UserResponse :=
  ret (UserResponse_of current_user).

(** *** User management *)

Definition list_users (current_user : User) : M State (list UserResponse) :=
  check_permission current_user "manage_users" ;;;
  s <- get ;;
  ret (map UserResponse_of (Mongo.to_list 1000 (db_users s))).

(** Validation of the request body against [UserUpdate]. *)
Definition UserUpdate_validate (u : UserUpdate) : M State UserUpdate :=
  match uu_role u with
  | Some r =>
      if str_in r RoleType then ret u
      else raise (HTTPException 422 "Input should be 'admin', 'engineer', 'technician' or 'viewer'")
  | None => ret u
  end.

(** [{"$set": update_data}] with the keys of the update that are not
    [None]. *)
Definition apply_update (update : UserUpdate) (u : User) : User :=
  mkUser (user_id u) (user_email u)
         (match uu_name update with Some n => n | None => user_name u end)
         (match uu_role update with Some r => r | None => user_role u end)
         (user_password_hash u) (user_created_at u)
         (match uu_is_active update with
          | Some b => b
          | None => user_is_active u
          end).

(** Truth value of [update_data]: some key of the update is set. *)
Definition update_data_nonempty (update : UserUpdate) : bool :=
  match uu_name update, uu_role update, uu_is_active update with
  | None, None, None => false
  | _, _, _ => true
  end.

Definition update_user (uid : string) (update : UserUpdate)
           (current_user : User) : M State UserResponse :=
  check_permission current_user "manage_users" ;;;
  s <- get ;;
  match Mongo.find_one (fun u => user_id u =? uid) (db_users s) with
  | None => raise (HTTPException 404 "User not found")
  | Some _ =>
      (if update_data_nonempty update then
         modify (fun s =>
           set_db_users (Mongo.update_one (fun u => user_id u =? uid)
                                          (apply_update update)
                                          (db_users s)) s)
       else ret tt) ;;;
      s' <- get ;;
      match Mongo.find_one (fun u => user_id u =? uid) (db_users s') with
      | Some updated_user => ret (UserResponse_of updated_user)
      | None => raise (Exception "TypeError: argument after ** must be a mapping")
      end
  end.

Definition put_users (uid : string) (body : UserUpdate) (current_user : User)
  : M State UserResponse :=
  update <- UserUpdate_validate body ;;
  update_user uid update current_user.

Definition delete_user (uid : string) (current_user : User)
  : M State string :=
  check_permission current_user "manage_users" ;;;
  if uid =? user_id current_user then
    raise (HTTPException 400 "Cannot delete yourself")
  else
    s <- get ;;
    match Mongo.find_one (fun u => user_id u =? uid) (db_users s) with
    | None => raise (HTTPException 404 "User not found")
    | Some _ =>
        modify (fun s =>
          set_db_users (Mongo.delete_one (fun u => user_id u =? uid)
                                         (db_users s)) s) ;;;
        ret "User deleted"
    end.

(** *** Listings *)

(** The query [list_documents] builds from the role and the [doc_type]
    parameter. *)
Definition list_documents_query (role : string) (doc_type' : option string)
           (d : DocRecord) : bool :=
  if role =? "technician" then doc_type d =? "sop"
  else if role =? "viewer" then str_in (doc_type d) ["sop"; "manual"]
  else match doc_type' with
       | Some t => if t =? "" then true else doc_type d =? t
       | None => true
       end.

Definition list_documents (doc_type' : option string) (current_user : User)
  : M State (list DocumentResponse) :=
  s <- get ;;
  let docs :=
    Mongo.to_list 1000
      (filter (list_documents_query (user_role current_user) doc_type')
              (db_documents s)) in
  if forallb (fun d => str_in (doc_type d) DocType) docs then
    ret (map DocumentResponse_fields docs)
  else raise (Exception "ValidationError: doc_type").

(** [ChatSessionResponse] has the six fields of a session document. *)
Definition list_chat_sessions (current_user : User)
  : M State (list Session) :=
  s <- get ;;
  ret (Mongo.to_list 100
         (Mongo.sort_asc (fun x => (- session_updated_at x)%Z)
            (filter (fun x => session_user_id x =? user_id current_user)
                    (db_chat_sessions s)))).

Definition get_stats (current_user : User) : M State Stats :=
  s <- get ;;
  ret (mkStats
         (List.length (db_documents s))
         (List.length (db_users s))
         (List.length
            (filter (fun x => session_user_id x =? user_id current_user)
                    (db_chat_sessions s)))
         (Mongo.to_list 100 (group_count (map doc_type (db_documents s))))).

End Accounts.

(** ** A concrete instance of the authentication libraries *)

Module DemoAuth.

(** The text before the first dot. *)
Fixpoint until_dot (s : string) : string :=
  match s with
  | EmptyString => EmptyString
  | String c s' => if Ascii.eqb c "."%char then EmptyString
                   else String c (until_dot s')
  end.

(** Decoding of the tokens [Demo.libs] makes: the subject is the text
    before the dot; the empty token is invalid; tokens do not expire. *)
Definition decode (_ : Timestamp) (token : string) : JwtOutcome :=
  if token =? "" then JwtInvalid else JwtDecoded (Some (until_dot token)).

(** Check against the hashes [Demo.libs] makes with the salt "salt". *)
Definition checkpw (password hashed : string) : bool :=
  hashed =? "salt" ++ password.

Definition auth : AuthLibraries := mkAuthLibraries decode checkpw.

Definition eve_env : RegisterEnv := mkRegisterEnv "u-1" "salt" 5 6.

Definition eve_body : RegisterBody :=
  mkRegisterBody "eve@x.com" "Eve" (Some "engineer") "pw".

(** The state after Eve registered on an empty server. *)
Definition eve_registered : State :=
  snd (post_auth_register Demo.libs eve_env eve_body initial_state).

End DemoAuth.

(** ** Definitions used to state the properties *)

(** *** The loop over the search results *)

(** The doc id a search result carries. *)
Definition result_id (ds : Document * Q) : string :=
  md_doc_id (metadata (fst ds)).

(** Number of citations of a document in a list of sources. *)
Definition citations_of_doc (id : string) (srcs : list Citation) : nat :=
  List.length (filter (fun c => cit_doc_id c =? id) srcs).

(** Results that are not the placeholder. *)
Definition non_system (results : list (Document * Q)) : list (Document * Q) :=
  filter (fun ds => negb (md_doc_id (metadata (fst ds)) =? "system")) results.

(** First occurrence of every doc id not yet in [seen]. *)
Fixpoint first_occurrences (seen : list string) (results : list (Document * Q))
  : list (Document * Q) :=
  match results with
  | [] => []
  | ds :: rest =>
      let id := md_doc_id (metadata (fst ds)) in
      if str_in id seen then first_occurrences seen rest
      else ds :: first_occurrences (id :: seen) rest
  end.

(** The citation of one result: none when the record is gone. *)
Definition citation_for (documents : list DocRecord) (ds : Document * Q)
  : list Citation :=
  match db_documents_find_one documents (md_doc_id (metadata (fst ds))) with
  | Some doc_info =>
      [citation_of doc_info (md_doc_id (metadata (fst ds))) (snd ds)]
  | None => []
  end.

(** The loop as the specification words it: skip the sentinel, keep one
    citation per first occurrence, keep every chunk in the context. *)
Definition filter_and_dedupe (documents : list DocRecord)
           (results : list (Document * Q)) : list string * list Citation :=
  (map (fun ds => context_part (fst ds)) (non_system results),
   flat_map (citation_for documents)
            (first_occurrences [] (non_system results))).

Fixpoint seen_after (seen : list string) (results : list (Document * Q))
  : list string :=
  match results with
  | [] => seen
  | ds :: rest =>
      let id := md_doc_id (metadata (fst ds)) in
      if str_in id seen then seen_after seen rest
      else seen_after (id :: seen) rest
  end.

(** *** Search *)

(** Order of scored entries: ascending distance. *)
Definition score_le (x y : Document * Q) : Prop := (snd x <= snd y)%Q.

(** Every entry of the store with its distance to the query. *)
Definition scored (distance : string -> string -> Q) (store : Store)
           (query : string) : list (Document * Q) :=
  map (fun d => (d, distance query (page_content d))) store.

(** *** Server state *)

Definition store_entries (s : option Store) : list Document :=
  match s with Some l => l | None => [] end.

(** Entries of the cached store and of the index directory. *)
Definition index_entries (s : State) : list Document :=
  store_entries (vector_store s) ++ store_entries (faiss_index s).

(** Two states with the same record store and the same uploaded files. *)
Definition same_records (s s' : State) : Prop :=
  uploads s' = uploads s
  /\ db_users s' = db_users s
  /\ db_documents s' = db_documents s
  /\ db_chat_sessions s' = db_chat_sessions s
  /\ db_chat_messages s' = db_chat_messages s.

(** *** One chat exchange *)

(** The session id [chat] works with. *)
Definition chat_session_id (env : ChatEnv) (request : ChatRequest) : string :=
  if session_id_missing (req_session_id request) then uuid_session env
  else match req_session_id request with Some x => x | None => "" end.

(** The session document [chat] creates when the request names none. *)
Definition new_session (env : ChatEnv) (request : ChatRequest)
           (current_user : User) : Session :=
  mkSession (uuid_session env) (user_id current_user)
            (session_title_of (req_message request))
            (now_session_created env) (now_session_updated env) 0.

(** The text of the assistant turn: the answer of the language model, or
    the fallback text when the call raises. *)
Definition reply_text (env : ChatEnv) (request : ChatRequest) (sid : string)
           (context : string) (srcs : list Citation) : string :=
  match llm_send_message env ("rag_" ++ sid ++ "_" ++ uuid_llm_hex env)
                         (system_prompt context) (req_message request) with
  | Some text => text
  | None => fallback_text srcs
  end.

Definition user_message (env : ChatEnv) (request : ChatRequest) (sid : string)
  : Message :=
  mkMessage (uuid_user_msg env) sid "user" (req_message request) None
            (now_user_msg env).

Definition assistant_message (env : ChatEnv) (sid text : string)
           (srcs : list Citation) : Message :=
  mkMessage (uuid_assistant_msg env) sid "assistant" text (Some srcs)
            (now_assistant_msg env).

(** The sessions collection after an exchange. *)
Definition sessions_after (env : ChatEnv) (request : ChatRequest)
           (current_user : User) (sessions : list Session) : list Session :=
  Mongo.update_one
    (fun x => session_id x =? chat_session_id env request)
    (touch_session (now_update env))
    (if session_id_missing (req_session_id request)
     then (sessions ++ [new_session env request current_user])%list
     else sessions).

(** The session document with a given id, as [find_one({"id": sid})]. *)
Definition find_session (sid : string) (sessions : list Session)
  : option Session :=
  Mongo.find_one (fun x => session_id x =? sid) sessions.

(** Messages of a session, in collection order. *)
Definition messages_of (sid : string) (messages : list Message)
  : list Message :=
  filter (fun m => msg_session_id m =? sid) messages.

(** Ascending order on an integer key. *)
Definition key_le {T : Type} (key : T -> Z) (x y : T) : Prop :=
  (key x <= key y)%Z.

(** *** Upload *)

(** The index entries [add_document] makes for a document. *)
Definition chunk_entries (split_text : string -> list string)
           (doc_id title content doc_type : string) : list Document :=
  map (fun cm => mkDocument (fst cm) (snd cm))
      (combine (split_text content)
               (chunk_metadatas doc_id title doc_type
                                (List.length (split_text content)))).

(** The extension [upload_document] reads from the file name. *)
Definition file_ext_of (L : Libraries) (file : UploadFile) : string :=
  str_lower L (path_suffix L (filename file)).

(** The title the document is stored under. *)
Definition doc_title_of (L : Libraries) (file : UploadFile) (title : string)
  : string :=
  if title =? "" then path_stem L (filename file) else title.

(** *** Reachable states *)

(** A generated document id is new: no record and no index entry has it
    ([uuid.uuid4()] does not repeat itself). *)
Definition fresh_doc_id (id : string) (s : State) : Prop :=
  ~ In id (map doc_id (db_documents s))
  /\ ~ In id (map (fun e => md_doc_id (metadata e)) (index_entries s)).

(** One request served by one of the handlers. *)
Inductive step (L : Libraries) : State -> State -> Prop :=
| step_register env body s :
    step L s (snd (post_auth_register L env body s))
| step_upload env file title description doc_type current_user s :
    fresh_doc_id (up_uuid env) s ->
    step L s (snd (upload_document L env file title description doc_type
                                   current_user s))
| step_delete_document id current_user s :
    step L s (snd (delete_document id current_user s))
| step_chat env request current_user s :
    step L s (snd (chat L env request current_user s))
| step_get_session_messages sid current_user s :
    step L s (snd (get_session_messages sid current_user s))
| step_delete_session sid current_user s :
    step L s (snd (delete_session sid current_user s))
| step_user_management users s :
    (* [update_user], [delete_user]: they write [db.users] only *)
    step L s (set_db_users users s)
| step_restart s :
    (* a new process: the cached store is gone, disk and records stay *)
    step L s (set_vector_store None s).

(** States the server reaches from an empty deployment. *)
Inductive reachable (L : Libraries) : State -> Prop :=
| reachable_initial : reachable L initial_state
| reachable_step s s' : reachable L s -> step L s s' -> reachable L s'.

(** An index entry that carries a doc type carries the doc type of every
    record with its doc id. *)
Definition index_matches_records (s : State) : Prop :=
  forall e r t,
    In e (index_entries s) ->
    In r (db_documents s) ->
    doc_id r = md_doc_id (metadata e) ->
    md_doc_type (metadata e) = Some t ->
    doc_type r = t.

(** *** Orders used by the listings *)

(** Most recently updated session first. *)
Definition newer_first (a b : Session) : Prop :=
  (session_updated_at b <= session_updated_at a)%Z.

(** The state after a viewer sent one message on [Demo.two_docs]. *)
Definition one_exchange : State :=
  snd (chat Demo.libs (Demo.chat_env "1" 100 Demo.llm_echo)
            (mkChatRequest "gloves?" None) Demo.viewer Demo.two_docs).

(** *** Statistics *)

(** The count a list of groups gives for a key, 0 when it has none. *)
Fixpoint group_lookup (k : string) (groups : list (string * nat)) : nat :=
  match groups with
  | [] => 0
  | (k', n) :: rest => if k' =? k then n else group_lookup k rest
  end.

(** Sum of the counts of a list of groups. *)
Definition group_total (groups : list (string * nat)) : nat :=
  fold_right (fun g acc => snd g + acc) 0 groups.

(** Number of documents with a given doc type. *)
Definition docs_of_type (t : string) (documents : list DocRecord) : nat :=
  List.length (filter (fun d => doc_type d =? t) documents).

(** * Properties *)

Local Open Scope list_scope.

(** ** Single precision arithmetic and the relevance score *)

Section Float32.

Local Open Scope Q_scope.
Unset Implicit Arguments.

(** Powers of two. *)
Lemma two_pos (z : Z) : 0 < 2 ^ z.
Proof. apply Qpower_0_lt. reflexivity. Qed.

(** [binade x] is the exponent of the power of two at or below [x]. *)
Lemma binade_spec (x : Q) : 0 < x -> 2 ^ binade x <= x /\ x < 2 ^ (binade x + 1).
Proof.
  intros Hx. destruct x as [n d]. 
  assert (Hn : (0 < n)%Z) by (unfold Qlt in Hx; simpl in Hx; lia).
  unfold binade. cbn [Qnum Qden].
  set (a := Z.log2 n). set (b := Z.log2 (Z.pos d)).
  destruct (Z.log2_spec n Hn) as [Ha1 Ha2]. fold a in Ha1, Ha2.
  destruct (Z.log2_spec (Z.pos d) eq_refl) as [Hb1 Hb2]. fold b in Hb1, Hb2.
  assert (Ha0 : (0 <= a)%Z) by apply Z.log2_nonneg.
  assert (Hb0 : (0 <= b)%Z) by apply Z.log2_nonneg.
  assert (Hnd : n # d == inject_Z n / inject_Z (Z.pos d)) by apply Qmake_Qdiv.
  assert (Hdpos : 0 < inject_Z (Z.pos d)) by reflexivity.
  assert (Hup : n # d < 2 ^ (a - b + 1)).
  { rewrite Hnd. apply Qlt_shift_div_r; [exact Hdpos|].
    apply Qlt_le_trans with (inject_Z (2 ^ (a + 1))).
    - rewrite <- Zlt_Qlt. exact Ha2.
    - rewrite Zpower_Qpower by lia.
      replace (a + 1)%Z with ((a - b + 1) + b)%Z by lia.
      rewrite Qpower_plus by discriminate.
      apply Qmult_le_l; [apply two_pos|].
      rewrite <- Zpower_Qpower by lia. rewrite <- Zle_Qle. exact Hb1. }
  assert (Hlow : 2 ^ (a - b - 1) <= n # d).
  { rewrite Hnd. apply Qle_shift_div_l; [exact Hdpos|].
    apply Qle_trans with (inject_Z (2 ^ a)).
    - rewrite Zpower_Qpower by lia.
      replace a with ((a - b - 1) + (b + 1))%Z at 2 by lia.
      rewrite Qpower_plus by discriminate.
      apply Qmult_le_l; [apply two_pos|].
      rewrite <- Zpower_Qpower by lia. rewrite <- Zle_Qle. lia.
    - rewrite <- Zle_Qle. exact Ha1. }
  destruct (Qle_bool (2 ^ (a - b)) (n # d)) eqn:Ht.
  - split; [apply Qle_bool_iff; exact Ht | exact Hup].
  - split; [exact Hlow|].
    replace (a - b - 1 + 1)%Z with (a - b)%Z by lia.
    apply Qnot_le_lt. intros H. apply Qle_bool_iff in H. congruence.
Qed.

(** Rounding to an integer is monotone and keeps the integers. *)
Lemma round_half_even_bounds (x : Q) :
  (Qfloor x <= round_half_even x <= Qfloor x + 1)%Z.
Proof.
  unfold round_half_even.
  destruct (x - inject_Z (Qfloor x) ?= 1 # 2); [destruct (Z.even (Qfloor x))| |]; lia.
Qed.

Lemma round_half_even_inject (z : Z) : round_half_even (inject_Z z) = z.
Proof.
  unfold round_half_even. rewrite Qfloor_Z.
  assert (H : inject_Z z - inject_Z z == 0) by ring.
  rewrite H. reflexivity.
Qed.

Lemma round_half_even_mono (x y : Q) :
  x <= y -> (round_half_even x <= round_half_even y)%Z.
Proof.
  intros Hxy.
  pose proof (Qfloor_resp_le _ _ Hxy) as Hf.
  pose proof (round_half_even_bounds x) as Hx.
  pose proof (round_half_even_bounds y) as Hy.
  destruct (Z.eq_dec (Qfloor x) (Qfloor y)) as [E|NE]; [|lia].
  unfold round_half_even in *. rewrite <- E in *.
  set (f := Qfloor x) in *.
  assert (Hr : x - inject_Z f <= y - inject_Z f).
  { apply Qplus_le_l with (z := inject_Z f). ring_simplify. exact Hxy. }
  assert (Hno : forall a b : Q, a <= b -> b < 1 # 2 -> 1 # 2 <= a -> False).
  { intros a b Hab Hb Ha. apply (Qlt_irrefl (1 # 2)).
    apply Qle_lt_trans with a; [exact Ha|]. apply Qle_lt_trans with b; assumption. }
  assert (Hno' : forall a b : Q, a <= b -> b <= 1 # 2 -> 1 # 2 < a -> False).
  { intros a b Hab Hb Ha. apply (Qlt_irrefl (1 # 2)).
    apply Qlt_le_trans with a; [exact Ha|]. apply Qle_trans with b; assumption. }
  destruct (Qcompare_spec (x - inject_Z f) (1 # 2)) as [Ex|Lx|Gx];
    destruct (Qcompare_spec (y - inject_Z f) (1 # 2)) as [Ey|Ly|Gy].
  - destruct (Z.even f); lia.
  - exfalso. apply (Hno _ _ Hr Ly). rewrite Ex. apply Qle_refl.
  - destruct (Z.even f); lia.
  - destruct (Z.even f); lia.
  - lia.
  - lia.
  - exfalso. apply (Hno' _ _ Hr); [rewrite Ey; apply Qle_refl | exact Gx].
  - exfalso. apply (Hno' _ _ Hr); [apply Qlt_le_weak; exact Ly | exact Gx].
  - lia.
Qed.

Lemma binade_mono (x y : Q) : 0 < x -> x <= y -> (binade x <= binade y)%Z.
Proof.
  intros Hx Hxy.
  assert (Hy : 0 < y) by (apply Qlt_le_trans with x; assumption).
  destruct (binade_spec x Hx) as [Hx1 _].
  destruct (binade_spec y Hy) as [_ Hy2].
  assert (H : 2 ^ binade x < 2 ^ (binade y + 1)).
  { apply Qle_lt_trans with x; [exact Hx1|].
    apply Qle_lt_trans with y; assumption. }
  apply Qpower_lt_compat_l_inv in H; [lia | reflexivity].
Qed.

Lemma float32_ulp_pos (x : Q) : 0 < float32_ulp x.
Proof. apply two_pos. Qed.

(** A multiple of the unit in the last place that bounds [x] bounds the
    float of [x] on the same side. *)
Lemma float32_above (x : Q) (k : Z) :
  inject_Z k * float32_ulp x <= x -> inject_Z k * float32_ulp x <= float32 x.
Proof.
  intros H. unfold float32.
  apply Qmult_le_compat_r; [|apply Qlt_le_weak, float32_ulp_pos].
  rewrite <- Zle_Qle. rewrite <- (round_half_even_inject k).
  apply round_half_even_mono.
  apply Qle_shift_div_l; [apply float32_ulp_pos | exact H].
Qed.

Lemma float32_below (x : Q) (k : Z) :
  x <= inject_Z k * float32_ulp x -> float32 x <= inject_Z k * float32_ulp x.
Proof.
  intros H. unfold float32.
  apply Qmult_le_compat_r; [|apply Qlt_le_weak, float32_ulp_pos].
  rewrite <- Zle_Qle. rewrite <- (round_half_even_inject k).
  apply round_half_even_mono.
  apply Qle_shift_div_r; [apply float32_ulp_pos | exact H].
Qed.

Lemma two_power_split (a b : Z) : 2 ^ (a + b) == 2 ^ a * 2 ^ b.
Proof. apply Qpower_plus. discriminate. Qed.

Lemma two_power_le (a b : Z) : (a <= b)%Z -> 2 ^ a <= 2 ^ b.
Proof. intros H. apply Qpower_le_compat_l; [exact H | discriminate]. Qed.

(** The float of [x] stays between the powers of two around [x]. *)
Lemma float32_upper (x : Q) :
  0 < x -> float32 x <= 2 ^ (Z.max (binade x) (-126) + 1).
Proof.
  intros Hx. destruct (binade_spec x Hx) as [_ H2].
  set (E := Z.max (binade x) (-126)).
  assert (Hs : 2 ^ (E + 1) == inject_Z (2 ^ 24) * float32_ulp x).
  { unfold float32_ulp. fold E. rewrite Zpower_Qpower by lia.
    rewrite <- two_power_split. replace (24 + (E - 23))%Z with (E + 1)%Z by lia.
    reflexivity. }
  rewrite Hs. apply float32_below. rewrite <- Hs.
  apply Qlt_le_weak. apply Qlt_le_trans with (2 ^ (binade x + 1)); [exact H2|].
  apply two_power_le. lia.
Qed.

Lemma float32_lower (y : Q) :
  0 < y -> (-126 <= binade y)%Z -> 2 ^ binade y <= float32 y.
Proof.
  intros Hy Hn. destruct (binade_spec y Hy) as [H1 _].
  assert (Hs : 2 ^ binade y == inject_Z (2 ^ 23) * float32_ulp y).
  { unfold float32_ulp. rewrite Z.max_l by lia. rewrite Zpower_Qpower by lia.
    rewrite <- two_power_split. replace (23 + (binade y - 23))%Z with (binade y) by lia.
    reflexivity. }
  rewrite Hs. apply float32_above. rewrite <- Hs. exact H1.
Qed.

(** Rounding is monotone. *)
Lemma float32_mono (x y : Q) : 0 < x -> x <= y -> float32 x <= float32 y.
Proof.
  intros Hx Hxy.
  assert (Hy : 0 < y) by (apply Qlt_le_trans with x; assumption).
  pose proof (binade_mono x y Hx Hxy) as Hb.
  destruct (Z.eq_dec (Z.max (binade x) (-126)) (Z.max (binade y) (-126))) as [E|NE].
  - unfold float32, float32_ulp. rewrite <- E.
    apply Qmult_le_compat_r; [|apply Qlt_le_weak, two_pos].
    rewrite <- Zle_Qle. apply round_half_even_mono.
    apply Qmult_le_compat_r; [exact Hxy|].
    apply Qlt_le_weak, Qinv_lt_0_compat, two_pos.
  - apply Qle_trans with (2 ^ (Z.max (binade x) (-126) + 1)).
    + apply float32_upper; exact Hx.
    + apply Qle_trans with (2 ^ binade y).
      * apply two_power_le. lia.
      * apply float32_lower; [exact Hy | lia].
Qed.

(** Nothing at or above the least subnormal number is rounded to zero. *)
Lemma float32_pos (x : Q) : 2 ^ (-149) <= x -> 0 < float32 x.
Proof.
  intros H.
  assert (Hx : 0 < x) by (apply Qlt_le_trans with (2 ^ (-149)); [reflexivity | exact H]).
  destruct (Z_le_gt_dec (-126) (binade x)) as [Hn|Hs].
  - apply Qlt_le_trans with (2 ^ binade x); [apply two_pos|].
    apply float32_lower; assumption.
  - assert (Hu : float32_ulp x = 2 ^ (-149)).
    { unfold float32_ulp. rewrite Z.max_r by lia. reflexivity. }
    apply Qlt_le_trans with (inject_Z 1 * float32_ulp x).
    + rewrite Hu. reflexivity.
    + apply float32_above. rewrite Hu. rewrite Qmult_1_l. exact H.
Qed.

Lemma float32_1 : float32 1 == 1.
Proof. reflexivity. Qed.

Lemma float32_2_128 : float32 (1 + 2 ^ 128) == 2 ^ 128.
Proof. vm_compute. reflexivity. Qed.

Lemma float32_sum_bounds (d : Q) :
  0 <= d -> 1 <= float32 (1 + d).
Proof.
  intros Hd. apply Qle_trans with (float32 1).
  - rewrite float32_1. apply Qle_refl.
  - apply float32_mono; [reflexivity|].
    rewrite <- (Qplus_0_r 1) at 1. apply Qplus_le_r. exact Hd.
Qed.

Lemma float32_sum_max (d : Q) :
  0 <= d -> d <= float32_max -> float32 (1 + d) <= float32_max.
Proof.
  intros Hd Hm.
  apply Qle_trans with (float32 (1 + float32_max)).
  - apply float32_mono.
    + apply Qlt_le_trans with 1; [reflexivity|].
      rewrite <- (Qplus_0_r 1) at 1. apply Qplus_le_r. exact Hd.
    + apply Qplus_le_r. exact Hm.
  - vm_compute. discriminate.
Qed.

Lemma relevance_score_pos (d : Q) :
  0 <= d -> d <= float32_max -> 0 < relevance_score d.
Proof.
  intros Hd Hm. unfold relevance_score. apply float32_pos.
  pose proof (float32_sum_bounds d Hd) as H1.
  pose proof (float32_sum_max d Hd Hm) as H2.
  assert (Hs : 0 < float32 (1 + d)) by (apply Qlt_le_trans with 1; [reflexivity | exact H1]).
  apply Qle_shift_div_l; [exact Hs|].
  apply Qle_trans with (2 ^ (-149) * float32_max).
  - apply Qmult_le_l; [reflexivity | exact H2].
  - vm_compute. discriminate.
Qed.

Lemma relevance_score_le_1 (d : Q) : 0 <= d -> relevance_score d <= 1.
Proof.
  intros Hd. unfold relevance_score.
  pose proof (float32_sum_bounds d Hd) as H1.
  assert (Hs : 0 < float32 (1 + d)) by (apply Qlt_le_trans with 1; [reflexivity | exact H1]).
  apply Qle_trans with (float32 1); [|rewrite float32_1; apply Qle_refl].
  apply float32_mono.
  - apply Qlt_shift_div_l; [exact Hs | rewrite Qmult_0_l; reflexivity].
  - apply Qle_shift_div_r; [exact Hs | rewrite Qmult_1_l; exact H1].
Qed.

Lemma relevance_score_antitone (d1 d2 : Q) :
  0 <= d1 -> d1 <= d2 -> relevance_score d2 <= relevance_score d1.
Proof.
  intros H1 H12. unfold relevance_score.
  assert (H2 : 0 <= d2) by (apply Qle_trans with d1; assumption).
  pose proof (float32_sum_bounds d1 H1) as B1.
  pose proof (float32_sum_bounds d2 H2) as B2.
  assert (P1 : 0 < float32 (1 + d1)) by (apply Qlt_le_trans with 1; [reflexivity | exact B1]).
  assert (P2 : 0 < float32 (1 + d2)) by (apply Qlt_le_trans with 1; [reflexivity | exact B2]).
  assert (Hs : float32 (1 + d1) <= float32 (1 + d2)).
  { apply float32_mono.
    - apply Qlt_le_trans with 1; [reflexivity|].
      rewrite <- (Qplus_0_r 1) at 1. apply Qplus_le_r. exact H1.
    - apply Qplus_le_r. exact H12. }
  apply float32_mono.
  - apply Qlt_shift_div_l; [exact P2 | rewrite Qmult_0_l; reflexivity].
  - apply Qle_shift_div_l; [exact P1|].
    unfold Qdiv. rewrite Qmult_1_l, Qmult_comm.
    apply Qle_shift_div_r; [exact P2|]. rewrite Qmult_1_l. exact Hs.
Qed.

(** Rounding moves a number by at most half a unit in the last place. *)
Lemma round_half_even_error (q : Q) :
  q - (1 # 2) <= inject_Z (round_half_even q) <= q + (1 # 2).
Proof.
  unfold round_half_even.
  pose proof (Qfloor_le q) as H1. pose proof (Qlt_floor q) as H2.
  rewrite inject_Z_plus in H2. change (inject_Z 1) with 1 in H2.
  destruct (Qcompare_spec (q - inject_Z (Qfloor q)) (1 # 2)) as [E|E|E];
    [destruct (Z.even (Qfloor q))| |];
    rewrite ?inject_Z_plus; change (inject_Z 1) with 1; lra.
Qed.

Lemma float32_error (x : Q) :
  x - (1 # 2) * float32_ulp x <= float32 x <= x + (1 # 2) * float32_ulp x.
Proof.
  unfold float32. pose proof (float32_ulp_pos x) as Hu.
  set (u := float32_ulp x) in *.
  pose proof (round_half_even_error (x / u)) as [H1 H2].
  set (k := inject_Z (round_half_even (x / u))) in *.
  assert (Hq : x / u * u == x) by (field; lra).
  split.
  - apply Qle_trans with ((x / u - (1 # 2)) * u).
    + setoid_replace ((x / u - (1 # 2)) * u) with (x / u * u - (1 # 2) * u) by ring.
      rewrite Hq. apply Qle_refl.
    + apply Qmult_le_compat_r; [exact H1 | lra].
  - apply Qle_trans with ((x / u + (1 # 2)) * u).
    + apply Qmult_le_compat_r; [exact H2 | lra].
    + setoid_replace ((x / u + (1 # 2)) * u) with (x / u * u + (1 # 2) * u) by ring.
      rewrite Hq. apply Qle_refl.
Qed.

Lemma binade_1 : binade 1 = 0%Z.
Proof. reflexivity. Qed.

Lemma float32_ulp_above_1 (x : Q) : 1 <= x -> float32_ulp x <= x * (1 # 8388608).
Proof.
  intros Hx.
  assert (Hpos : 0 < x) by lra.
  pose proof (binade_mono 1 x eq_refl Hx) as Hb. rewrite binade_1 in Hb.
  destruct (binade_spec x Hpos) as [Hlow _].
  unfold float32_ulp. rewrite Z.max_l by lia.
  replace (binade x - 23)%Z with (binade x + -23)%Z by lia.
  rewrite two_power_split. change (2 ^ (-23)) with (1 # 8388608).
  apply Qmult_le_compat_r; [exact Hlow | discriminate].
Qed.

Lemma float32_ulp_below_1 (y : Q) : 0 < y -> y <= 1 -> float32_ulp y <= 1 # 8388608.
Proof.
  intros Hpos Hy.
  pose proof (binade_mono y 1 Hpos Hy) as Hb. rewrite binade_1 in Hb.
  unfold float32_ulp. change (1 # 8388608) with (2 ^ (-23)).
  apply two_power_le. lia.
Qed.

(** The rounded quotient of the rounded sum is within [2 ^ -23] of the
    exact quotient. *)
Lemma float32_quotient_error (x : Q) :
  1 <= x -> 1 <= float32 x ->
  Qabs (float32 (1 / float32 x) - 1 / x) <= 1 # 8388608.
Proof.
  intros Hx Hs1.
  pose proof (float32_error x) as [Ex1 Ex2].
  pose proof (float32_ulp_above_1 x Hx) as Ux.
  remember (float32_ulp x) as u eqn:Eu. clear Eu.
  remember (float32 x) as s eqn:Es. clear Es.
  assert (Hy0 : 0 < 1 / s) by (apply Qlt_shift_div_l; lra).
  assert (Hy1 : 1 / s <= 1) by (apply Qle_shift_div_r; lra).
  pose proof (float32_error (1 / s)) as [Ey1 Ey2].
  pose proof (float32_ulp_below_1 (1 / s) Hy0 Hy1) as Uy.
  remember (float32_ulp (1 / s)) as v eqn:Ev. clear Ev.
  remember (float32 (1 / s)) as r eqn:Er. clear Er.
  assert (Hsx : 0 < s * x) by (apply Qmult_lt_0_compat; lra).
  assert (Hdiff : 1 / s - 1 / x == (x - s) / (s * x)) by (field; lra).
  assert (Hm : (1 # 16777216) * x <= (1 # 16777216) * (s * x)).
  { setoid_replace ((1 # 16777216) * (s * x))
      with (s * ((1 # 16777216) * x)) by ring.
    setoid_replace ((1 # 16777216) * x)
      with (1 * ((1 # 16777216) * x)) at 1 by ring.
    apply Qmult_le_compat_r; [exact Hs1 | lra]. }
  assert (Hq1 : (x - s) / (s * x) <= 1 # 16777216).
  { apply Qle_shift_div_r; [exact Hsx | lra]. }
  assert (Hq2 : - (1 # 16777216) <= (x - s) / (s * x)).
  { apply Qle_shift_div_l; [exact Hsx | lra]. }
  apply Qabs_Qle_condition. lra.
Qed.

Lemma relevance_score_error (d : Q) :
  0 <= d -> Qabs (relevance_score d - 1 / (1 + d)) <= 1 # 8388608.
Proof.
  intros Hd. unfold relevance_score. apply float32_quotient_error.
  - lra.
  - exact (float32_sum_bounds d Hd).
Qed.

End Float32.

Set Implicit Arguments.

(** ** The loop over the search results *)

Lemma str_in_spec (x : string) (l : list string) :
  str_in x l = true <-> In x l.
Proof.
  unfold str_in. rewrite existsb_exists. split.
  - intros [y [Hy Heq]]. apply String.eqb_eq in Heq. now subst.
  - intros H. exists x. split; [exact H | apply String.eqb_refl].
Qed.

Lemma str_in_false (x : string) (l : list string) :
  str_in x l = false <-> ~ In x l.
Proof.
  rewrite <- str_in_spec. destruct (str_in x l); split; congruence.
Qed.

Lemma chat_loop_from (documents : list DocRecord)
      (results : list (Document * Q)) (acc : LoopState) :
  fold_left (chat_loop_body documents) results acc =
  mkLoopState
    (context_parts acc
       ++ map (fun ds => context_part (fst ds)) (non_system results))
    (sources acc
       ++ flat_map (citation_for documents)
                   (first_occurrences (seen_docs acc) (non_system results)))
    (seen_after (seen_docs acc) (non_system results)).
Proof.
  revert acc. induction results as [|[doc score] rest IH]; intros acc.
  - simpl. rewrite !app_nil_r. now destruct acc.
  - simpl fold_left. rewrite IH. unfold chat_loop_body, non_system. simpl.
    destruct (md_doc_id (metadata doc) =? "system") eqn:Hsys; simpl.
    + reflexivity.
    + destruct (str_in (md_doc_id (metadata doc)) (seen_docs acc)) eqn:Hseen;
        simpl.
      * rewrite <- app_assoc. reflexivity.
      * unfold citation_for at 2. simpl.
        destruct (db_documents_find_one documents (md_doc_id (metadata doc)));
          simpl; rewrite <- !app_assoc; reflexivity.
Qed.

Lemma chat_loop_refines (documents : list DocRecord)
      (results : list (Document * Q)) :
  (context_parts (chat_loop documents results),
   sources (chat_loop documents results))
  = filter_and_dedupe documents results.
Proof.
  unfold chat_loop. rewrite chat_loop_from. reflexivity.
Qed.

Lemma non_system_ids (results : list (Document * Q)) (id : string) :
  In id (map result_id (non_system results))
  <-> In id (map result_id results) /\ id <> "system".
Proof.
  unfold non_system. induction results as [|ds rest IH]; simpl.
  - tauto.
  - destruct (md_doc_id (metadata (fst ds)) =? "system") eqn:E; simpl.
    + apply String.eqb_eq in E. rewrite IH. unfold result_id at 2.
      split; [tauto|]. intros [[H|H] Hn]; [congruence | tauto].
    + apply String.eqb_neq in E. rewrite IH. unfold result_id at 1 3.
      split; [|tauto]. intros [H|H]; [|tauto]. subst id. tauto.
Qed.

Lemma first_occurrences_ids (results : list (Document * Q)) :
  forall seen id,
    In id (map result_id (first_occurrences seen results))
    <-> In id (map result_id results) /\ ~ In id seen.
Proof.
  induction results as [|ds rest IH]; intros seen id; simpl.
  - tauto.
  - fold (result_id ds).
    destruct (str_in (result_id ds) seen) eqn:E.
    + apply str_in_spec in E. rewrite IH.
      split; [tauto|]. intros [[H|H] Hn]; [subst; tauto | tauto].
    + apply str_in_false in E. simpl. rewrite IH. simpl.
      split.
      * intros [H|H]; [subst; tauto | tauto].
      * intros [[H|H] Hn]; [tauto|].
        destruct (string_dec (result_id ds) id); tauto.
Qed.

Lemma first_occurrences_NoDup (results : list (Document * Q)) :
  forall seen, NoDup (map result_id (first_occurrences seen results)).
Proof.
  induction results as [|ds rest IH]; intros seen; simpl.
  - constructor.
  - fold (result_id ds). destruct (str_in (result_id ds) seen).
    + apply IH.
    + simpl. constructor; [|apply IH].
      rewrite first_occurrences_ids. simpl. tauto.
Qed.

Lemma first_occurrences_app (a b : list (Document * Q)) :
  forall seen,
    first_occurrences seen (a ++ b)
    = first_occurrences seen a ++ first_occurrences (seen_after seen a) b.
Proof.
  induction a as [|ds rest IH]; intros seen; simpl.
  - reflexivity.
  - destruct (str_in (md_doc_id (metadata (fst ds))) seen).
    + apply IH.
    + simpl. now rewrite IH.
Qed.

Lemma seen_after_spec (a : list (Document * Q)) :
  forall seen id,
    In id (seen_after seen a) <-> In id seen \/ In id (map result_id a).
Proof.
  induction a as [|ds rest IH]; intros seen id; simpl.
  - tauto.
  - fold (result_id ds). destruct (str_in (result_id ds) seen) eqn:E.
    + apply str_in_spec in E. rewrite IH.
      split; [tauto|]. intros [H|[H|H]]; [tauto | subst; tauto | tauto].
    + rewrite IH. simpl. tauto.
Qed.

Lemma citation_for_id (documents : list DocRecord) (ds : Document * Q)
      (c : Citation) :
  In c (citation_for documents ds) -> cit_doc_id c = result_id ds.
Proof.
  unfold citation_for.
  destruct (db_documents_find_one documents (md_doc_id (metadata (fst ds))));
    simpl; [|tauto].
  intros [H|[]]. now subst c.
Qed.

Lemma citations_of_doc_app (id : string) (a b : list Citation) :
  citations_of_doc id (a ++ b) = citations_of_doc id a + citations_of_doc id b.
Proof.
  unfold citations_of_doc. now rewrite filter_app, length_app.
Qed.

Lemma citations_of_doc_absent (documents : list DocRecord) (id : string)
      (l : list (Document * Q)) :
  ~ In id (map result_id l) ->
  citations_of_doc id (flat_map (citation_for documents) l) = 0.
Proof.
  induction l as [|ds rest IH]; simpl; intros Hn.
  - reflexivity.
  - rewrite citations_of_doc_app, IH by tauto.
    unfold citation_for, citations_of_doc. fold (result_id ds).
    destruct (db_documents_find_one documents (result_id ds)); simpl;
      [|reflexivity].
    destruct (result_id ds =? id) eqn:E; [|reflexivity].
    apply String.eqb_eq in E. tauto.
Qed.

Lemma citations_of_doc_NoDup (documents : list DocRecord) (id : string)
      (l : list (Document * Q)) :
  NoDup (map result_id l) ->
  In id (map result_id l) ->
  citations_of_doc id (flat_map (citation_for documents) l)
  = match db_documents_find_one documents id with
    | Some _ => 1
    | None => 0
    end.
Proof.
  induction l as [|ds rest IH]; simpl; intros Hnd Hin.
  - tauto.
  - inversion Hnd as [|x xs Hx Hrest]; subst.
    rewrite citations_of_doc_app.
    destruct (string_dec (result_id ds) id) as [Heq|Hne].
    + subst id. rewrite citations_of_doc_absent by exact Hx.
      unfold citation_for, citations_of_doc. fold (result_id ds).
      destruct (db_documents_find_one documents (result_id ds)); simpl;
        [|reflexivity].
      now rewrite String.eqb_refl.
    + rewrite IH by tauto.
      unfold citation_for at 1. unfold citations_of_doc at 1.
      fold (result_id ds).
      destruct (db_documents_find_one documents (result_id ds)); simpl;
        [|reflexivity].
      apply String.eqb_neq in Hne. now rewrite Hne.
Qed.

(** C3.  The loop of [chat] over the search results, taken in relevance
    order: placeholder entries give neither a context part nor a citation;
    every other doc id gets exactly one citation, computed at its first
    occurrence, however many of its chunks matched; and the citation is
    left out when the document record is no longer in the record store. *)
Theorem chat_loop_one_citation_per_document
        (documents : list DocRecord) (results : list (Document * Q)) :
  let acc := chat_loop documents results in
  (context_parts acc, sources acc) = filter_and_dedupe documents results
  /\ List.length (context_parts acc) = List.length (non_system results)
  /\ (forall c, In c (sources acc) -> cit_doc_id c <> "system")
  /\ (forall id,
        citations_of_doc id (sources acc) <= 1
        /\ (citations_of_doc id (sources acc) = 1
            <-> id <> "system"
                /\ In id (map result_id results)
                /\ db_documents_find_one documents id <> None))
  /\ (forall pre doc score post doc_info,
        results = pre ++ (doc, score) :: post ->
        md_doc_id (metadata doc) <> "system" ->
        ~ In (md_doc_id (metadata doc)) (map result_id pre) ->
        db_documents_find_one documents (md_doc_id (metadata doc))
        = Some doc_info ->
        In (citation_of doc_info (md_doc_id (metadata doc)) score)
           (sources acc)).
Proof.
  intros acc.
  assert (Href := chat_loop_refines documents results).
  fold acc in Href. unfold filter_and_dedupe in Href.
  injection Href as Hctx Hsrc.
  split; [|split; [|split; [|split]]].
  - unfold filter_and_dedupe. now rewrite Hctx, Hsrc.
  - rewrite Hctx. apply length_map.
  - intros c Hc. rewrite Hsrc in Hc. apply in_flat_map in Hc.
    destruct Hc as [ds [Hds Hc]]. apply citation_for_id in Hc. rewrite Hc.
    assert (Hin : In (result_id ds)
                     (map result_id (first_occurrences [] (non_system results))))
      by now apply in_map.
    apply first_occurrences_ids in Hin. destruct Hin as [Hin _].
    apply non_system_ids in Hin. tauto.
  - intros id. rewrite Hsrc.
    destruct (in_dec string_dec id
                (map result_id (first_occurrences [] (non_system results))))
      as [Hin|Hout].
    + rewrite citations_of_doc_NoDup
        by (try apply first_occurrences_NoDup; exact Hin).
      apply first_occurrences_ids in Hin. destruct Hin as [Hin _].
      apply non_system_ids in Hin.
      destruct (db_documents_find_one documents id).
      * split; [lia|]. split; [intros _|reflexivity].
        repeat split; try tauto. discriminate.
      * split; [lia|]. split; [discriminate|]. tauto.
    + rewrite citations_of_doc_absent by exact Hout.
      split; [lia|]. split; [discriminate|].
      intros [Hsys [Hin _]]. exfalso. apply Hout.
      apply first_occurrences_ids. split; [|simpl; tauto].
      apply non_system_ids. tauto.
  - intros pre doc score post doc_info Hres Hsys Hfirst Hfind.
    rewrite Hsrc. apply in_flat_map. exists (doc, score). split.
    + subst results. unfold non_system. rewrite filter_app. simpl.
      apply String.eqb_neq in Hsys. rewrite Hsys. simpl.
      rewrite first_occurrences_app. apply in_or_app. right. simpl.
      assert (Hns : str_in (md_doc_id (metadata doc))
                      (seen_after []
                         (filter (fun ds => negb (md_doc_id (metadata (fst ds)) =? "system")) pre))
                    = false).
      { apply str_in_false. rewrite seen_after_spec. simpl.
        intros [[]|Hin]. apply (non_system_ids pre) in Hin. tauto. }
      rewrite Hns. left. reflexivity.
    + unfold citation_for. simpl. rewrite Hfind. left. reflexivity.
Qed.

Lemma chat_loop_one_citation_per_document_witness :
  citations_of_doc "d-1"
    (sources (chat_loop (db_documents Demo.two_docs) Demo.mixed_results)) = 1.
Proof.
  apply (proj2 (proj1 (proj2 (proj2 (proj2
           (chat_loop_one_citation_per_document
              (db_documents Demo.two_docs) Demo.mixed_results)))) "d-1"%string)).
  split; [discriminate|]. split; [simpl; tauto | discriminate].
Defined.

Lemma first_occurrences_incl (results : list (Document * Q)) :
  forall seen ds, In ds (first_occurrences seen results) -> In ds results.
Proof.
  induction results as [|x rest IH]; intros seen ds; simpl; [tauto|].
  destruct (str_in (md_doc_id (metadata (fst x))) seen).
  - intros H. right. eapply IH, H.
  - intros [H|H]; [now left | right; eapply IH, H].
Qed.

Lemma sources_from_results (documents : list DocRecord)
      (results : list (Document * Q)) (c : Citation) :
  In c (sources (chat_loop documents results)) ->
  exists doc d doc_info,
    In (doc, d) results
    /\ md_doc_id (metadata doc) <> "system"%string
    /\ db_documents_find_one documents (md_doc_id (metadata doc))
       = Some doc_info
    /\ c = citation_of doc_info (md_doc_id (metadata doc)) d.
Proof.
  intros Hc.
  pose proof (chat_loop_refines documents results) as Href.
  unfold filter_and_dedupe in Href. injection Href as _ Hsrc.
  rewrite Hsrc in Hc. apply in_flat_map in Hc.
  destruct Hc as [[doc d] [Hds Hc]].
  apply first_occurrences_incl in Hds.
  unfold non_system in Hds. apply filter_In in Hds.
  destruct Hds as [Hin Hsys]. simpl in Hsys.
  apply negb_true_iff, String.eqb_neq in Hsys.
  unfold citation_for in Hc. simpl in Hc.
  destruct (db_documents_find_one documents (md_doc_id (metadata doc)))
    as [doc_info|] eqn:E; [|destruct Hc].
  destruct Hc as [Hc|[]]. exists doc, d, doc_info. now repeat split.
Qed.

(** On sample distances, among them the smallest and the largest float,
    [relevance_score] gives the float that the binary32 operations of the
    IEEE 754 specification give. *)
Example relevance_score_is_binary32_arithmetic :
  Forall (fun d => (relevance_score (binary32_value d)
                    == binary32_value (binary32_relevance_score d))%Q)
         Demo.binary32_distances.
Proof. repeat constructor; vm_compute; reflexivity. Qed.

(** C8, as stated, fails in the single precision arithmetic of the
    source.  The distances [0] and [2 ^ -30] are both floats and differ,
    yet both score [1]: the closer match does not score strictly higher.
    The distance [1 / 2] scores [11184811 / 16777216], the float next to
    [2 / 3] and not [1 / (1 + d)]; a citation with that score is reported
    by the loop. *)
Lemma relevance_score_rounding_counterexample :
  (0 <= 0)%Q /\ (0 < 1 # 1073741824)%Q
  /\ (relevance_score 0 == 1)%Q
  /\ (relevance_score (1 # 1073741824) == 1)%Q
  /\ ~ (relevance_score (1 # 1073741824) < relevance_score 0)%Q
  /\ (relevance_score (1 # 2) == 11184811 # 16777216)%Q
  /\ ~ (relevance_score (1 # 2) == 1 / (1 + (1 # 2)))%Q
  /\ exists c,
       In c (sources (chat_loop (db_documents Demo.two_docs)
                                Demo.mixed_results))
       /\ cit_doc_id c = "d-1"%string
       /\ ~ (cit_relevance_score c == 1 / (1 + (1 # 2)))%Q.
Proof.
  split; [discriminate|]. split; [reflexivity|].
  split; [vm_compute; reflexivity|]. split; [vm_compute; reflexivity|].
  split; [vm_compute; discriminate|]. split; [vm_compute; reflexivity|].
  split; [vm_compute; discriminate|].
  eexists. split; [left; reflexivity|]. split; [reflexivity|].
  vm_compute. discriminate.
Qed.

(** C8, amended.  The relevance score of a citation is [1 / (1 + d)]
    evaluated in single precision, the sum and the quotient each rounded
    to the nearest float, for the distance [d] of the search result the
    citation was made from; for [d >= 0] it is within [2 ^ -23] of
    [1 / (1 + d)] and at most 1, for a finite [d >= 0] it is positive, so
    in (0, 1], and a smaller distance never gives a smaller score. *)
Theorem relevance_score_unit_interval :
  (forall documents results c,
      In c (sources (chat_loop documents results)) ->
      exists doc d,
        In (doc, d) results
        /\ cit_doc_id c = md_doc_id (metadata doc)
        /\ cit_relevance_score c = float32 (1 / float32 (1 + d))
        /\ ((0 <= d)%Q ->
            (Qabs (cit_relevance_score c - 1 / (1 + d)) <= 1 # 8388608)%Q
            /\ (cit_relevance_score c <= 1)%Q
            /\ ((d <= float32_max)%Q -> (0 < cit_relevance_score c)%Q)))
  /\ (forall d1 d2,
        (0 <= d1)%Q -> (d1 <= d2)%Q ->
        (relevance_score d2 <= relevance_score d1)%Q).
Proof.
  split.
  - intros documents results c Hc.
    apply sources_from_results in Hc.
    destruct Hc as (doc & d & doc_info & Hin & _ & _ & ->).
    exists doc, d. simpl. repeat split; try assumption.
    + now apply relevance_score_error.
    + now apply relevance_score_le_1.
    + now apply relevance_score_pos.
  - intros d1 d2. apply relevance_score_antitone.
Qed.

Lemma relevance_score_unit_interval_witness :
  (relevance_score (4 # 1) <= relevance_score (1 # 1))%Q.
Proof.
  apply (proj2 relevance_score_unit_interval (1 # 1)%Q (4 # 1)%Q).
  - discriminate.
  - discriminate.
Defined.

(** ** Nearest-neighbour search *)

Lemma insert_scored_perm (x : Document * Q) (l : list (Document * Q)) :
  Permutation (insert_scored x l) (x :: l).
Proof.
  induction l as [|y l IH]; simpl.
  - apply Permutation_refl.
  - destruct (Qle_bool (snd x) (snd y)).
    + apply Permutation_refl.
    + eapply perm_trans; [apply perm_skip, IH | apply perm_swap].
Qed.

Lemma sort_scored_perm (l : list (Document * Q)) :
  Permutation (sort_scored l) l.
Proof.
  induction l as [|x l IH]; simpl.
  - constructor.
  - eapply perm_trans; [apply insert_scored_perm | now apply perm_skip].
Qed.

Lemma insert_scored_sorted (x : Document * Q) (l : list (Document * Q)) :
  StronglySorted score_le l -> StronglySorted score_le (insert_scored x l).
Proof.
  induction l as [|y l IH]; simpl; intros Hs.
  - constructor; constructor.
  - inversion Hs as [|y' l' Hl Hy]; subst.
    destruct (Qle_bool (snd x) (snd y)) eqn:E.
    + apply Qle_bool_iff in E. constructor; [exact Hs|].
      constructor; [exact E|].
      rewrite Forall_forall in *. intros z Hz. unfold score_le in *.
      eapply Qle_trans; [exact E | now apply Hy].
    + assert (Hyx : (snd y <= snd x)%Q).
      { apply Qlt_le_weak, Qnot_le_lt. intros H.
        apply Qle_bool_iff in H. congruence. }
      constructor; [now apply IH|].
      rewrite Forall_forall in *. intros z Hz.
      apply (Permutation_in _ (insert_scored_perm x l)) in Hz.
      destruct Hz as [Hz|Hz]; [subst z; exact Hyx | now apply Hy].
Qed.

Lemma sort_scored_sorted (l : list (Document * Q)) :
  StronglySorted score_le (sort_scored l).
Proof.
  induction l as [|x l IH]; simpl.
  - constructor.
  - now apply insert_scored_sorted.
Qed.

Lemma StronglySorted_app_inv {A} (R : A -> A -> Prop) (a b : list A) :
  StronglySorted R (a ++ b) ->
  StronglySorted R a /\ forall x y, In x a -> In y b -> R x y.
Proof.
  induction a as [|h a IH]; simpl; intros Hs.
  - split; [constructor | tauto].
  - inversion Hs as [|h' l' Hl Hh]; subst.
    destruct (IH Hl) as [Ha Hab]. split.
    + constructor; [exact Ha|].
      rewrite Forall_forall in *. intros z Hz. apply Hh.
      apply in_or_app. now left.
    + intros x y [Hx|Hx] Hy.
      * subst x. rewrite Forall_forall in Hh. apply Hh.
        apply in_or_app. now right.
      * now apply Hab.
Qed.

Lemma In_firstn {A} (n : nat) (l : list A) (x : A) :
  In x (firstn n l) -> In x l.
Proof.
  intros H. rewrite <- (firstn_skipn n l). apply in_or_app. now left.
Qed.

Section Nearest.

Variable distance : string -> string -> Q.
Variable store : Store.
Variable query : string.
Variable n : nat.

Lemma nearest_length :
  List.length (nearest distance store query n) = Nat.min n (List.length store).
Proof.
  unfold nearest. rewrite length_firstn.
  rewrite (Permutation_length (sort_scored_perm _)), length_map. reflexivity.
Qed.

Lemma nearest_from_store (ds : Document * Q) :
  In ds (nearest distance store query n) ->
  In (fst ds) store /\ snd ds = distance query (page_content (fst ds)).
Proof.
  unfold nearest. intros H. apply In_firstn in H.
  apply (Permutation_in _ (sort_scored_perm _)) in H.
  apply in_map_iff in H. destruct H as [d [Hd Hin]]. subst ds. simpl. tauto.
Qed.

Lemma nearest_sorted :
  StronglySorted score_le (nearest distance store query n).
Proof.
  unfold nearest.
  pose proof (sort_scored_sorted (scored distance store query)) as Hs.
  unfold scored in Hs. rewrite <- (firstn_skipn n) in Hs.
  now apply StronglySorted_app_inv in Hs.
Qed.

(** An entry left out of the answer is at least as far as every entry
    in it. *)
Lemma nearest_closest (d : Document) :
  In d store ->
  In (d, distance query (page_content d)) (nearest distance store query n)
  \/ forall c, In c (nearest distance store query n) ->
               (snd c <= distance query (page_content d))%Q.
Proof.
  intros Hd. unfold nearest.
  set (l := sort_scored (map (fun d => (d, distance query (page_content d))) store)).
  assert (Hin : In (d, distance query (page_content d)) l).
  { apply (Permutation_in _ (Permutation_sym (sort_scored_perm _))).
    apply in_map_iff. now exists d. }
  rewrite <- (firstn_skipn n l) in Hin. apply in_app_or in Hin.
  destruct Hin as [Hin|Hin]; [now left | right].
  intros c Hc.
  pose proof (sort_scored_sorted
                (map (fun d => (d, distance query (page_content d))) store)) as Hs.
  fold l in Hs. rewrite <- (firstn_skipn n l) in Hs.
  apply StronglySorted_app_inv in Hs. destruct Hs as [_ Hs].
  exact (Hs _ _ Hc Hin).
Qed.

End Nearest.

(** ** The vector store manager *)

Ltac run_handler :=
  cbv [Handler.bind Handler.ret Handler.raise Handler.get Handler.modify
       Handler.try_except] in *.

Lemma same_records_refl (s : State) : same_records s s.
Proof. repeat split. Qed.

Lemma same_records_trans (a b c : State) :
  same_records a b -> same_records b c -> same_records a c.
Proof.
  unfold same_records. intros (H1 & H2 & H3 & H4 & H5) (K1 & K2 & K3 & K4 & K5).
  repeat split; congruence.
Qed.

Lemma embeddings_up_spec (ie : IndexEnv) :
  embeddings_up ie = true ->
  embed_retry_ok ie = true /\ embed_query_ok ie = true.
Proof.
  unfold embeddings_up. rewrite !andb_true_iff. tauto.
Qed.

Lemma load_or_create_store_loaded (ie : IndexEnv) (st : State) (store : Store) :
  vector_store st = Some store ->
  load_or_create_store ie st = (Ok store, st).
Proof.
  intros H. unfold load_or_create_store. run_handler. now rewrite H.
Qed.

Lemma load_or_create_store_frame (ie : IndexEnv) (st : State) :
  forall r st1,
    load_or_create_store ie st = (r, st1) ->
    same_records st st1
    /\ (forall e, In e (index_entries st1) ->
                  In e (index_entries st) \/ e = placeholder)
    /\ (forall store, r = Ok store -> vector_store st1 = Some store)
    /\ (embed_retry_ok ie = true -> is_ok r = true).
Proof.
  intros r st1. destruct st as [vs fi up us ds ss ms].
  destruct ie as [ep er ec eq lo sn so].
  unfold load_or_create_store, load_local, from_texts_placeholder, save_local,
    FAISS_INDEX_PATH_exists, index_entries, same_records.
  run_handler. simpl.
  destruct vs as [store|];
    [|destruct fi as [disk|]; [destruct lo, er | destruct ep, sn, er]];
    simpl; intros H; injection H as <- <-; simpl;
    (split; [repeat split|split; [|split]]);
    try (intros e He; rewrite ?app_nil_r in He; simpl in He; tauto);
    try (intros store' Hs; congruence);
    try reflexivity; try discriminate.
  all: try (intros e He; apply in_app_or in He; simpl in He;
            destruct He as [He|He]; [left; apply in_or_app; tauto | tauto]).
  all: try (intros e He; left; apply in_or_app; apply in_app_or in He; tauto).
  all: intros e He; try apply in_app_or in He; simpl in He;
    intuition (subst; auto).
Qed.

Lemma StronglySorted_filter {A} (R : A -> A -> Prop) (f : A -> bool)
      (l : list A) :
  StronglySorted R l -> StronglySorted R (filter f l).
Proof.
  induction 1 as [|x l Hl IH Hx]; simpl.
  - constructor.
  - destruct (f x); [|exact IH].
    constructor; [exact IH|].
    rewrite Forall_forall in *. intros y Hy. apply filter_In in Hy.
    now apply Hx.
Qed.

Lemma StronglySorted_firstn {A} (R : A -> A -> Prop) (n : nat) (l : list A) :
  StronglySorted R l -> StronglySorted R (firstn n l).
Proof.
  intros Hs. rewrite <- (firstn_skipn n l) in Hs.
  now apply StronglySorted_app_inv in Hs.
Qed.

Lemma search_run (distance : string -> string -> Q) (ie : IndexEnv)
      (query : string) (k : nat) (doc_types : option (list string))
      (st : State) :
  search distance ie query k doc_types st
  = match load_or_create_store ie st with
    | (Ok store, st1) =>
        if embed_query_ok ie then
          if Nat.eqb k 0 then (Raise (Exception "AssertionError"), st1)
          else
            (Ok (if truthy_list doc_types then
                   firstn k (filter_doc_types
                               (match doc_types with Some l => l | None => [] end)
                               (nearest distance store query (k * 2)))
                 else nearest distance store query k), st1)
        else (Raise (Exception "embedding request failed"), st1)
    | (Raise e, st1) => (Raise e, st1)
    end.
Proof.
  unfold search. unfold Handler.bind at 1.
  destruct (load_or_create_store ie st) as [[store|e] st1]; [|reflexivity].
  unfold similarity_search_with_score. run_handler.
  assert (Hk : Nat.eqb (k * 2) 0 = Nat.eqb k 0) by now destruct k.
  rewrite Hk.
  destruct (truthy_list doc_types), (embed_query_ok ie), (Nat.eqb k 0);
    reflexivity.
Qed.

Lemma doc_type_in_spec (doc : Document) (allowed : list string) :
  doc_type_in doc allowed = true
  <-> exists t, md_doc_type (metadata doc) = Some t /\ In t allowed.
Proof.
  unfold doc_type_in. destruct (md_doc_type (metadata doc)) as [t|].
  - rewrite str_in_spec. split.
    + intros H. now exists t.
    + intros [t' [Ht Hin]]. now injection Ht as ->.
  - split; [discriminate | intros [t [Ht _]]; discriminate].
Qed.

(** C7.  A search with [k > 0] and a non-empty list of allowed doc types
    takes the [2k] entries of the whole index nearest to the query, keeps
    those whose doc type is allowed, in the order of the candidates, and
    cuts the list at [k]: it returns [min k m] results when [m] of the
    [2k] candidates match, so fewer than [k] when fewer than [k] match.
    (The index refuses a search for no neighbour: with [k = 0] the call
    raises.) *)
Theorem search_overfetches_filters_truncates
        (distance : string -> string -> Q) (ie : IndexEnv) (query : string)
        (k : nat) (allowed : list string) (st st1 : State) (store : Store) :
  0 < k ->
  allowed <> [] ->
  embed_query_ok ie = true ->
  load_or_create_store ie st = (Ok store, st1) ->
  let candidates := nearest distance store query (k * 2) in
  let matching := filter_doc_types allowed candidates in
  let results := firstn k matching in
  search distance ie query k (Some allowed) st = (Ok results, st1)
  /\ List.length candidates = Nat.min (k * 2) (List.length store)
  /\ StronglySorted score_le candidates
  /\ (forall ds, In ds candidates ->
        In (fst ds) store /\ snd ds = distance query (page_content (fst ds)))
  /\ (forall d, In d store ->
        In (d, distance query (page_content d)) candidates
        \/ forall c, In c candidates ->
                     (snd c <= distance query (page_content d))%Q)
  /\ (forall ds, In ds matching <->
        In ds candidates
        /\ exists t, md_doc_type (metadata (fst ds)) = Some t /\ In t allowed)
  /\ StronglySorted score_le results
  /\ List.length results = Nat.min k (List.length matching)
  /\ (List.length matching < k -> List.length results < k).
Proof.
  intros Hk Hne Hup Hload candidates matching results.
  assert (Hk0 : Nat.eqb k 0 = false) by (apply Nat.eqb_neq; lia).
  repeat match goal with |- _ /\ _ => split end.
  - rewrite search_run, Hload, Hup, Hk0.
    destruct allowed as [|a l]; [congruence | reflexivity].
  - apply nearest_length.
  - apply nearest_sorted.
  - apply nearest_from_store.
  - apply nearest_closest.
  - intros ds. unfold matching, filter_doc_types. rewrite filter_In.
    now rewrite doc_type_in_spec.
  - apply StronglySorted_firstn, StronglySorted_filter, nearest_sorted.
  - apply length_firstn.
  - intros Hlt. unfold results. rewrite length_firstn. lia.
Qed.

(** With [k = 1] the two candidates are manuals: a technician gets no
    result although the index holds an SOP. *)
Example search_returns_fewer_than_k :
  search Demo.length_distance Demo.services_up "pumps" 1 (Some ["sop"])
         Demo.crowded
  = (Ok [], Demo.crowded)
  /\ exists d, In d Demo.crowded_store
               /\ md_doc_type (metadata d) = Some "sop".
Proof.
  split.
  - reflexivity.
  - eexists. split; [do 3 right; left; reflexivity | reflexivity].
Qed.

Lemma search_overfetches_filters_truncates_witness :
  search Demo.length_distance Demo.services_up "gloves" 1
         (Some ["sop"; "manual"]) Demo.two_docs
  = (Ok (firstn 1 (filter_doc_types ["sop"; "manual"]
                     (nearest Demo.length_distance
                        (store_entries (vector_store Demo.two_docs))
                        "gloves" (1 * 2)))),
     Demo.two_docs).
Proof.
  refine (proj1 (@search_overfetches_filters_truncates
                   Demo.length_distance Demo.services_up "gloves" 1
                   ["sop"; "manual"] Demo.two_docs Demo.two_docs
                   (store_entries (vector_store Demo.two_docs)) _ _ _ _)).
  - lia.
  - discriminate.
  - reflexivity.
  - reflexivity.
Defined.

(** ** The chat handler *)

Section ChatRun.

Variable L : Libraries.
Variable env : ChatEnv.
Variable request : ChatRequest.
Variable current_user : User.

(** [chat] is a search followed by a run that cannot fail. *)
Lemma chat_run (st : State) :
  chat L env request current_user st
  = match search (distance L) (chat_index env) (req_message request) 5
                 (chat_doc_types (user_role current_user)) st with
    | (Raise e, s1) => (Raise e, s1)
    | (Ok results, s1) =>
        let acc := chat_loop (db_documents s1) results in
        let srcs := sources acc in
        let sid := chat_session_id env request in
        let text := reply_text env request sid
                               (context_of (context_parts acc)) srcs in
        (Ok (mkChatResponse sid
               (mkChatMessage "assistant" text (Some srcs)
                              (now_assistant_msg env))
               srcs),
         mkState (vector_store s1) (faiss_index s1) (uploads s1)
                 (db_users s1) (db_documents s1)
                 (sessions_after env request current_user
                                 (db_chat_sessions s1))
                 (db_chat_messages s1
                    ++ [user_message env request sid;
                        assistant_message env sid text srcs]))
    end.
Proof.
  unfold chat. unfold Handler.bind at 1.
  destruct (search (distance L) (chat_index env) (req_message request) 5
                   (chat_doc_types (user_role current_user)) st)
    as [[results|e] s1]; [|reflexivity].
  unfold sessions_after, chat_session_id, reply_text, user_message,
    assistant_message, new_session.
  run_handler. unfold Mongo.insert_one. simpl.
  destruct (session_id_missing (req_session_id request)); simpl;
    match goal with
    | |- context [llm_send_message env ?a ?b ?c] =>
        destruct (llm_send_message env a b c)
    end; simpl; rewrite <- app_assoc; reflexivity.
Qed.

End ChatRun.

Lemma search_frame (distance : string -> string -> Q) (ie : IndexEnv)
      (query : string) (k : nat) (doc_types : option (list string))
      (st : State) :
  forall r s1,
    search distance ie query k doc_types st = (r, s1) ->
    same_records st s1
    /\ (forall e, In e (index_entries s1) ->
                  In e (index_entries st) \/ e = placeholder)
    /\ (embeddings_up ie = true -> 0 < k -> is_ok r = true)
    /\ (forall results, r = Ok results ->
          forall ds, In ds results ->
            In (fst ds) (index_entries s1)
            /\ (truthy_list doc_types = true ->
                doc_type_in (fst ds)
                  (match doc_types with Some l => l | None => [] end) = true)).
Proof.
  intros r s1. rewrite search_run.
  destruct (load_or_create_store ie st) as [r0 s0] eqn:Hload.
  destruct (load_or_create_store_frame _ _ Hload) as (Hsame & Hidx & Hvs & Hup).
  destruct r0 as [store|e].
  - specialize (Hvs store eq_refl).
    destruct (embed_query_ok ie) eqn:Eq; [destruct (Nat.eqb k 0) eqn:Ek|];
      intros H; injection H as <- <-;
      (split; [exact Hsame|split; [exact Hidx|split]]);
      try reflexivity; try discriminate;
      try (intros Hall Hk; apply embeddings_up_spec in Hall;
           apply Nat.eqb_eq in Ek || idtac; destruct Hall; congruence || lia).
    intros results Hr. injection Hr as <-. intros ds Hds.
    assert (Hstore : forall n, In ds (nearest distance store query n) ->
                               In (fst ds) (index_entries s0)).
    { intros n Hn. apply nearest_from_store in Hn.
      unfold index_entries. rewrite Hvs. simpl. apply in_or_app. tauto. }
    destruct (truthy_list doc_types).
    + apply In_firstn in Hds. unfold filter_doc_types in Hds.
      apply filter_In in Hds. destruct Hds as [Hc Ht]. split; eauto.
    + split; [eauto | discriminate].
  - intros H. injection H as <- <-.
    split; [exact Hsame|split; [exact Hidx|split; [|discriminate]]].
    intros Hall _. apply Hup. now apply embeddings_up_spec in Hall.
Qed.

Lemma search_succeeds (distance : string -> string -> Q) (ie : IndexEnv)
      (query : string) (k : nat) (doc_types : option (list string))
      (st : State) :
  embeddings_up ie = true ->
  0 < k ->
  exists results s1,
    search distance ie query k doc_types st = (Ok results, s1)
    /\ same_records st s1.
Proof.
  intros Hup Hk.
  destruct (search distance ie query k doc_types st) as [r s1] eqn:Hs.
  destruct (search_frame _ _ _ _ _ _ Hs) as (Hsame & _ & Hok & _).
  specialize (Hok Hup Hk). destruct r as [results|e]; [|discriminate].
  now exists results, s1.
Qed.

(** ** Record store lemmas *)

Section MongoFacts.

Variable T : Type.
Variable q : T -> bool.

Lemma find_one_update_one (u : T -> T) (c : list T) :
  (forall x, q (u x) = q x) ->
  Mongo.find_one q (Mongo.update_one q u c)
  = option_map u (Mongo.find_one q c).
Proof.
  intros Hq. unfold Mongo.find_one.
  induction c as [|d c IH]; simpl; [reflexivity|].
  destruct (q d) eqn:E; simpl.
  - now rewrite Hq, E.
  - now rewrite E.
Qed.

Lemma update_one_no_match (u : T -> T) (c : list T) :
  Mongo.find_one q c = None -> Mongo.update_one q u c = c.
Proof.
  unfold Mongo.find_one.
  induction c as [|d c IH]; simpl; [reflexivity|].
  destruct (q d); [discriminate|]. intros H. now rewrite IH.
Qed.

Lemma find_one_app (c c' : list T) :
  Mongo.find_one q (c ++ c')
  = match Mongo.find_one q c with
    | Some x => Some x
    | None => Mongo.find_one q c'
    end.
Proof.
  unfold Mongo.find_one.
  induction c as [|d c IH]; simpl; [reflexivity|].
  now destruct (q d).
Qed.

Lemma find_one_none (c : list T) :
  Mongo.find_one q c = None <-> forall x, In x c -> q x = false.
Proof.
  unfold Mongo.find_one. split.
  - intros H x Hx. now apply (find_none _ _ H).
  - induction c as [|d c IH]; simpl; [reflexivity|]. intros H.
    rewrite (H d) by now left. apply IH. intros x Hx. apply H. now right.
Qed.

Lemma find_one_some (c : list T) (x : T) :
  Mongo.find_one q c = Some x -> In x c /\ q x = true.
Proof. apply find_some. Qed.

Lemma delete_one_incl (c : list T) (x : T) :
  In x (Mongo.delete_one q c) -> In x c.
Proof.
  induction c as [|d c IH]; simpl; [tauto|].
  destruct (q d); simpl; tauto.
Qed.

End MongoFacts.

Section SortFacts.

Variable T : Type.
Variable key : T -> Z.

Lemma insert_by_perm (d : T) (l : list T) :
  Permutation (Mongo.insert_by key d l) (d :: l).
Proof.
  induction l as [|x l IH]; simpl.
  - apply Permutation_refl.
  - destruct (key d <=? key x)%Z.
    + apply Permutation_refl.
    + eapply perm_trans; [apply perm_skip, IH | apply perm_swap].
Qed.

Lemma sort_asc_perm (l : list T) : Permutation (Mongo.sort_asc key l) l.
Proof.
  induction l as [|x l IH]; simpl.
  - constructor.
  - eapply perm_trans; [apply insert_by_perm | now apply perm_skip].
Qed.

Lemma insert_by_sorted (d : T) (l : list T) :
  StronglySorted (key_le key) l -> StronglySorted (key_le key) (Mongo.insert_by key d l).
Proof.
  induction l as [|x l IH]; simpl; intros Hs.
  - constructor; constructor.
  - inversion Hs as [|x' l' Hl Hx]; subst.
    destruct (key d <=? key x)%Z eqn:E.
    + apply Z.leb_le in E. constructor; [exact Hs|].
      constructor; [exact E|].
      rewrite Forall_forall in *. intros z Hz. unfold key_le in *.
      specialize (Hx z Hz). lia.
    + apply Z.leb_gt in E. constructor; [now apply IH|].
      rewrite Forall_forall in *. intros z Hz.
      apply (Permutation_in _ (insert_by_perm d l)) in Hz.
      destruct Hz as [Hz|Hz]; [subst z; unfold key_le; lia | now apply Hx].
Qed.

Lemma sort_asc_sorted (l : list T) :
  StronglySorted (key_le key) (Mongo.sort_asc key l).
Proof.
  induction l as [|x l IH]; simpl.
  - constructor.
  - now apply insert_by_sorted.
Qed.

(** Sorting keeps a collection that is already in order as it is. *)
Lemma sort_asc_id (l : list T) :
  StronglySorted (key_le key) l -> Mongo.sort_asc key l = l.
Proof.
  induction 1 as [|x l Hl IH Hx]; simpl; [reflexivity|].
  rewrite IH. destruct l as [|y l]; simpl; [reflexivity|].
  inversion Hx as [|y' l' Hy _]; subst. unfold key_le in Hy.
  apply Z.leb_le in Hy. now rewrite Hy.
Qed.

End SortFacts.

(** ** Language model failure *)

(** C5.  A chat request fails only when the retrieval fails: whatever the
    language model call does, the handler returns.  When the call raises,
    the assistant message lists the titles of the citations found and says
    that generating a detailed response failed, and that message is stored
    with its citations. *)
Theorem chat_recovers_from_llm_failure
        (L : Libraries) (env : ChatEnv) (request : ChatRequest)
        (current_user : User) (st : State) :
  is_ok (fst (chat L env request current_user st))
  = is_ok (fst (search (distance L) (chat_index env) (req_message request) 5
                       (chat_doc_types (user_role current_user)) st))
  /\ (embeddings_up (chat_index env) = true ->
      (forall sid system text, llm_send_message env sid system text = None) ->
      exists resp st',
        chat L env request current_user st = (Ok resp, st')
        /\ cm_role (resp_message resp) = "assistant"
        /\ cm_content (resp_message resp)
           = ("I found relevant information in the following documents: "
              ++ String.concat ", " (map cit_title (resp_sources resp))
              ++ ". However, I encountered an error generating a detailed response. Please try again.")%string
        /\ cm_sources (resp_message resp) = Some (resp_sources resp)
        /\ db_chat_messages st'
           = db_chat_messages st
               ++ [user_message env request (resp_session_id resp);
                   mkMessage (uuid_assistant_msg env) (resp_session_id resp)
                             "assistant" (cm_content (resp_message resp))
                             (Some (resp_sources resp))
                             (now_assistant_msg env)]).
Proof.
  split.
  - rewrite chat_run.
    now destruct (search (distance L) (chat_index env) (req_message request) 5
                         (chat_doc_types (user_role current_user)) st)
      as [[results|e] s1].
  - intros Hup Hllm.
    destruct (@search_succeeds (distance L) (chat_index env)
                (req_message request) 5
                (chat_doc_types (user_role current_user)) st Hup (Nat.lt_0_succ 4))
      as (results & s1 & Hsearch & Hsame).
    rewrite chat_run, Hsearch. cbv zeta.
    eexists. eexists. split; [reflexivity|].
    destruct Hsame as (_ & _ & _ & _ & Hmsgs).
    unfold reply_text. rewrite Hllm. simpl.
    repeat split. now rewrite Hmsgs.
Qed.

Lemma chat_recovers_from_llm_failure_witness :
  exists resp st',
    chat Demo.libs (Demo.chat_env "1" 100 Demo.llm_down)
         (mkChatRequest "gloves?" None) Demo.technician Demo.two_docs
    = (Ok resp, st')
    /\ cm_content (resp_message resp)
       = "I found relevant information in the following documents: Gloves. However, I encountered an error generating a detailed response. Please try again."%string.
Proof.
  destruct (proj2 (chat_recovers_from_llm_failure
                     Demo.libs (Demo.chat_env "1" 100 Demo.llm_down)
                     (mkChatRequest "gloves?" None) Demo.technician
                     Demo.two_docs)
                  eq_refl (fun _ _ _ => eq_refl))
    as (resp & st' & Hchat & _ & Hcontent & _).
  exists resp, st'. split; [exact Hchat|].
  rewrite Hcontent. injection Hchat as <- _. reflexivity.
Defined.

(** ** Session ids supplied by the caller *)

Lemma touch_session_id (now : Timestamp) (sid : string) (x : Session) :
  (session_id (touch_session now x) =? sid) = (session_id x =? sid).
Proof. reflexivity. Qed.

Lemma session_id_given (sid : string) :
  sid <> "" -> session_id_missing (Some sid) = false.
Proof. intros H. simpl. now apply String.eqb_neq. Qed.

(** C10, as amended.  When the request carries a session id that is not
    the empty string, [chat] looks up neither the session nor its owner:
    both messages are stored under that id, the first session document with
    that id (whoever owns it) gets the update, and when there is none no
    session document is created and the update changes nothing. *)
Theorem chat_trusts_supplied_session_id
        (L : Libraries) (env : ChatEnv) (message sid : string)
        (current_user : User) (st : State) :
  sid <> "" ->
  embeddings_up (chat_index env) = true ->
  exists resp st',
    chat L env (mkChatRequest message (Some sid)) current_user st
    = (Ok resp, st')
    /\ resp_session_id resp = sid
    /\ db_chat_messages st'
       = db_chat_messages st
           ++ [mkMessage (uuid_user_msg env) sid "user" message None
                         (now_user_msg env);
               mkMessage (uuid_assistant_msg env) sid "assistant"
                         (cm_content (resp_message resp))
                         (Some (resp_sources resp)) (now_assistant_msg env)]
    /\ db_chat_sessions st'
       = Mongo.update_one (fun x => session_id x =? sid)
                          (touch_session (now_update env))
                          (db_chat_sessions st)
    /\ (forall x, find_session sid (db_chat_sessions st) = Some x ->
          find_session sid (db_chat_sessions st')
          = Some (touch_session (now_update env) x))
    /\ (find_session sid (db_chat_sessions st) = None ->
          db_chat_sessions st' = db_chat_sessions st).
Proof.
  intros Hsid Hup.
  destruct (@search_succeeds (distance L) (chat_index env) message 5
              (chat_doc_types (user_role current_user)) st Hup (Nat.lt_0_succ 4))
    as (results & s1 & Hsearch & Hsame).
  destruct Hsame as (_ & _ & _ & Hsess & Hmsgs).
  eexists. eexists. split.
  - rewrite chat_run. simpl req_message. rewrite Hsearch. reflexivity.
  - unfold sessions_after, chat_session_id. simpl req_session_id.
    rewrite (session_id_given Hsid). simpl.
    rewrite Hsess, Hmsgs.
    split; [reflexivity|]. split; [reflexivity|]. split; [reflexivity|].
    split.
    + intros x Hx. unfold find_session in *.
      rewrite find_one_update_one by (intros; apply touch_session_id).
      now rewrite Hx.
    + intros Hnone. now apply update_one_no_match.
Qed.

Lemma chat_trusts_supplied_session_id_witness :
  exists resp st',
    chat Demo.libs (Demo.chat_env "1" 100 Demo.llm_echo)
         (mkChatRequest "gloves?" (Some "no-such-session")) Demo.viewer
         Demo.two_docs
    = (Ok resp, st')
    /\ resp_session_id resp = "no-such-session"%string
    /\ db_chat_sessions st' = [].
Proof.
  destruct (@chat_trusts_supplied_session_id
              Demo.libs (Demo.chat_env "1" 100 Demo.llm_echo)
              "gloves?" "no-such-session" Demo.viewer Demo.two_docs)
    as (resp & st' & Hchat & Hsid & _ & _ & _ & Hnone).
  - discriminate.
  - reflexivity.
  - exists resp, st'. split; [exact Hchat|]. split; [exact Hsid|].
    now rewrite Hnone.
Defined.

(** C10, as stated, fails for the empty string: it is a non-null session
    id, no session has it, and yet a session document is created and the
    two messages are stored under the generated id. *)
Lemma chat_empty_session_id_counterexample :
  req_session_id Demo.empty_id_request = Some ""%string
  /\ find_session "" (db_chat_sessions Demo.two_docs) = None
  /\ db_chat_sessions
       (snd (chat Demo.libs (Demo.chat_env "1" 100 Demo.llm_echo)
                  Demo.empty_id_request Demo.admin Demo.two_docs))
     = [mkSession "s-1" "u-admin" "gloves?" 100 104 2]
  /\ map msg_session_id
         (db_chat_messages
            (snd (chat Demo.libs (Demo.chat_env "1" 100 Demo.llm_echo)
                       Demo.empty_id_request Demo.admin Demo.two_docs)))
     = ["s-1"; "s-1"]%string.
Proof. repeat split; vm_compute; reflexivity. Qed.

(** ** Session continuity *)

Lemma update_one_last {T} (q : T -> bool) (u : T -> T) (c : list T) (n : T) :
  Mongo.find_one q c = None -> q n = true ->
  Mongo.update_one q u (c ++ [n]) = c ++ [u n].
Proof.
  unfold Mongo.find_one.
  induction c as [|d c IH]; simpl; intros Hc Hn.
  - now rewrite Hn.
  - destruct (q d); [discriminate|]. now rewrite IH.
Qed.

Lemma StronglySorted_ChatMessage_of (l : list Message) :
  StronglySorted (key_le msg_timestamp) l ->
  StronglySorted (key_le cm_timestamp) (map ChatMessage_of l).
Proof.
  induction 1 as [|x l Hl IH Hx]; simpl; constructor; [exact IH|].
  rewrite Forall_forall in *. intros y Hy.
  apply in_map_iff in Hy. destruct Hy as [m [<- Hm]].
  exact (Hx m Hm).
Qed.

Lemma owned_session_implies_id (sid : string) (u : User) (x : Session) :
  owned_session sid u x = true -> (session_id x =? sid) = true.
Proof. unfold owned_session. intros H. now apply andb_prop in H. Qed.

(** C4.  An exchange appends the user message and then the assistant
    message under the session id it returns; the session document it is
    on has its [message_count] increased by 2 and its [updated_at] set to
    the clock reading of the update.  Two messages sent with the session
    id the first one returned leave [message_count = 4], and the four
    messages are read back in ascending order of timestamp. *)
Theorem chat_session_continuity (L : Libraries) :
  (forall env request current_user st,
      embeddings_up (chat_index env) = true ->
      exists resp st',
        chat L env request current_user st = (Ok resp, st')
        /\ db_chat_messages st'
           = db_chat_messages st
               ++ [mkMessage (uuid_user_msg env) (resp_session_id resp) "user"
                             (req_message request) None (now_user_msg env);
                   mkMessage (uuid_assistant_msg env) (resp_session_id resp)
                             "assistant" (cm_content (resp_message resp))
                             (Some (resp_sources resp))
                             (now_assistant_msg env)]
        /\ (forall sid x,
              req_session_id request = Some sid -> sid <> ""%string ->
              find_session sid (db_chat_sessions st) = Some x ->
              resp_session_id resp = sid
              /\ exists x',
                  find_session sid (db_chat_sessions st') = Some x'
                  /\ message_count x' = (message_count x + 2)%Z
                  /\ session_updated_at x' = now_update env
                  /\ session_user_id x' = session_user_id x
                  /\ session_created_at x' = session_created_at x)
        /\ (session_id_missing (req_session_id request) = true ->
            find_session (uuid_session env) (db_chat_sessions st) = None ->
            resp_session_id resp = uuid_session env
            /\ exists x',
                find_session (uuid_session env) (db_chat_sessions st')
                = Some x'
                /\ message_count x' = 2%Z
                /\ session_updated_at x' = now_update env
                /\ session_user_id x' = user_id current_user))
  /\ (forall env1 env2 m1 m2 current_user st,
        embeddings_up (chat_index env1) = true ->
        embeddings_up (chat_index env2) = true ->
        uuid_session env1 <> ""%string ->
        find_session (uuid_session env1) (db_chat_sessions st) = None ->
        messages_of (uuid_session env1) (db_chat_messages st) = [] ->
        exists resp1 st1 resp2 st2 x msgs,
          chat L env1 (mkChatRequest m1 None) current_user st
          = (Ok resp1, st1)
          /\ chat L env2 (mkChatRequest m2 (Some (resp_session_id resp1)))
                  current_user st1
             = (Ok resp2, st2)
          /\ resp_session_id resp2 = resp_session_id resp1
          /\ find_session (resp_session_id resp1) (db_chat_sessions st2)
             = Some x
          /\ message_count x = 4%Z
          /\ session_updated_at x = now_update env2
          /\ get_session_messages (resp_session_id resp1) current_user st2
             = (Ok msgs, st2)
          /\ List.length msgs = 4
          /\ Permutation msgs
               [mkChatMessage "user" m1 None (now_user_msg env1);
                resp_message resp1;
                mkChatMessage "user" m2 None (now_user_msg env2);
                resp_message resp2]
          /\ StronglySorted (key_le cm_timestamp) msgs
          /\ ((now_user_msg env1 <= now_assistant_msg env1)%Z ->
              (now_assistant_msg env1 <= now_user_msg env2)%Z ->
              (now_user_msg env2 <= now_assistant_msg env2)%Z ->
              msgs = [mkChatMessage "user" m1 None (now_user_msg env1);
                      resp_message resp1;
                      mkChatMessage "user" m2 None (now_user_msg env2);
                      resp_message resp2])).
Proof.
  split.
  - intros env request current_user st Hup.
    destruct (@search_succeeds (distance L) (chat_index env)
                (req_message request) 5
                (chat_doc_types (user_role current_user)) st Hup (Nat.lt_0_succ 4))
      as (results & s1 & Hsearch & Hsame).
    destruct Hsame as (_ & _ & _ & Hsess & Hmsgs).
    eexists. eexists. split; [rewrite chat_run, Hsearch; reflexivity|].
    cbv zeta. simpl. rewrite Hsess, Hmsgs.
    split; [reflexivity|]. split.
    + intros sid x Hreq Hsid Hfind.
      unfold chat_session_id, sessions_after, chat_session_id.
      rewrite Hreq, (session_id_given Hsid).
      split; [reflexivity|].
      exists (touch_session (now_update env) x). split.
      * unfold find_session in *.
        rewrite find_one_update_one by (intros; apply touch_session_id).
        now rewrite Hfind.
      * repeat split.
    + intros Hmiss Hfresh.
      unfold chat_session_id, sessions_after, chat_session_id.
      rewrite Hmiss. split; [reflexivity|].
      exists (touch_session (now_update env)
                            (new_session env request current_user)).
      split; [|repeat split].
      unfold find_session in *.
      rewrite find_one_update_one by (intros; apply touch_session_id).
      rewrite find_one_app, Hfresh. simpl.
      now rewrite String.eqb_refl.
  - intros env1 env2 m1 m2 current_user st Hup1 Hup2 Hne Hfresh Hnomsg.
    set (sid := uuid_session env1).
    assert (Hne' : sid <> ""%string) by exact Hne.
    destruct (@search_succeeds (distance L) (chat_index env1) m1 5
                (chat_doc_types (user_role current_user)) st Hup1 (Nat.lt_0_succ 4))
      as (results1 & s1 & Hsearch1 & Hsame1).
    destruct Hsame1 as (_ & _ & _ & Hsess1 & Hmsgs1).
    pose proof (chat_run L env1 (mkChatRequest m1 None) current_user st)
      as Hchat1.
    simpl req_message in Hchat1. rewrite Hsearch1 in Hchat1.
    cbv zeta in Hchat1.
    unfold sessions_after, chat_session_id in Hchat1.
    simpl req_session_id in Hchat1. simpl session_id_missing in Hchat1.
    cbv iota in Hchat1. fold sid in Hchat1.
    rewrite Hsess1, Hmsgs1 in Hchat1.
    rewrite update_one_last in Hchat1;
      [|exact Hfresh | simpl; apply String.eqb_refl].
    match type of Hchat1 with _ = (Ok ?r, ?s) =>
      set (resp1 := r) in *; set (st1 := s) in * end.
    destruct (@search_succeeds (distance L) (chat_index env2) m2 5
                (chat_doc_types (user_role current_user)) st1 Hup2 (Nat.lt_0_succ 4))
      as (results2 & s2 & Hsearch2 & Hsame2).
    destruct Hsame2 as (_ & _ & _ & Hsess2 & Hmsgs2).
    pose proof (chat_run L env2 (mkChatRequest m2 (Some sid)) current_user st1)
      as Hchat2.
    simpl req_message in Hchat2. rewrite Hsearch2 in Hchat2.
    cbv zeta in Hchat2.
    unfold sessions_after, chat_session_id in Hchat2.
    simpl req_session_id in Hchat2.
    rewrite (session_id_given Hne') in Hchat2.
    rewrite Hsess2, Hmsgs2 in Hchat2. subst st1. simpl in Hchat2.
    rewrite update_one_last in Hchat2;
      [|exact Hfresh | simpl; apply String.eqb_refl].
    match type of Hchat2 with _ = (Ok ?r, ?s) =>
      set (resp2 := r) in *; set (st2 := s) in * end.
    set (x := touch_session (now_update env2)
                (touch_session (now_update env1)
                   (new_session env1 (mkChatRequest m1 None) current_user))).
    set (u1 := user_message env1 (mkChatRequest m1 None) sid) in *.
    set (a1 := assistant_message env1 sid (cm_content (resp_message resp1))
                                 (resp_sources resp1)).
    set (u2 := user_message env2 (mkChatRequest m2 (Some sid)) sid) in *.
    set (a2 := assistant_message env2 sid (cm_content (resp_message resp2))
                                 (resp_sources resp2)).
    assert (Hfilter :
              filter (fun m => msg_session_id m =? sid) (db_chat_messages st2)
              = [u1; a1; u2; a2]).
    { subst st2. simpl. rewrite !filter_app.
      unfold messages_of in Hnomsg. fold sid in Hnomsg. rewrite Hnomsg.
      simpl. rewrite !String.eqb_refl. reflexivity. }
    assert (Howned :
              Mongo.find_one (owned_session sid current_user)
                             (db_chat_sessions st2) = Some x).
    { subst st2. simpl. rewrite find_one_app.
      assert (Hn : Mongo.find_one (owned_session sid current_user)
                                  (db_chat_sessions st) = None).
      { apply find_one_none. intros y Hy.
        destruct (owned_session sid current_user y) eqn:E; [|reflexivity].
        apply owned_session_implies_id in E.
        unfold find_session in Hfresh.
        rewrite find_one_none in Hfresh. fold sid in Hfresh.
        rewrite (Hfresh y Hy) in E. discriminate. }
      rewrite Hn. unfold owned_session. simpl.
      now rewrite !String.eqb_refl. }
    set (sorted := Mongo.sort_asc msg_timestamp [u1; a1; u2; a2]).
    assert (Hperm : Permutation sorted [u1; a1; u2; a2])
      by apply sort_asc_perm.
    assert (Hlen : List.length sorted = 4)
      by (rewrite (Permutation_length Hperm); reflexivity).
    assert (Hget : get_session_messages sid current_user st2
                   = (Ok (map ChatMessage_of sorted), st2)).
    { unfold get_session_messages. run_handler. rewrite Howned, Hfilter.
      unfold Mongo.to_list. fold sorted.
      rewrite firstn_all2 by (rewrite Hlen; repeat constructor).
      reflexivity. }
    exists resp1. eexists. exists resp2, st2, x, (map ChatMessage_of sorted).
    split; [exact Hchat1|]. split; [exact Hchat2|].
    split; [reflexivity|]. split.
    { subst st2. unfold find_session. simpl. rewrite find_one_app.
      unfold find_session in Hfresh. fold sid in Hfresh. rewrite Hfresh.
      simpl. now rewrite String.eqb_refl. }
    split; [reflexivity|]. split; [reflexivity|]. split; [exact Hget|].
    split; [now rewrite length_map|]. split.
    { change [mkChatMessage "user" m1 None (now_user_msg env1);
              resp_message resp1;
              mkChatMessage "user" m2 None (now_user_msg env2);
              resp_message resp2]
        with (map ChatMessage_of [u1; a1; u2; a2]).
      now apply Permutation_map. }
    split.
    { apply StronglySorted_ChatMessage_of, sort_asc_sorted. }
    intros H1 H2 H3. unfold sorted.
    rewrite sort_asc_id; [reflexivity|].
    repeat constructor; unfold key_le; simpl; lia.
Qed.

Lemma chat_session_continuity_witness :
  exists resp1 st1 resp2 st2 x msgs,
    chat Demo.libs (Demo.chat_env "1" 100 Demo.llm_echo)
         (mkChatRequest "gloves?" None) Demo.viewer Demo.two_docs
    = (Ok resp1, st1)
    /\ chat Demo.libs (Demo.chat_env "2" 200 Demo.llm_echo)
            (mkChatRequest "and goggles?" (Some (resp_session_id resp1)))
            Demo.viewer st1
       = (Ok resp2, st2)
    /\ find_session (resp_session_id resp1) (db_chat_sessions st2) = Some x
    /\ message_count x = 4%Z
    /\ get_session_messages (resp_session_id resp1) Demo.viewer st2
       = (Ok msgs, st2)
    /\ List.length msgs = 4.
Proof.
  destruct (proj2 (chat_session_continuity Demo.libs)
                  (Demo.chat_env "1" 100 Demo.llm_echo)
                  (Demo.chat_env "2" 200 Demo.llm_echo)
                  "gloves?"%string "and goggles?"%string
                  Demo.viewer Demo.two_docs)
    as (resp1 & st1 & resp2 & st2 & x & msgs & H1 & H2 & _ & Hx & Hc & _
        & Hget & Hlen & _).
  - reflexivity.
  - reflexivity.
  - discriminate.
  - reflexivity.
  - reflexivity.
  - exists resp1, st1, resp2, st2, x, msgs. repeat split; assumption.
Defined.

(** ** Session ownership *)

Lemma delete_one_unique {T} (f : T -> string) (sid : string) (c : list T) :
  NoDup (map f c) ->
  forall y, In y (Mongo.delete_one (fun x => f x =? sid) c)
            <-> In y c /\ f y <> sid.
Proof.
  induction c as [|d c IH]; simpl; intros Hnd y.
  - tauto.
  - inversion Hnd as [|a l Hd Hc]; subst.
    destruct (f d =? sid) eqn:E.
    + apply String.eqb_eq in E. split.
      * intros Hy. split; [now right|]. intros Hfy. apply Hd.
        rewrite E, <- Hfy. now apply in_map.
      * intros [[Hy|Hy] Hne]; [subst; tauto | exact Hy].
    + apply String.eqb_neq in E. simpl. rewrite (IH Hc).
      split; [|tauto]. intros [Hy|Hy]; [subst; tauto | tauto].
Qed.

Lemma delete_one_length {T} (q : T -> bool) (c : list T) (x : T) :
  In x c -> q x = true ->
  S (List.length (Mongo.delete_one q c)) = List.length c.
Proof.
  induction c as [|d c IH]; simpl; intros Hin Hq; [tauto|].
  destruct (q d) eqn:E; [reflexivity|]. simpl.
  destruct Hin as [Hin|Hin]; [subst; congruence|]. now rewrite IH.
Qed.

Lemma owned_session_spec (sid : string) (u : User) (x : Session) :
  owned_session sid u x = true
  <-> session_id x = sid /\ session_user_id x = user_id u.
Proof.
  unfold owned_session. rewrite andb_true_iff, !String.eqb_eq. tauto.
Qed.

Lemma no_owned_session (sid : string) (u : User) (sessions : list Session) :
  Mongo.find_one (owned_session sid u) sessions = None
  <-> forall x, In x sessions -> session_id x = sid ->
                session_user_id x <> user_id u.
Proof.
  rewrite find_one_none. split.
  - intros H x Hx Hid Hu. specialize (H x Hx).
    assert (owned_session sid u x = true) by now apply owned_session_spec.
    congruence.
  - intros H x Hx. destruct (owned_session sid u x) eqn:E; [|reflexivity].
    apply owned_session_spec in E. destruct E as [Hid Hu].
    now destruct (H x Hx Hid).
Qed.

(** C6.  Reading the messages of a session and deleting a session fail
    with 404 "Session not found", the state unchanged, when no session has
    both the given id and the requester as owner, be it that the id is
    unknown or that the session is someone else's; no other error is ever
    raised by the two handlers.  For the owner, delete removes every
    message of the session and then the session document. *)
Theorem session_access_is_owner_only
        (sid : string) (current_user : User) (st : State) :
  ((forall x, In x (db_chat_sessions st) -> session_id x = sid ->
              session_user_id x <> user_id current_user) ->
   get_session_messages sid current_user st
   = (Raise (HTTPException 404 "Session not found"), st)
   /\ delete_session sid current_user st
      = (Raise (HTTPException 404 "Session not found"), st))
  /\ (forall e st',
        get_session_messages sid current_user st = (Raise e, st')
        \/ delete_session sid current_user st = (Raise e, st') ->
        e = HTTPException 404 "Session not found" /\ st' = st)
  /\ (forall x, In x (db_chat_sessions st) -> session_id x = sid ->
                session_user_id x = user_id current_user ->
        exists st',
          delete_session sid current_user st = (Ok "Session deleted"%string, st')
          /\ db_chat_messages st'
             = Mongo.delete_many (fun m => msg_session_id m =? sid)
                                 (db_chat_messages st)
          /\ (forall m, In m (db_chat_messages st')
                        <-> In m (db_chat_messages st)
                            /\ msg_session_id m <> sid)
          /\ db_chat_sessions st'
             = Mongo.delete_one (fun y => session_id y =? sid)
                                (db_chat_sessions st)
          /\ S (List.length (db_chat_sessions st'))
             = List.length (db_chat_sessions st)
          /\ (NoDup (map session_id (db_chat_sessions st)) ->
              forall y, In y (db_chat_sessions st')
                        <-> In y (db_chat_sessions st) /\ session_id y <> sid)
          /\ db_users st' = db_users st
          /\ db_documents st' = db_documents st).
Proof.
  split; [|split].
  - intros Hnone. apply no_owned_session in Hnone.
    unfold get_session_messages, delete_session. run_handler.
    now rewrite Hnone.
  - intros e st'. unfold get_session_messages, delete_session. run_handler.
    destruct (Mongo.find_one (owned_session sid current_user)
                             (db_chat_sessions st));
      intros [H|H]; try discriminate; injection H as <- <-; now split.
  - intros x Hx Hid Hu.
    assert (Hsome : exists y, Mongo.find_one (owned_session sid current_user)
                                (db_chat_sessions st) = Some y).
    { destruct (Mongo.find_one (owned_session sid current_user)
                               (db_chat_sessions st)) as [y|] eqn:E.
      - now exists y.
      - rewrite no_owned_session in E. now destruct (E x Hx Hid). }
    destruct Hsome as [y Hy].
    eexists. split.
    { unfold delete_session. run_handler. rewrite Hy. reflexivity. }
    simpl. split; [reflexivity|]. split.
    { intros m. unfold Mongo.delete_many. rewrite filter_In.
      rewrite negb_true_iff, String.eqb_neq. tauto. }
    split; [reflexivity|]. split.
    { apply delete_one_length with (x := x); [exact Hx|].
      now apply String.eqb_eq. }
    split; [|split; reflexivity].
    intros Hnd. now apply delete_one_unique.
Qed.

Lemma session_access_is_owner_only_witness :
  get_session_messages "s-1" Demo.admin
    (snd (chat Demo.libs (Demo.chat_env "1" 100 Demo.llm_echo)
               (mkChatRequest "gloves?" None) Demo.viewer Demo.two_docs))
  = (Raise (HTTPException 404 "Session not found"),
     snd (chat Demo.libs (Demo.chat_env "1" 100 Demo.llm_echo)
               (mkChatRequest "gloves?" None) Demo.viewer Demo.two_docs)).
Proof.
  refine (proj1 (proj1 (session_access_is_owner_only "s-1" Demo.admin _) _)).
  intros x [Hx|[]] _. subst x. discriminate.
Defined.

(** ** Registration *)

(** C9.  The registration route takes the request body and nothing else:
    no credentials, no current user.  Whenever the address is valid and
    not yet registered and [bcrypt.hashpw] hashes the password, it
    creates a user whose role is the role of the body, any of the four
    roles, or [viewer] when the body has none; the role also goes into
    the token.  So it succeeds for the role [admin] on a server that has
    no user at all, and the account it creates has every admin
    permission. *)
Theorem register_grants_requested_role
        (L : Libraries) (env : RegisterEnv) (body : RegisterBody)
        (st : State) (email : string) :
  EmailStr L (rb_email body) = Some email ->
  Mongo.find_one (fun u => user_email u =? email) (db_users st) = None ->
  bcrypt_hashpw_raises L (rb_password body) = false ->
  match rb_role body with Some r => In r RoleType | None => True end ->
  let role := match rb_role body with Some r => r | None => "viewer"%string end in
  let user_doc :=
    mkUser (reg_uuid env) email (rb_name body) role
           (bcrypt_hashpw L (rb_password body) (reg_salt env))
           (reg_now env) true in
  post_auth_register L env body st
  = (Ok (mkTokenResponse
           (jwt_encode L (mkTokenPayload (reg_uuid env) email role
                            (reg_now_token env + 24 * 3600 * 1000000)%Z))
           "bearer"
           (mkUserResponse (reg_uuid env) email (rb_name body) role
                           (reg_now env) true)),
     set_db_users (db_users st ++ [user_doc]) st)
  /\ (rb_role body = Some "admin"%string ->
      forall permission,
        In permission ["upload_docs"; "delete_docs"; "manage_users";
                       "query_all"; "view_all"]%string ->
        forall s, check_permission user_doc permission s = (Ok tt, s)).
Proof.
  intros Hemail Hnew Hhash Hrole role user_doc. split.
  - unfold post_auth_register, UserCreate_validate, register, hash_password.
    run_handler. rewrite Hemail.
    destruct (rb_role body) as [r|] eqn:Er.
    + apply str_in_spec in Hrole. rewrite Hrole. simpl.
      rewrite Hnew, Hhash. reflexivity.
    + simpl. rewrite Hnew, Hhash. reflexivity.
  - intros Hadmin permission Hp s. subst user_doc role. rewrite Hadmin.
    unfold check_permission. cbn [user_role].
    apply (proj2 (str_in_spec _ _)) in Hp.
    change (role_permissions "admin")
      with ["upload_docs"; "delete_docs"; "manage_users";
            "query_all"; "view_all"]%string.
    now rewrite Hp.
Qed.

Lemma register_grants_requested_role_witness :
  post_auth_register Demo.libs (mkRegisterEnv "u-1" "salt" 5 6)
                     (mkRegisterBody "eve@x.com" "Eve" (Some "admin") "pw")
                     initial_state
  = (Ok (mkTokenResponse "u-1.admin" "bearer"
           (mkUserResponse "u-1" "eve@x.com" "Eve" "admin" 5 true)),
     set_db_users [mkUser "u-1" "eve@x.com" "Eve" "admin" "saltpw" 5 true]
                  initial_state).
Proof.
  refine (proj1 (@register_grants_requested_role
                   Demo.libs (mkRegisterEnv "u-1" "salt" 5 6)
                   (mkRegisterBody "eve@x.com" "Eve" (Some "admin") "pw")
                   initial_state "eve@x.com" _ _ _ _)).
  - reflexivity.
  - reflexivity.
  - reflexivity.
  - simpl. tauto.
Defined.

(** ** Upload *)

Lemma chunk_entries_meta (split : string -> list string)
      (id title content dt : string) (e : Document) :
  In e (chunk_entries split id title content dt) ->
  md_doc_id (metadata e) = id /\ md_doc_type (metadata e) = Some dt.
Proof.
  unfold chunk_entries, chunk_metadatas. intros H.
  apply in_map_iff in H. destruct H as [[c m] [<- Hin]].
  apply in_combine_r in Hin. apply in_map_iff in Hin.
  destruct Hin as [i [<- _]]. simpl. tauto.
Qed.

Lemma chunk_entries_length (split : string -> list string)
      (id title content dt : string) :
  List.length (chunk_entries split id title content dt)
  = List.length (split content).
Proof.
  unfold chunk_entries, chunk_metadatas.
  rewrite length_map, length_combine, length_map, length_seq. lia.
Qed.

Lemma add_document_frame (split : string -> list string) (ie : IndexEnv)
      (id title content dt : string) (st : State) :
  forall r s1,
    add_document split ie id title content dt st = (r, s1) ->
    same_records st s1
    /\ (forall e, In e (index_entries s1) ->
          In e (index_entries st) \/ e = placeholder
          \/ In e (chunk_entries split id title content dt))
    /\ (forall n, r = Ok n ->
          n = List.length (split content)
          /\ exists base,
              vector_store s1
              = Some (base ++ chunk_entries split id title content dt)
              /\ faiss_index s1 = vector_store s1).
Proof.
  intros r s1. unfold add_document. unfold Handler.bind at 1.
  destruct (load_or_create_store ie st) as [r0 s0] eqn:Hload.
  destruct (load_or_create_store_frame _ _ Hload) as (Hsame & Hidx & Hvs & _).
  destruct r0 as [store|e].
  - specialize (Hvs store eq_refl).
    unfold add_texts, save_local. run_handler.
    fold (chunk_entries split id title content dt).
    destruct s0 as [vs fi up us ds ss ms]. simpl in Hvs. subst vs.
    unfold index_entries, same_records in *. simpl in *.
    destruct (embed_chunks_ok ie);
      [destruct (split content) as [|c0 cs] eqn:Es; [|destruct (save_ok ie)]|];
      simpl; intros H; injection H as <- <-; simpl;
      (split; [exact Hsame|split]); try (intros n Hn; discriminate).
    + intros e He. destruct (Hidx e He); tauto.
    + intros e He. rewrite !in_app_iff in He.
      destruct He as [[He|He]|[He|He]]; try tauto;
        (destruct (Hidx e) as [H|H]; [apply in_or_app; tauto | | ]; tauto).
    + intros n Hn. injection Hn as <-. split; [reflexivity|].
      exists store. split; reflexivity.
    + intros e He. rewrite !in_app_iff in He.
      destruct He as [[He|He]|He]; try tauto;
        (destruct (Hidx e) as [H|H]; [apply in_or_app; tauto | | ]; tauto).
    + intros e He. destruct (Hidx e He); tauto.
  - intros H. injection H as <- <-.
    split; [exact Hsame|split; [|discriminate]].
    intros x Hx. destruct (Hidx x Hx); tauto.
Qed.

Lemma extract_text_pure (L : Libraries) (ext content : string) (st : State) :
  snd (extract_text L ext content st) = st
  /\ forall e, fst (extract_text L ext content st) = Raise e ->
               e = HTTPException 400 "Could not extract text from file".
Proof.
  unfold extract_text, extract_text_from_pdf, extract_text_from_docx,
    extract_text_from_txt. run_handler.
  destruct (ext =? ".pdf")%string;
    [destruct (PdfReader_pages L content)|
     destruct (ext =? ".docx")%string;
     [destruct (Docx_paragraphs L content)|]];
    simpl; split; try reflexivity; intros e H; try discriminate;
    now injection H as <-.
Qed.

Section UploadRun.

Variable L : Libraries.
Variable env : UploadEnv.
Variable file : UploadFile.
Variables title description dtype : string.
Variable current_user : User.

(** The record [upload_document] stores when every step succeeds. *)
Lemma upload_document_run (st : State) :
  upload_document L env file title description dtype current_user st
  = if negb (str_in "upload_docs" (role_permissions (user_role current_user)))
    then (Raise (HTTPException 403 "Permission denied: upload_docs"), st)
    else if negb (str_in (file_ext_of L file) allowed_extensions)
    then (Raise (HTTPException 400 "File type not supported. Allowed: ['.pdf', '.docx', '.txt']"), st)
    else
      match fst (extract_text L (file_ext_of L file) (file_bytes file) st) with
      | Raise e => (Raise e, st)
      | Ok text =>
          if strip_is_empty text
          then (Raise (HTTPException 400 "No text content found in file"), st)
          else
            match add_document (split_text L) (up_index env) (up_uuid env)
                               (doc_title_of L file title) text dtype st
            with
            | (Raise e, s1) => (Raise e, s1)
            | (Ok n, s1) =>
                let path := (UPLOADS_PATH ++ up_uuid env
                                          ++ file_ext_of L file)%string in
                let doc_record :=
                  mkDocRecord (up_uuid env) (doc_title_of L file title)
                              description dtype (filename file) path
                              (user_id current_user) (user_name current_user)
                              (up_now env) n
                              (String.length (file_bytes file)) in
                if up_write_ok env then
                  (if str_in dtype DocType
                   then Ok (DocumentResponse_fields doc_record)
                   else Raise (Exception "ValidationError: doc_type"),
                   mkState (vector_store s1) (faiss_index s1)
                           ((path, file_bytes file)
                              :: filter (fun pc => negb (fst pc =? path)%string)
                                        (uploads s1))
                           (db_users s1)
                           (db_documents s1 ++ [doc_record])
                           (db_chat_sessions s1) (db_chat_messages s1))
                else (Raise (Exception "could not write file"), s1)
            end
      end.
Proof.
  unfold upload_document, check_permission, file_ext_of, doc_title_of.
  unfold Handler.bind at 1.
  destruct (str_in "upload_docs" (role_permissions (user_role current_user)));
    [|reflexivity].
  cbn [negb Handler.ret].
  destruct (str_in (str_lower L (path_suffix L (filename file)))
                   allowed_extensions); [|reflexivity].
  cbn [negb]. unfold Handler.bind at 1.
  pose proof (extract_text_pure L (str_lower L (path_suffix L (filename file)))
                (file_bytes file) st) as [Hst _].
  destruct (extract_text L (str_lower L (path_suffix L (filename file)))
                         (file_bytes file) st) as [[text|e] s0];
    simpl in Hst; subst s0; cbn [fst]; [|reflexivity].
  destruct (strip_is_empty text); [reflexivity|].
  unfold Handler.bind at 1.
  destruct (add_document (split_text L) (up_index env) (up_uuid env)
              (if (title =? "")%string then path_stem L (filename file)
               else title) text dtype st) as [[n|e] s1]; [|reflexivity].
  unfold write_file, DocumentResponse_of. run_handler.
  cbn [doc_type].
  destruct (up_write_ok env); [|reflexivity].
  destruct (str_in dtype DocType); reflexivity.
Qed.

End UploadRun.

(** C2.  An upload whose text extraction raises, or whose extracted text
    is blank, is rejected with the state untouched, so before any change
    to the index.  When adding the chunks to the index raises (loading the
    store, embedding the chunks or saving the index), no document record
    is stored.  Whatever the outcome, the documents collection is either
    what it was or has one more record, and then the chunks of that
    document are in the store and in the saved index: no failure leaves a
    record whose chunks were not indexed. *)
Theorem upload_document_failure_atomic
        (L : Libraries) (env : UploadEnv) (file : UploadFile)
        (title description doc_type : string) (current_user : User)
        (st : State) :
  let out :=
    upload_document L env file title description doc_type current_user st in
  let extracted := fst (extract_text L (file_ext_of L file) (file_bytes file) st) in
  (str_in "upload_docs" (role_permissions (user_role current_user)) = true ->
   str_in (file_ext_of L file) allowed_extensions = true ->
   (forall e, extracted = Raise e ->
      out = (Raise (HTTPException 400 "Could not extract text from file"), st))
   /\ (forall text, extracted = Ok text -> strip_is_empty text = true ->
         out = (Raise (HTTPException 400 "No text content found in file"), st))
   /\ (forall text e s1,
         extracted = Ok text -> strip_is_empty text = false ->
         add_document (split_text L) (up_index env) (up_uuid env)
                      (doc_title_of L file title) text doc_type st
         = (Raise e, s1) ->
         out = (Raise e, s1) /\ same_records st s1))
  /\ (db_documents (snd out) = db_documents st
      \/ exists doc_record text base,
          db_documents (snd out) = db_documents st ++ [doc_record]
          /\ doc_id doc_record = up_uuid env
          /\ extracted = Ok text
          /\ doc_chunk_count doc_record
             = List.length (chunk_entries (split_text L) (up_uuid env)
                              (doc_title_of L file title) text doc_type)
          /\ vector_store (snd out)
             = Some (base ++ chunk_entries (split_text L) (up_uuid env)
                                (doc_title_of L file title) text doc_type)
          /\ faiss_index (snd out) = vector_store (snd out))
  /\ (forall resp,
        fst out = Ok resp ->
        exists doc_record,
          db_documents (snd out) = db_documents st ++ [doc_record]
          /\ resp = DocumentResponse_fields doc_record
          /\ dr_id resp = up_uuid env)
  /\ (is_ok (fst out) = false -> str_in doc_type DocType = true ->
      db_documents (snd out) = db_documents st).
Proof.
  intros out extracted. subst out. rewrite upload_document_run.
  fold extracted.
  pose proof (extract_text_pure L (file_ext_of L file) (file_bytes file) st)
    as [_ Hexn].
  fold extracted in Hexn.
  split.
  { intros Hperm Hext. rewrite Hperm, Hext. cbn [negb].
    split; [|split].
    - intros e He. rewrite He. now rewrite (Hexn e He).
    - intros text Ht Hblank. now rewrite Ht, Hblank.
    - intros text e s1 Ht Hblank Hadd. rewrite Ht, Hblank, Hadd.
      split; [reflexivity|].
      now destruct (add_document_frame _ _ _ _ _ _ _ Hadd). }
  destruct (str_in "upload_docs" (role_permissions (user_role current_user)));
    cbn [negb]; [|repeat split; (now left) || discriminate || reflexivity].
  destruct (str_in (file_ext_of L file) allowed_extensions);
    cbn [negb]; [|repeat split; (now left) || discriminate || reflexivity].
  destruct extracted as [text|e];
    [|repeat split; (now left) || discriminate || reflexivity].
  destruct (strip_is_empty text);
    [repeat split; (now left) || discriminate || reflexivity|].
  destruct (add_document (split_text L) (up_index env) (up_uuid env)
              (doc_title_of L file title) text doc_type st)
    as [[n|e] s1] eqn:Hadd;
    destruct (add_document_frame _ _ _ _ _ _ _ Hadd)
      as ((_ & _ & Hdocs & _) & _ & Hok).
  - destruct (Hok n eq_refl) as (Hn & base & Hvs & Hfi).
    cbv zeta. destruct (up_write_ok env).
    + cbn [fst snd db_documents vector_store faiss_index]. rewrite Hdocs.
      split; [|split].
      * right. eexists. exists text, base.
        split; [reflexivity|]. cbn [doc_id doc_chunk_count].
        rewrite chunk_entries_length. repeat split; assumption.
      * intros resp Hresp. eexists. split; [reflexivity|].
        destruct (str_in doc_type DocType); [|discriminate].
        injection Hresp as <-. split; reflexivity.
      * intros Hfail Hvalid. rewrite Hvalid in Hfail. discriminate.
    + cbn [fst snd]. split; [left; exact Hdocs|].
      split; [discriminate | intros _ _; exact Hdocs].
  - cbn [fst snd]. split; [left; exact Hdocs|].
    split; [discriminate | intros _ _; exact Hdocs].
Qed.

(** An upload with a doc type outside the literals of [DocumentResponse]
    fails when the response is built, after the chunks and the record
    were stored. *)
Example upload_unknown_doc_type :
  fst (upload_document Demo.libs (Demo.upload_env "d-3" 30) Demo.sop_file
                       "" "" "SOP" Demo.admin Demo.two_docs)
  = Raise (Exception "ValidationError: doc_type")
  /\ map doc_id
         (db_documents
            (snd (upload_document Demo.libs (Demo.upload_env "d-3" 30)
                                  Demo.sop_file "" "" "SOP" Demo.admin
                                  Demo.two_docs)))
     = ["d-1"; "d-2"; "d-3"]%string.
Proof. split; reflexivity. Qed.

(** White space is the white space of [str.strip]: a file that holds
    only a no-break space, a next line, an ideographic space, a narrow
    no-break space and a line feed is blank, and its upload is refused
    with nothing stored. *)
Example upload_unicode_blank_rejected :
  strip_is_empty Demo.unicode_blank = true
  /\ upload_document Demo.libs (Demo.upload_env "d-3" 30)
                     Demo.unicode_blank_file "" "" "sop" Demo.admin
                     Demo.two_docs
     = (Raise (HTTPException 400 "No text content found in file"),
        Demo.two_docs).
Proof. split; reflexivity. Qed.

Lemma upload_document_failure_atomic_witness :
  upload_document Demo.libs (Demo.upload_env "d-3" 30) Demo.blank_file
                  "" "" "sop" Demo.admin Demo.two_docs
  = (Raise (HTTPException 400 "No text content found in file"), Demo.two_docs).
Proof.
  refine (proj1 (proj2 (proj1 (@upload_document_failure_atomic
                                 Demo.libs (Demo.upload_env "d-3" 30)
                                 Demo.blank_file "" "" "sop" Demo.admin
                                 Demo.two_docs) _ _)) "   "%string _ _);
    reflexivity.
Defined.

(** ** Role filtering *)

Lemma index_matches_records_transfer (s s' : State) :
  index_matches_records s ->
  (forall e, In e (index_entries s') ->
             In e (index_entries s) \/ e = placeholder) ->
  (forall r, In r (db_documents s') -> In r (db_documents s)) ->
  index_matches_records s'.
Proof.
  intros Hinv Hidx Hdocs e r t He Hr Hid Ht.
  destruct (Hidx e He) as [Hold|Hph].
  - exact (Hinv e r t Hold (Hdocs r Hr) Hid Ht).
  - subst e. discriminate.
Qed.

Lemma index_matches_records_upload
      (L : Libraries) (env : UploadEnv) (file : UploadFile)
      (title description doc_type : string) (current_user : User)
      (s : State) :
  fresh_doc_id (up_uuid env) s ->
  index_matches_records s ->
  index_matches_records
    (snd (upload_document L env file title description doc_type
                          current_user s)).
Proof.
  intros [Hfr Hfe] Hinv. rewrite upload_document_run.
  destruct (negb (str_in "upload_docs"
                    (role_permissions (user_role current_user))));
    [exact Hinv|].
  destruct (negb (str_in (file_ext_of L file) allowed_extensions));
    [exact Hinv|].
  destruct (fst (extract_text L (file_ext_of L file) (file_bytes file) s))
    as [text|e]; [|exact Hinv].
  destruct (strip_is_empty text); [exact Hinv|].
  destruct (add_document (split_text L) (up_index env) (up_uuid env)
              (doc_title_of L file title) text doc_type s)
    as [r s1] eqn:Hadd.
  destruct (add_document_frame _ _ _ _ _ _ _ Hadd)
    as ((_ & _ & Hdocs & _) & Hidx & _).
  assert (Hs1 : index_matches_records s1).
  { intros e r0 t He Hr Hid Ht. rewrite Hdocs in Hr.
    destruct (Hidx e He) as [Hold|[Hph|Hnew]].
    - exact (Hinv e r0 t Hold Hr Hid Ht).
    - subst e. discriminate.
    - apply chunk_entries_meta in Hnew. destruct Hnew as [Hnid _].
      exfalso. apply Hfr. rewrite <- Hnid, <- Hid. now apply in_map. }
  destruct r as [n|e]; [|exact Hs1].
  cbv zeta. destruct (up_write_ok env); [|exact Hs1].
  cbn [snd]. clear Hadd. intros e r0 t He Hr Hid Ht.
  unfold index_entries in He. cbn in He, Hr.
  apply in_app_or in Hr. destruct Hr as [Hr|[Hr|[]]].
  - exact (Hs1 e r0 t He Hr Hid Ht).
  - subst r0. cbn in Hid |- *.
    destruct (Hidx e He) as [Hold|[Hph|Hnew]].
    + exfalso. apply Hfe. rewrite Hid.
      now apply (in_map (fun e => md_doc_id (metadata e))).
    + subst e. discriminate.
    + apply chunk_entries_meta in Hnew. destruct Hnew as [_ Hdt].
      congruence.
Qed.

Lemma index_matches_records_step (L : Libraries) (s s' : State) :
  step L s s' -> index_matches_records s -> index_matches_records s'.
Proof.
  intros Hstep Hinv. destruct Hstep.
  - (* register *)
    apply index_matches_records_transfer with (s := s); [exact Hinv| |].
    all: unfold post_auth_register, UserCreate_validate, register,
        hash_password;
      run_handler;
      destruct (EmailStr L (rb_email body)); [|simpl; tauto];
      destruct (rb_role body) as [r|];
      [destruct (str_in r RoleType); [|simpl; tauto]|];
      match goal with
      | |- context [Mongo.find_one ?q ?c] => destruct (Mongo.find_one q c)
      end; simpl; try tauto;
      destruct (bcrypt_hashpw_raises L (rb_password body)); simpl; tauto.
  - now apply index_matches_records_upload.
  - (* delete_document *)
    apply index_matches_records_transfer with (s := s); [exact Hinv| |].
    all: unfold delete_document, check_permission; run_handler;
      destruct (str_in "delete_docs"
                  (role_permissions (user_role current_user)));
      [|simpl; tauto];
      destruct (Mongo.find_one (fun d => doc_id d =? id)%string
                               (db_documents s)); simpl; try tauto.
    intros r. apply delete_one_incl.
  - (* chat *)
    rewrite chat_run.
    destruct (search (distance L) (chat_index env) (req_message request) 5
                     (chat_doc_types (user_role current_user)) s)
      as [r s1] eqn:Hs.
    destruct (search_frame _ _ _ _ _ _ Hs)
      as ((_ & _ & Hdocs & _) & Hidx & _).
    assert (Hs1 : index_matches_records s1).
    { apply index_matches_records_transfer with (s := s);
        [exact Hinv | exact Hidx | now rewrite Hdocs]. }
    destruct r as [results|e]; exact Hs1.
  - (* get_session_messages *)
    unfold get_session_messages. run_handler.
    destruct (Mongo.find_one (owned_session sid current_user)
                             (db_chat_sessions s)); exact Hinv.
  - (* delete_session *)
    unfold delete_session. run_handler.
    destruct (Mongo.find_one (owned_session sid current_user)
                             (db_chat_sessions s)); exact Hinv.
  - (* user management *)
    exact Hinv.
  - (* restart *)
    apply index_matches_records_transfer with (s := s); [exact Hinv| |].
    + unfold index_entries. simpl. intros e He. left.
      apply in_or_app. now right.
    + simpl. tauto.
Qed.

Lemma reachable_index_matches_records (L : Libraries) (s : State) :
  reachable L s -> index_matches_records s.
Proof.
  induction 1 as [|s s' _ IH Hstep].
  - intros e r t _ [].
  - exact (index_matches_records_step Hstep IH).
Qed.

(** Citations and retrieved chunks of a filtered search carry an allowed
    doc type, in a state where the index agrees with the records. *)
Lemma chat_sources_allowed
      (L : Libraries) (env : ChatEnv) (request : ChatRequest)
      (current_user : User) (s : State) (allowed : list string) :
  index_matches_records s ->
  chat_doc_types (user_role current_user) = Some allowed ->
  allowed <> [] ->
  forall results s1,
    search (distance L) (chat_index env) (req_message request) 5
           (chat_doc_types (user_role current_user)) s = (Ok results, s1) ->
    (forall ds, In ds results ->
                exists t, md_doc_type (metadata (fst ds)) = Some t
                          /\ In t allowed)
    /\ (forall c, In c (sources (chat_loop (db_documents s1) results)) ->
                  In (cit_doc_type c) allowed).
Proof.
  intros Hinv Hrole Hne results s1 Hs.
  destruct (search_frame _ _ _ _ _ _ Hs)
    as ((_ & _ & Hdocs & _) & Hidx & _ & Hres).
  specialize (Hres results eq_refl).
  assert (Hs1 : index_matches_records s1).
  { apply index_matches_records_transfer with (s := s);
      [exact Hinv | exact Hidx | now rewrite Hdocs]. }
  assert (Htruthy : truthy_list (chat_doc_types (user_role current_user)) = true).
  { rewrite Hrole. destruct allowed; [congruence | reflexivity]. }
  assert (Hallowed : forall ds, In ds results ->
            exists t, md_doc_type (metadata (fst ds)) = Some t /\ In t allowed).
  { intros ds Hds. destruct (Hres ds Hds) as [_ Ht].
    specialize (Ht Htruthy). rewrite Hrole in Ht.
    now apply doc_type_in_spec. }
  split; [exact Hallowed|].
  intros c Hc. apply sources_from_results in Hc.
  destruct Hc as (doc & d & doc_info & Hin & _ & Hfind & ->).
  destruct (Hallowed _ Hin) as (t & Ht & Hta). simpl in Ht.
  destruct (Hres _ Hin) as [Hentry _]. simpl in Hentry.
  apply find_one_some in Hfind. destruct Hfind as [Hrec Hid].
  apply String.eqb_eq in Hid.
  simpl. now rewrite (Hs1 doc doc_info t Hentry Hrec Hid Ht).
Qed.

(** C1.  In every state the server reaches, the doc types a chat request
    sees are fixed by the role of the requester: for a technician every
    retrieved chunk and every citation has doc type [sop]; for a viewer
    [sop] or [manual]; for an admin or an engineer the search is the
    unfiltered nearest-neighbour search of the whole store. *)
Theorem chat_role_filtering
        (L : Libraries) (env : ChatEnv) (request : ChatRequest)
        (current_user : User) (s : State) :
  reachable L s ->
  forall results s1,
    search (distance L) (chat_index env) (req_message request) 5
           (chat_doc_types (user_role current_user)) s = (Ok results, s1) ->
    exists resp s',
      chat L env request current_user s = (Ok resp, s')
      /\ resp_sources resp = sources (chat_loop (db_documents s1) results)
      /\ cm_sources (resp_message resp) = Some (resp_sources resp)
      /\ (user_role current_user = "technician"%string ->
          (forall ds, In ds results ->
                      md_doc_type (metadata (fst ds)) = Some "sop"%string)
          /\ (forall c, In c (resp_sources resp) ->
                        cit_doc_type c = "sop"%string))
      /\ (user_role current_user = "viewer"%string ->
          (forall ds, In ds results ->
                      md_doc_type (metadata (fst ds)) = Some "sop"%string
                      \/ md_doc_type (metadata (fst ds))
                         = Some "manual"%string)
          /\ (forall c, In c (resp_sources resp) ->
                        cit_doc_type c = "sop"%string
                        \/ cit_doc_type c = "manual"%string))
      /\ (user_role current_user = "admin"%string
          \/ user_role current_user = "engineer"%string ->
          exists store,
            vector_store s1 = Some store
            /\ results = nearest (distance L) store (req_message request) 5).
Proof.
  intros Hreach results s1 Hs.
  apply reachable_index_matches_records in Hreach.
  eexists. eexists. split; [rewrite chat_run, Hs; reflexivity|].
  cbn [resp_sources resp_message cm_sources].
  split; [reflexivity|]. split; [reflexivity|]. split; [|split].
  - intros Hrole.
    destruct (@chat_sources_allowed L env request current_user s ["sop"%string]
                Hreach) with (results := results) (s1 := s1)
      as [Hres Hsrc]; try (rewrite Hrole; reflexivity);
      try discriminate; try exact Hs.
    split.
    + intros ds Hds. destruct (Hres ds Hds) as (t & Ht & [<-|[]]). exact Ht.
    + intros c Hc. destruct (Hsrc c Hc) as [H|[]]. now symmetry.
  - intros Hrole.
    destruct (@chat_sources_allowed L env request current_user s
                ["sop"%string; "manual"%string] Hreach)
      with (results := results) (s1 := s1)
      as [Hres Hsrc]; try (rewrite Hrole; reflexivity);
      try discriminate; try exact Hs.
    split.
    + intros ds Hds.
      destruct (Hres ds Hds) as (t & Ht & [<-|[<-|[]]]); tauto.
    + intros c Hc. destruct (Hsrc c Hc) as [H|[H|[]]]; auto.
  - intros Hrole.
    assert (Hnone : chat_doc_types (user_role current_user) = None)
      by (destruct Hrole as [-> | ->]; reflexivity).
    rewrite Hnone, search_run in Hs.
    destruct (load_or_create_store (chat_index env) s) as [[store|e] s0]
      eqn:Hload; [|discriminate].
    destruct (load_or_create_store_frame _ _ Hload) as (_ & _ & Hvs & _).
    destruct (embed_query_ok (chat_index env)); [|discriminate].
    injection Hs as <- <-. exists store. split; [now apply Hvs | reflexivity].
Qed.

Lemma chat_role_filtering_witness :
  exists resp s',
    chat Demo.libs (Demo.chat_env "1" 100 Demo.llm_echo)
         (mkChatRequest "pump manual?" None) Demo.technician Demo.two_docs
    = (Ok resp, s')
    /\ forall c, In c (resp_sources resp) -> cit_doc_type c = "sop"%string.
Proof.
  assert (Hreach : reachable Demo.libs Demo.two_docs).
  { unfold Demo.two_docs.
    eapply reachable_step;
      [eapply reachable_step; [apply reachable_initial|]|].
    - apply step_upload. split; simpl; tauto.
    - apply step_upload. split; vm_compute; intuition discriminate. }
  destruct (@chat_role_filtering
              Demo.libs (Demo.chat_env "1" 100 Demo.llm_echo)
              (mkChatRequest "pump manual?" None) Demo.technician
              Demo.two_docs Hreach _ _ eq_refl)
    as (resp & s' & Hchat & _ & _ & Htech & _).
  exists resp, s'. split; [exact Hchat|].
  exact (proj2 (Htech eq_refl)).
Defined.


(** * Further properties of the server *)

(** ** Permissions *)

Lemma role_permissions_cases (role : string) :
  (role = "admin"%string
   /\ role_permissions role
      = ["upload_docs"; "delete_docs"; "manage_users"; "query_all";
         "view_all"]%string)
  \/ (role = "engineer"%string
      /\ role_permissions role
         = ["upload_docs"; "query_all"; "view_all"]%string)
  \/ (role <> "admin"%string /\ role <> "engineer"%string
      /\ forall p, In p (role_permissions role) ->
                   In p ["query_sops"; "view_sops"; "query_limited";
                         "view_limited"]%string).
Proof.
  unfold role_permissions, ROLE_PERMISSIONS.
  destruct (role =? "admin")%string eqn:Ea.
  { apply String.eqb_eq in Ea. left. now split. }
  destruct (role =? "engineer")%string eqn:Ee.
  { apply String.eqb_eq in Ee. right. left. now split. }
  apply String.eqb_neq in Ea. apply String.eqb_neq in Ee.
  right. right. split; [exact Ea|]. split; [exact Ee|].
  destruct (role =? "technician")%string;
    [|destruct (role =? "viewer")%string]; simpl; tauto.
Qed.

(** [check_permission] either returns or raises 403 naming the
    permission, and never touches the state.  Managing users and deleting
    documents are granted to the role [admin] alone, uploading to [admin]
    and [engineer] alone; a role outside the table has no permission. *)
Theorem check_permission_matrix (user : User) (s : State) :
  (forall permission,
      check_permission user permission s = (Ok tt, s)
      \/ check_permission user permission s
         = (Raise (HTTPException 403 ("Permission denied: " ++ permission)%string),
            s))
  /\ (check_permission user "manage_users" s = (Ok tt, s)
      <-> user_role user = "admin"%string)
  /\ (check_permission user "delete_docs" s = (Ok tt, s)
      <-> user_role user = "admin"%string)
  /\ (check_permission user "upload_docs" s = (Ok tt, s)
      <-> user_role user = "admin"%string
          \/ user_role user = "engineer"%string)
  /\ (ROLE_PERMISSIONS (user_role user) = None ->
      forall permission,
        check_permission user permission s
        = (Raise (HTTPException 403 ("Permission denied: " ++ permission)%string),
           s)).
Proof.
  unfold check_permission. run_handler.
  split; [|split; [|split; [|split]]].
  - intros permission.
    destruct (str_in permission (role_permissions (user_role user))); tauto.
  - destruct (role_permissions_cases (user_role user))
      as [[Hr ->]|[[Hr ->]|(Ha & He & Hp)]]; simpl.
    + tauto.
    + split; [discriminate | intros H; rewrite H in Hr; discriminate].
    + destruct (str_in "manage_users" (role_permissions (user_role user)))
        eqn:E; [|split; [discriminate | tauto]].
      apply str_in_spec, Hp in E. simpl in E.
      exfalso. intuition discriminate.
  - destruct (role_permissions_cases (user_role user))
      as [[Hr ->]|[[Hr ->]|(Ha & He & Hp)]]; simpl.
    + tauto.
    + split; [discriminate | intros H; rewrite H in Hr; discriminate].
    + destruct (str_in "delete_docs" (role_permissions (user_role user)))
        eqn:E; [|split; [discriminate | tauto]].
      apply str_in_spec, Hp in E. simpl in E.
      exfalso. intuition discriminate.
  - destruct (role_permissions_cases (user_role user))
      as [[Hr ->]|[[Hr ->]|(Ha & He & Hp)]]; simpl.
    + tauto.
    + tauto.
    + destruct (str_in "upload_docs" (role_permissions (user_role user)))
        eqn:E; [|split; [discriminate | tauto]].
      apply str_in_spec, Hp in E. simpl in E.
      exfalso. intuition discriminate.
  - intros Hnone permission. unfold role_permissions. now rewrite Hnone.
Qed.

Lemma check_permission_matrix_witness :
  check_permission (mkUser "u-9" "x@x.com" "X" "auditor" "h" 0 true)
                   "view_limited" initial_state
  = (Raise (HTTPException 403 "Permission denied: view_limited"),
     initial_state).
Proof.
  apply (proj2 (proj2 (proj2 (proj2
           (check_permission_matrix
              (mkUser "u-9" "x@x.com" "X" "auditor" "h" 0 true)
              initial_state)))) eq_refl "view_limited"%string).
Defined.

Lemma upload_permission_flag (u : User) :
  str_in "upload_docs" (role_permissions (user_role u)) = true
  <-> user_role u = "admin"%string \/ user_role u = "engineer"%string.
Proof.
  destruct (role_permissions_cases (user_role u))
    as [[Hr ->]|[[Hr ->]|(Ha & He & Hp)]]; simpl.
  - tauto.
  - tauto.
  - destruct (str_in "upload_docs" (role_permissions (user_role u)))
      eqn:E; [|split; [discriminate | tauto]].
    apply str_in_spec, Hp in E. simpl in E.
    exfalso. intuition discriminate.
Qed.

Lemma admin_permission_flag (u : User) (p : string) :
  p = "manage_users"%string \/ p = "delete_docs"%string ->
  (str_in p (role_permissions (user_role u)) = true
   <-> user_role u = "admin"%string).
Proof.
  intros Hp.
  destruct (role_permissions_cases (user_role u))
    as [[Hr ->]|[[Hr ->]|(Ha & He & Hq)]].
  - destruct Hp as [-> | ->]; simpl; tauto.
  - destruct Hp as [-> | ->]; simpl;
      (split; [discriminate | intros H; rewrite H in Hr; discriminate]).
  - destruct (str_in p (role_permissions (user_role u))) eqn:E;
      [|split; [discriminate | tauto]].
    apply str_in_spec, Hq in E. simpl in E.
    exfalso. destruct Hp as [-> | ->]; intuition discriminate.
Qed.

(** The permission check of [upload_document] comes first: a user who is
    neither admin nor engineer gets 403 whatever the file is, and an
    admin or engineer who sends a file whose extension is not .pdf, .docx
    or .txt gets 400; in both cases nothing is read, indexed or stored. *)
Theorem upload_document_rejected_early
        (L : Libraries) (env : UploadEnv) (file : UploadFile)
        (title description doc_type : string) (current_user : User)
        (st : State) :
  (user_role current_user <> "admin"%string ->
   user_role current_user <> "engineer"%string ->
   upload_document L env file title description doc_type current_user st
   = (Raise (HTTPException 403 "Permission denied: upload_docs"), st))
  /\ (user_role current_user = "admin"%string
      \/ user_role current_user = "engineer"%string ->
      ~ In (str_lower L (path_suffix L (filename file)))
           [".pdf"; ".docx"; ".txt"]%string ->
      upload_document L env file title description doc_type current_user st
      = (Raise (HTTPException 400 "File type not supported. Allowed: ['.pdf', '.docx', '.txt']"),
         st)).
Proof.
  split.
  - intros Ha He. rewrite upload_document_run.
    destruct (str_in "upload_docs" (role_permissions (user_role current_user)))
      eqn:E; [|reflexivity].
    apply upload_permission_flag in E. tauto.
  - intros Hrole Hext. rewrite upload_document_run.
    rewrite (proj2 (upload_permission_flag current_user) Hrole).
    cbn [negb].
    fold (file_ext_of L file) in Hext.
    apply str_in_false in Hext. unfold allowed_extensions.
    now rewrite Hext.
Qed.

Lemma upload_document_rejected_early_witness :
  upload_document Demo.libs (Demo.upload_env "d-3" 30) Demo.sop_file
                  "" "" "sop" Demo.technician Demo.two_docs
  = (Raise (HTTPException 403 "Permission denied: upload_docs"),
     Demo.two_docs).
Proof.
  apply (proj1 (upload_document_rejected_early
                  Demo.libs (Demo.upload_env "d-3" 30) Demo.sop_file
                  "" "" "sop" Demo.technician Demo.two_docs));
    discriminate.
Defined.

(** ** The vector store manager, continued *)

(** Once [load_or_create_store] has returned a store, the manager holds it:
    every later call, whatever the services answer then, returns the same
    store and leaves the state as it is. *)
Theorem load_or_create_store_memoised
        (ie ie' : IndexEnv) (st s1 : State) (store : Store) :
  load_or_create_store ie st = (Ok store, s1) ->
  vector_store s1 = Some store
  /\ load_or_create_store ie' s1 = (Ok store, s1).
Proof.
  intros Hload.
  destruct (load_or_create_store_frame _ _ Hload) as (_ & _ & Hvs & _).
  specialize (Hvs store eq_refl). split; [exact Hvs|].
  now apply load_or_create_store_loaded.
Qed.

Lemma load_or_create_store_memoised_witness :
  load_or_create_store (mkIndexEnv false false false false false false false)
    (snd (load_or_create_store Demo.services_up initial_state))
  = (Ok [placeholder], snd (load_or_create_store Demo.services_up initial_state)).
Proof.
  apply (proj2 (@load_or_create_store_memoised
                  Demo.services_up
                  (mkIndexEnv false false false false false false false)
                  initial_state _ [placeholder] eq_refl)).
Defined.

(** The outcomes of [load_or_create_store] when the manager holds no store
    yet.  A directory that loads is returned as it is.  A directory that
    does not load is left on disk and a store holding only the placeholder
    is returned, unsaved.  Without a directory the placeholder store is
    created and saved; when the save fails it is created again and stays
    unsaved.  The call raises only when the second creation fails, and
    then the directory is what it was. *)
Theorem load_or_create_store_outcomes (ie : IndexEnv) (st : State) :
  vector_store st = None ->
  (forall disk, faiss_index st = Some disk -> load_ok ie = true ->
     load_or_create_store ie st = (Ok disk, set_vector_store (Some disk) st))
  /\ (forall disk, faiss_index st = Some disk -> load_ok ie = false ->
        embed_retry_ok ie = true ->
        load_or_create_store ie st
        = (Ok [placeholder], set_vector_store (Some [placeholder]) st))
  /\ (faiss_index st = None -> embed_placeholder_ok ie = true ->
      save_new_ok ie = true ->
      load_or_create_store ie st
      = (Ok [placeholder],
         set_faiss_index (Some [placeholder])
                         (set_vector_store (Some [placeholder]) st)))
  /\ (faiss_index st = None ->
      embed_placeholder_ok ie = false \/ save_new_ok ie = false ->
      embed_retry_ok ie = true ->
      load_or_create_store ie st
      = (Ok [placeholder], set_vector_store (Some [placeholder]) st))
  /\ (is_ok (fst (load_or_create_store ie st)) = false ->
      embed_retry_ok ie = false
      /\ faiss_index (snd (load_or_create_store ie st)) = faiss_index st).
Proof.
  intros Hvs. destruct st as [vs fi up us ds ss ms]. simpl in Hvs. subst vs.
  destruct ie as [ep er ec eq lo sn so].
  unfold load_or_create_store, load_local, from_texts_placeholder, save_local,
    FAISS_INDEX_PATH_exists.
  run_handler. simpl.
  split; [|split; [|split; [|split]]].
  - intros disk -> ->. reflexivity.
  - intros disk -> -> ->. reflexivity.
  - intros -> -> ->. reflexivity.
  - intros -> [-> | ->] ->; [reflexivity|]. destruct ep; reflexivity.
  - destruct fi as [disk|]; [destruct lo, er | destruct ep, sn, er];
      simpl; intros H; try discriminate; split; reflexivity.
Qed.

Lemma load_or_create_store_outcomes_witness :
  load_or_create_store (mkIndexEnv true true true true false true true)
                       (set_vector_store None Demo.two_docs)
  = (Ok [placeholder],
     set_vector_store (Some [placeholder])
                      (set_vector_store None Demo.two_docs)).
Proof.
  refine (proj1 (proj2 (@load_or_create_store_outcomes
                          (mkIndexEnv true true true true false true true)
                          (set_vector_store None Demo.two_docs) eq_refl))
                _ eq_refl eq_refl eq_refl).
Defined.

Lemma combine_same_length {A B} (l : list A) (l' : list B) :
  List.length l = List.length l' ->
  map fst (combine l l') = l /\ map snd (combine l l') = l'.
Proof.
  revert l'. induction l as [|a l IH]; intros [|b l'] Hlen;
    try discriminate; simpl.
  - split; reflexivity.
  - injection Hlen as Hlen. destruct (IH l' Hlen) as [H1 H2].
    now rewrite H1, H2.
Qed.

Lemma chunk_entries_contents (split : string -> list string)
      (id title content dt : string) :
  map page_content (chunk_entries split id title content dt) = split content
  /\ map metadata (chunk_entries split id title content dt)
     = map (fun i => mkMetadata id title (Some dt) i)
           (seq 0 (List.length (split content))).
Proof.
  unfold chunk_entries, chunk_metadatas. rewrite !map_map. simpl.
  assert (Hlen : List.length (split content)
                 = List.length
                     (map (fun i => mkMetadata id title (Some dt) i)
                          (seq 0 (List.length (split content)))))
    by now rewrite length_map, length_seq.
  destruct (combine_same_length _ _ Hlen) as [H1 H2].
  split.
  - etransitivity; [|exact H1]. apply map_ext. now intros [c m].
  - etransitivity; [|exact H2]. apply map_ext. now intros [c m].
Qed.

(** When [add_document] returns, it returns the number of chunks the
    splitter made of the text; the chunks were appended to the store in
    the order of the splitter, entry [i] holding chunk [i] with
    [chunk_index = i] and the doc id, title and doc type given; the index
    directory holds the same store. *)
Theorem add_document_numbers_chunks
        (split : string -> list string) (ie : IndexEnv)
        (id title content dt : string) (st s1 : State) (n : nat) :
  add_document split ie id title content dt st = (Ok n, s1) ->
  n = List.length (split content)
  /\ exists base added,
      vector_store s1 = Some (base ++ added)
      /\ faiss_index s1 = Some (base ++ added)
      /\ (forall e, In e base -> In e (index_entries st) \/ e = placeholder)
      /\ map page_content added = split content
      /\ map metadata added
         = map (fun i => mkMetadata id title (Some dt) i) (seq 0 n).
Proof.
  intros Hadd.
  destruct (add_document_frame _ _ _ _ _ _ _ Hadd) as (_ & _ & Hok).
  destruct (Hok n eq_refl) as (Hn & base & Hvs & Hfi).
  split; [exact Hn|].
  exists base, (chunk_entries split id title content dt).
  destruct (chunk_entries_contents split id title content dt) as [Hc Hm].
  split; [exact Hvs|]. split; [now rewrite Hfi|]. split.
  - unfold add_document in Hadd. unfold Handler.bind at 1 in Hadd.
    destruct (load_or_create_store ie st) as [[store|e] s0] eqn:Hload;
      [|discriminate].
    destruct (load_or_create_store_frame _ _ Hload) as (_ & Hidx & Hs0 & _).
    specialize (Hs0 store eq_refl).
    unfold add_texts, save_local in Hadd. run_handler.
    fold (chunk_entries split id title content dt) in Hadd.
    destruct s0 as [vs0 fi0 up0 us0 ds0 ss0 ms0]. simpl in Hs0. subst vs0.
    simpl in Hadd.
    destruct (embed_chunks_ok ie); [|discriminate].
    destruct (split content) as [|c0 cs] eqn:Es; [discriminate|].
    destruct (save_ok ie); [|discriminate].
    injection Hadd as _ <-. simpl in Hvs. injection Hvs as Hvs.
    apply app_inv_tail in Hvs. subst base.
    intros e He. apply Hidx. unfold index_entries. simpl.
    apply in_or_app. now left.
  - split; [exact Hc|]. now rewrite Hn.
Qed.

Lemma add_document_numbers_chunks_witness :
  exists base added,
    vector_store
      (snd (add_document (fun t => [t; t]) Demo.services_up
                         "d-7" "T" "abc" "sop" initial_state))
    = Some (base ++ added)
    /\ map metadata added
       = [mkMetadata "d-7" "T" (Some "sop"%string) 0;
          mkMetadata "d-7" "T" (Some "sop"%string) 1].
Proof.
  destruct (@add_document_numbers_chunks
              (fun t => [t; t]) Demo.services_up "d-7" "T" "abc" "sop"
              initial_state _ 2 eq_refl)
    as (_ & base & added & Hvs & _ & _ & _ & Hm).
  exists base, added. split; [exact Hvs | exact Hm].
Defined.

(** Uploading after a failed load replaces the index.  When the manager
    holds no store, the directory does not load, the services answer and
    the splitter makes at least one chunk of the text, [add_document]
    builds its store from the placeholder alone and saves it: the saved
    index then holds the placeholder and the new chunks, and none of the
    entries the directory had. *)
Theorem add_document_after_failed_load_replaces_index
        (split : string -> list string) (ie : IndexEnv)
        (id title content dt : string) (st : State) (disk : Store) :
  split content <> [] ->
  vector_store st = None ->
  faiss_index st = Some disk ->
  load_ok ie = false ->
  embed_retry_ok ie = true ->
  embed_chunks_ok ie = true ->
  save_ok ie = true ->
  exists s1,
    add_document split ie id title content dt st
    = (Ok (List.length (split content)), s1)
    /\ vector_store s1
       = Some (placeholder :: chunk_entries split id title content dt)
    /\ faiss_index s1
       = Some (placeholder :: chunk_entries split id title content dt)
    /\ (forall e, In e disk -> e <> placeholder ->
                  md_doc_id (metadata e) <> id ->
                  ~ In e (index_entries s1)).
Proof.
  intros Hne Hvs Hfi Hlo Her Hec Hso.
  destruct st as [vs fi up us ds ss ms]. simpl in Hvs, Hfi. subst vs fi.
  eexists. split; [|split; [|split]].
  - unfold add_document, load_or_create_store, load_local,
      from_texts_placeholder, save_local, add_texts, FAISS_INDEX_PATH_exists.
    run_handler. simpl. rewrite Hlo, Her, Hec, Hso. simpl.
    fold (chunk_entries split id title content dt).
    destruct (split content) as [|c0 cs]; [congruence|]. reflexivity.
  - reflexivity.
  - reflexivity.
  - intros e _ Hph Hid Hin. unfold index_entries in Hin.
    cbn [vector_store faiss_index store_entries] in Hin.
    apply in_app_or in Hin.
    assert (Hnew : In e (chunk_entries split id title content dt))
      by (destruct Hin as [Hin|Hin]; destruct Hin as [H|H];
          congruence || exact H).
    apply chunk_entries_meta in Hnew. tauto.
Qed.

Lemma add_document_after_failed_load_replaces_index_witness :
  exists s1,
    add_document (fun t => [t]) (mkIndexEnv true true true true false true true)
                 "d-3" "T" "abc" "sop"
                 (set_vector_store None Demo.two_docs)
    = (Ok 1, s1)
    /\ faiss_index s1
       = Some [placeholder;
               mkDocument "abc" (mkMetadata "d-3" "T" (Some "sop"%string) 0)].
Proof.
  destruct (@add_document_after_failed_load_replaces_index
              (fun t => [t]) (mkIndexEnv true true true true false true true)
              "d-3" "T" "abc" "sop"
              (set_vector_store None Demo.two_docs) _
              ltac:(discriminate)
              eq_refl eq_refl eq_refl eq_refl eq_refl eq_refl)
    as (s1 & Hadd & _ & Hfi & _).
  exists s1. split; [exact Hadd | exact Hfi].
Defined.

(** ** Search, continued *)

(** Whatever the filter, a search that returns gives at most [k] results,
    nearest first, each of them an entry of the store the manager holds,
    with the distance of that entry to the query. *)
Theorem search_results_bounded_sorted
        (distance : string -> string -> Q) (ie : IndexEnv) (query : string)
        (k : nat) (doc_types : option (list string)) (st s1 : State)
        (results : list (Document * Q)) :
  search distance ie query k doc_types st = (Ok results, s1) ->
  List.length results <= k
  /\ StronglySorted score_le results
  /\ exists store,
      vector_store s1 = Some store
      /\ forall ds, In ds results ->
           In (fst ds) store
           /\ snd ds = distance query (page_content (fst ds)).
Proof.
  rewrite search_run.
  destruct (load_or_create_store ie st) as [[store|e] s0] eqn:Hload;
    [|discriminate].
  destruct (load_or_create_store_frame _ _ Hload) as (_ & _ & Hvs & _).
  specialize (Hvs store eq_refl).
  destruct (embed_query_ok ie); [|discriminate].
  destruct (Nat.eqb k 0); [discriminate|].
  intros H. injection H as <- <-.
  destruct (truthy_list doc_types).
  - split; [apply firstn_le_length|]. split.
    + apply StronglySorted_firstn, StronglySorted_filter, nearest_sorted.
    + exists store. split; [exact Hvs|]. intros ds Hds.
      apply In_firstn in Hds. unfold filter_doc_types in Hds.
      apply filter_In in Hds. destruct Hds as [Hds _].
      now apply nearest_from_store in Hds.
  - split; [unfold nearest; apply firstn_le_length|]. split.
    + apply nearest_sorted.
    + exists store. split; [exact Hvs|]. intros ds Hds.
      now apply nearest_from_store in Hds.
Qed.

Lemma search_results_bounded_sorted_witness :
  List.length
    (match fst (search Demo.length_distance Demo.services_up "gloves" 2
                       (Some ["sop"; "manual"]%string) Demo.two_docs) with
     | Ok results => results
     | Raise _ => []
     end) <= 2.
Proof.
  exact (proj1 (@search_results_bounded_sorted
                  Demo.length_distance Demo.services_up "gloves" 2
                  (Some ["sop"; "manual"]%string) Demo.two_docs _ _ eq_refl)).
Defined.

(** A search for [k > 0] results without a list of doc types, or with an
    empty list, is not filtered: it returns the [k] nearest entries of the
    whole store, and every entry of the store, the placeholder included,
    when the store has at most [k] entries. *)
Theorem search_without_filter_complete
        (distance : string -> string -> Q) (ie : IndexEnv) (query : string)
        (k : nat) (doc_types : option (list string)) (st s1 : State)
        (store : Store) :
  0 < k ->
  doc_types = None \/ doc_types = Some [] ->
  load_or_create_store ie st = (Ok store, s1) ->
  embed_query_ok ie = true ->
  search distance ie query k doc_types st
  = (Ok (nearest distance store query k), s1)
  /\ List.length (nearest distance store query k)
     = Nat.min k (List.length store)
  /\ (List.length store <= k ->
      Permutation (map fst (nearest distance store query k)) store).
Proof.
  intros Hk Hdt Hload Hq.
  assert (Hk0 : Nat.eqb k 0 = false) by (apply Nat.eqb_neq; lia).
  split; [|split].
  - rewrite search_run, Hload, Hq, Hk0. now destruct Hdt as [-> | ->].
  - apply nearest_length.
  - intros Hlen. unfold nearest.
    rewrite firstn_all2
      by now rewrite (Permutation_length (sort_scored_perm _)), length_map.
    eapply perm_trans; [apply Permutation_map, sort_scored_perm|].
    rewrite map_map. simpl. rewrite map_id. apply Permutation_refl.
Qed.

Lemma search_without_filter_complete_witness :
  Permutation
    (map fst (nearest Demo.length_distance
                      (store_entries (vector_store Demo.two_docs))
                      "gloves" 5))
    (store_entries (vector_store Demo.two_docs)).
Proof.
  refine (proj2 (proj2 (@search_without_filter_complete
                          Demo.length_distance Demo.services_up "gloves" 5
                          (Some []) Demo.two_docs Demo.two_docs
                          (store_entries (vector_store Demo.two_docs))
                          _ _ eq_refl eq_refl)) _).
  - lia.
  - now right.
  - simpl. lia.
Defined.

(** ** The context of a chat *)

Lemma string_append_assoc (a b c : string) :
  ((a ++ b) ++ c)%string = (a ++ b ++ c)%string.
Proof. induction a as [|x a IH]; simpl; [reflexivity | now rewrite IH]. Qed.

Lemma concat_starts_with (sep p : string) (ps : list string) :
  exists tail, String.concat sep (p :: ps) = (p ++ tail)%string.
Proof.
  destruct ps as [|q ps]; simpl.
  - exists ""%string. induction p as [|c p IH]; simpl; congruence.
  - eexists. reflexivity.
Qed.

(** The context given to the language model is never the empty string.
    It is the sentence "No relevant documents found." exactly when no
    result is left once the placeholder is skipped, and there are no
    citations then; otherwise it starts with the header and text of the
    nearest result that is not the placeholder. *)
Theorem chat_context_never_empty
        (documents : list DocRecord) (results : list (Document * Q)) :
  let acc := chat_loop documents results in
  context_of (context_parts acc) <> ""%string
  /\ (non_system results = [] ->
      context_of (context_parts acc) = "No relevant documents found."%string
      /\ sources acc = [])
  /\ (forall ds rest,
        non_system results = ds :: rest ->
        exists tail,
          context_of (context_parts acc)
          = ("[From: " ++ md_title (metadata (fst ds)) ++ "]" ++ nl
             ++ page_content (fst ds) ++ tail)%string)
  /\ (context_of (context_parts acc) = "No relevant documents found."%string
      <-> non_system results = []).
Proof.
  intros acc.
  pose proof (chat_loop_refines documents results) as Href.
  fold acc in Href. unfold filter_and_dedupe in Href.
  injection Href as Hctx Hsrc. rewrite Hctx, Hsrc.
  assert (Hcons : forall ds rest,
             non_system results = ds :: rest ->
             exists tail,
               context_of (map (fun x => context_part (fst x))
                               (non_system results))
               = ("[From: " ++ md_title (metadata (fst ds)) ++ "]" ++ nl
                  ++ page_content (fst ds) ++ tail)%string).
  { intros ds rest ->. simpl map. unfold context_of.
    destruct (concat_starts_with context_separator (context_part (fst ds))
                (map (fun x => context_part (fst x)) rest)) as [tail Ht].
    rewrite Ht. exists tail. unfold context_part.
    rewrite !string_append_assoc. reflexivity. }
  split; [|split; [|split]].
  - destruct (non_system results) as [|ds rest] eqn:E.
    + discriminate.
    + destruct (Hcons ds rest eq_refl) as [tail ->]. discriminate.
  - intros ->. split; reflexivity.
  - exact Hcons.
  - split.
    + destruct (non_system results) as [|ds rest] eqn:E; [reflexivity|].
      destruct (Hcons ds rest eq_refl) as [tail ->]. discriminate.
    + intros ->. reflexivity.
Qed.

Lemma chat_context_never_empty_witness :
  context_of (context_parts (chat_loop [] [(placeholder, 1 # 1)%Q]))
  = "No relevant documents found."%string.
Proof.
  exact (proj1 (proj1 (proj2 (@chat_context_never_empty
                                [] [(placeholder, 1 # 1)%Q])) eq_refl)).
Defined.

(** The title of a new session counts characters, not bytes: a message of
    30 accented letters, 60 bytes, is its own title, and a message of 60
    is cut after the 50th letter, byte 100. *)
Example session_title_counts_characters :
  String.length (Demo.accented 30) = 60
  /\ session_title_of (Demo.accented 30) = Demo.accented 30
  /\ session_title_of (Demo.accented 60)
     = (Demo.accented 50 ++ "...")%string.
Proof. repeat split; vm_compute; reflexivity. Qed.

(** ** What a chat request leaves alone *)

(** A chat request, whether it returns or raises, leaves the users, the
    documents and the uploaded files as they are, and adds nothing to the
    index but, at most, the placeholder of a store it had to create.  A
    chat request that raises has stored no session and no message. *)
Theorem chat_leaves_documents_alone
        (L : Libraries) (env : ChatEnv) (request : ChatRequest)
        (current_user : User) (st : State) :
  let out := chat L env request current_user st in
  db_users (snd out) = db_users st
  /\ db_documents (snd out) = db_documents st
  /\ uploads (snd out) = uploads st
  /\ (forall e, In e (index_entries (snd out)) ->
                In e (index_entries st) \/ e = placeholder)
  /\ (is_ok (fst out) = false ->
      db_chat_sessions (snd out) = db_chat_sessions st
      /\ db_chat_messages (snd out) = db_chat_messages st).
Proof.
  intros out. subst out. rewrite chat_run.
  destruct (search (distance L) (chat_index env) (req_message request) 5
                   (chat_doc_types (user_role current_user)) st)
    as [r s1] eqn:Hs.
  destruct (search_frame _ _ _ _ _ _ Hs)
    as ((Hup & Hus & Hdocs & Hss & Hms) & Hidx & _).
  destruct r as [results|e]; cbn [fst snd is_ok].
  - split; [exact Hus|]. split; [exact Hdocs|]. split; [exact Hup|].
    split; [exact Hidx | discriminate].
  - split; [exact Hus|]. split; [exact Hdocs|]. split; [exact Hup|].
    split; [exact Hidx|]. intros _. split; assumption.
Qed.

Lemma chat_leaves_documents_alone_witness :
  db_chat_messages
    (snd (chat Demo.libs
               (mkChatEnv (mkIndexEnv true true true false true true true)
                          "s" "mu" "0a" "ma" 1 2 3 4 5 Demo.llm_echo)
               (mkChatRequest "gloves?" None) Demo.viewer Demo.two_docs))
  = db_chat_messages Demo.two_docs.
Proof.
  exact (proj2 (proj2 (proj2 (proj2 (proj2
           (@chat_leaves_documents_alone
              Demo.libs
              (mkChatEnv (mkIndexEnv true true true false true true true)
                         "s" "mu" "0a" "ma" 1 2 3 4 5 Demo.llm_echo)
              (mkChatRequest "gloves?" None) Demo.viewer Demo.two_docs))))
           eq_refl)).
Defined.

(** ** Reading and deleting sessions *)

Lemma find_one_survives_update {T} (q p : T -> bool) (u : T -> T)
      (c : list T) :
  (forall x, q (u x) = q x) ->
  Mongo.find_one q c <> None ->
  Mongo.find_one q (Mongo.update_one p u c) <> None.
Proof.
  intros Hq. unfold Mongo.find_one.
  induction c as [|d c IH]; simpl; [tauto|].
  destruct (p d) eqn:Ep; simpl.
  - rewrite Hq. destruct (q d); [discriminate | tauto].
  - destruct (q d); [discriminate | exact IH].
Qed.

Lemma owned_session_found (sid : string) (u : User) (sessions : list Session)
      (x : Session) :
  In x sessions -> session_id x = sid -> session_user_id x = user_id u ->
  Mongo.find_one (owned_session sid u) sessions <> None.
Proof.
  intros Hx Hid Hu Hnone. rewrite no_owned_session in Hnone.
  exact (Hnone x Hx Hid Hu).
Qed.

(** The owner of a session reads back the messages stored under its id,
    and only those, in ascending order of timestamp, the first 1000 of
    them; the state is not changed. *)
Theorem get_session_messages_owner_reads_sorted
        (sid : string) (current_user : User) (st : State) (x : Session) :
  In x (db_chat_sessions st) ->
  session_id x = sid ->
  session_user_id x = user_id current_user ->
  exists msgs,
    get_session_messages sid current_user st = (Ok msgs, st)
    /\ List.length msgs
       = Nat.min 1000 (List.length (messages_of sid (db_chat_messages st)))
    /\ StronglySorted (key_le cm_timestamp) msgs
    /\ (forall m, In m msgs ->
          exists stored,
            In stored (db_chat_messages st)
            /\ msg_session_id stored = sid
            /\ m = ChatMessage_of stored)
    /\ (List.length (messages_of sid (db_chat_messages st)) <= 1000 ->
        Permutation msgs
          (map ChatMessage_of (messages_of sid (db_chat_messages st)))).
Proof.
  intros Hx Hid Hu.
  pose proof (@owned_session_found _ _ _ _ Hx Hid Hu) as Hfound.
  destruct (Mongo.find_one (owned_session sid current_user)
                           (db_chat_sessions st)) as [y|] eqn:Hy;
    [|congruence].
  eexists. split.
  { unfold get_session_messages. run_handler. rewrite Hy. reflexivity. }
  fold (messages_of sid (db_chat_messages st)).
  set (own := messages_of sid (db_chat_messages st)).
  pose proof (sort_asc_perm msg_timestamp own) as Hperm.
  split; [|split; [|split]].
  - rewrite length_map. unfold Mongo.to_list. rewrite length_firstn.
    now rewrite (Permutation_length Hperm).
  - apply StronglySorted_ChatMessage_of. unfold Mongo.to_list.
    apply StronglySorted_firstn, sort_asc_sorted.
  - intros m Hm. apply in_map_iff in Hm. destruct Hm as [stored [<- Hs]].
    unfold Mongo.to_list in Hs. apply In_firstn in Hs.
    apply (Permutation_in _ Hperm) in Hs. unfold own, messages_of in Hs.
    apply filter_In in Hs. destruct Hs as [Hin Heq].
    apply String.eqb_eq in Heq. now exists stored.
  - intros Hlen. unfold Mongo.to_list.
    rewrite firstn_all2 by now rewrite (Permutation_length Hperm).
    now apply Permutation_map.
Qed.

Lemma get_session_messages_owner_reads_sorted_witness :
  exists msgs,
    get_session_messages "s-1" Demo.viewer one_exchange
    = (Ok msgs, one_exchange)
    /\ List.length msgs = 2.
Proof.
  destruct (@get_session_messages_owner_reads_sorted
              "s-1" Demo.viewer one_exchange
              (mkSession "s-1" "u-view" "gloves?" 100 104 2))
    as (msgs & Hget & Hlen & _).
  - left. reflexivity.
  - reflexivity.
  - reflexivity.
  - exists msgs. split; [exact Hget | exact Hlen].
Defined.

(** Messages sent with a session id that no session has are stored and
    lost to every user: reading them back and deleting them both answer
    404, whoever asks. *)
Theorem chat_on_unknown_session_is_unreadable
        (L : Libraries) (env : ChatEnv) (message sid : string)
        (current_user : User) (st : State) :
  sid <> ""%string ->
  embeddings_up (chat_index env) = true ->
  find_session sid (db_chat_sessions st) = None ->
  exists resp st',
    chat L env (mkChatRequest message (Some sid)) current_user st
    = (Ok resp, st')
    /\ List.length (messages_of sid (db_chat_messages st'))
       = List.length (messages_of sid (db_chat_messages st)) + 2
    /\ forall reader,
        get_session_messages sid reader st'
        = (Raise (HTTPException 404 "Session not found"), st')
        /\ delete_session sid reader st'
           = (Raise (HTTPException 404 "Session not found"), st').
Proof.
  intros Hsid Hup Hnone.
  destruct (@search_succeeds (distance L) (chat_index env) message 5
              (chat_doc_types (user_role current_user)) st Hup (Nat.lt_0_succ 4))
    as (results & s1 & Hsearch & Hsame).
  destruct Hsame as (_ & _ & _ & Hsess & Hmsgs).
  eexists. eexists. split.
  { rewrite chat_run. simpl req_message. rewrite Hsearch. reflexivity. }
  cbn [db_chat_messages db_chat_sessions].
  unfold sessions_after, chat_session_id. simpl req_session_id.
  rewrite (session_id_given Hsid). cbn iota.
  rewrite Hsess, Hmsgs.
  rewrite update_one_no_match by exact Hnone.
  split.
  - unfold messages_of, user_message, assistant_message.
    rewrite filter_app, length_app. simpl.
    rewrite String.eqb_refl. reflexivity.
  - intros reader.
    assert (Hno : Mongo.find_one (owned_session sid reader)
                                 (db_chat_sessions st) = None).
    { apply find_one_none. intros y Hy.
      destruct (owned_session sid reader y) eqn:E; [|reflexivity].
      apply owned_session_implies_id in E.
      unfold find_session in Hnone. rewrite find_one_none in Hnone.
      rewrite (Hnone y Hy) in E. discriminate. }
    unfold get_session_messages, delete_session. run_handler.
    cbn [db_chat_sessions]. rewrite Hno. split; reflexivity.
Qed.

Lemma chat_on_unknown_session_is_unreadable_witness :
  exists resp st',
    chat Demo.libs (Demo.chat_env "1" 100 Demo.llm_echo)
         (mkChatRequest "gloves?" (Some "lost")) Demo.viewer Demo.two_docs
    = (Ok resp, st')
    /\ get_session_messages "lost" Demo.viewer st'
       = (Raise (HTTPException 404 "Session not found"), st').
Proof.
  destruct (@chat_on_unknown_session_is_unreadable
              Demo.libs (Demo.chat_env "1" 100 Demo.llm_echo)
              "gloves?" "lost" Demo.viewer Demo.two_docs)
    as (resp & st' & Hchat & _ & Hread).
  - discriminate.
  - reflexivity.
  - reflexivity.
  - exists resp, st'. split; [exact Hchat | exact (proj1 (Hread Demo.viewer))].
Defined.

(** Any user who knows the id of a session can write into it: the
    messages of a chat sent with that id by someone else are stored under
    it, and the owner reads them back with the rest of the session. *)
Theorem chat_writes_into_foreign_session
        (L : Libraries) (env : ChatEnv) (message sid : string)
        (owner intruder : User) (st : State) (x : Session) :
  sid <> ""%string ->
  embeddings_up (chat_index env) = true ->
  In x (db_chat_sessions st) ->
  session_id x = sid ->
  session_user_id x = user_id owner ->
  List.length (messages_of sid (db_chat_messages st)) + 2 <= 1000 ->
  exists resp st' msgs,
    chat L env (mkChatRequest message (Some sid)) intruder st = (Ok resp, st')
    /\ get_session_messages sid owner st' = (Ok msgs, st')
    /\ In (mkChatMessage "user" message None (now_user_msg env)) msgs
    /\ In (resp_message resp) msgs
    /\ List.length msgs
       = List.length (messages_of sid (db_chat_messages st)) + 2.
Proof.
  intros Hsid Hup Hx Hid Hu Hroom.
  destruct (@search_succeeds (distance L) (chat_index env) message 5
              (chat_doc_types (user_role intruder)) st Hup (Nat.lt_0_succ 4))
    as (results & s1 & Hsearch & Hsame).
  destruct Hsame as (_ & _ & _ & Hsess & Hmsgs).
  pose proof (chat_run L env (mkChatRequest message (Some sid)) intruder st)
    as Hchat.
  simpl req_message in Hchat. rewrite Hsearch in Hchat. cbv zeta in Hchat.
  unfold sessions_after, chat_session_id in Hchat.
  simpl req_session_id in Hchat. rewrite (session_id_given Hsid) in Hchat.
  cbn iota in Hchat. rewrite Hsess, Hmsgs in Hchat.
  match type of Hchat with _ = (Ok ?r, ?s) =>
    set (resp := r) in *; set (st' := s) in * end.
  set (u := user_message env (mkChatRequest message (Some sid)) sid) in *.
  set (a := assistant_message env sid (cm_content (resp_message resp))
                              (resp_sources resp)).
  assert (Hown : messages_of sid (db_chat_messages st')
                 = messages_of sid (db_chat_messages st) ++ [u; a]).
  { unfold st', messages_of. cbn [db_chat_messages].
    rewrite filter_app. simpl. rewrite String.eqb_refl. reflexivity. }
  assert (Hfound : Mongo.find_one (owned_session sid owner)
                                  (db_chat_sessions st') <> None).
  { unfold st'. cbn [db_chat_sessions]. apply find_one_survives_update.
    - intros y. reflexivity.
    - exact (@owned_session_found _ _ _ _ Hx Hid Hu). }
  destruct (Mongo.find_one (owned_session sid owner) (db_chat_sessions st'))
    as [y|] eqn:Hy; [|congruence].
  pose proof (sort_asc_perm msg_timestamp
                (messages_of sid (db_chat_messages st'))) as Hperm.
  assert (Hlen : List.length (messages_of sid (db_chat_messages st'))
                 = List.length (messages_of sid (db_chat_messages st)) + 2)
    by (rewrite Hown, length_app; reflexivity).
  exists resp, st'. eexists. split; [exact Hchat|]. split.
  { unfold get_session_messages. run_handler. rewrite Hy.
    fold (messages_of sid (db_chat_messages st')). unfold Mongo.to_list.
    rewrite firstn_all2
      by (rewrite (Permutation_length Hperm), Hlen; exact Hroom).
    reflexivity. }
  assert (Hin : forall m, In m [u; a] ->
                  In (ChatMessage_of m)
                     (map ChatMessage_of
                        (Mongo.sort_asc msg_timestamp
                           (messages_of sid (db_chat_messages st'))))).
  { intros m Hm. apply in_map.
    apply (Permutation_in _ (Permutation_sym Hperm)).
    rewrite Hown. apply in_or_app. now right. }
  split; [apply (Hin u); now left|].
  split; [apply (Hin a); right; now left|].
  now rewrite length_map, (Permutation_length Hperm).
Qed.

Lemma chat_writes_into_foreign_session_witness :
  exists resp st' msgs,
    chat Demo.libs (Demo.chat_env "2" 200 Demo.llm_echo)
         (mkChatRequest "injected" (Some "s-1")) Demo.technician one_exchange
    = (Ok resp, st')
    /\ get_session_messages "s-1" Demo.viewer st' = (Ok msgs, st')
    /\ In (mkChatMessage "user" "injected" None 202) msgs.
Proof.
  destruct (@chat_writes_into_foreign_session
              Demo.libs (Demo.chat_env "2" 200 Demo.llm_echo)
              "injected" "s-1" Demo.viewer Demo.technician one_exchange
              (mkSession "s-1" "u-view" "gloves?" 100 104 2))
    as (resp & st' & msgs & Hchat & Hget & Hin & _).
  - discriminate.
  - reflexivity.
  - left. reflexivity.
  - reflexivity.
  - reflexivity.
  - simpl. lia.
  - exists resp, st', msgs. repeat split; assumption.
Defined.

Lemma filter_filter_implied {T} (f g : T -> bool) (l : list T) :
  (forall x, f x = true -> g x = true) ->
  filter f (filter g l) = filter f l.
Proof.
  intros Himp. induction l as [|x l IH]; simpl; [reflexivity|].
  destruct (g x) eqn:Eg; simpl.
  - now rewrite IH.
  - destruct (f x) eqn:Ef; [|exact IH].
    rewrite (Himp x Ef) in Eg. discriminate.
Qed.

(** Deleting a session is final and touches no other session.  After the
    owner deleted it (session ids being unique), reading it and deleting
    it again answer 404, and the messages of every other session, the
    users, the documents and the index are what they were. *)
Theorem delete_session_is_final
        (sid : string) (current_user : User) (st : State) (x : Session) :
  In x (db_chat_sessions st) ->
  session_id x = sid ->
  session_user_id x = user_id current_user ->
  NoDup (map session_id (db_chat_sessions st)) ->
  exists st',
    delete_session sid current_user st = (Ok "Session deleted"%string, st')
    /\ get_session_messages sid current_user st'
       = (Raise (HTTPException 404 "Session not found"), st')
    /\ delete_session sid current_user st'
       = (Raise (HTTPException 404 "Session not found"), st')
    /\ messages_of sid (db_chat_messages st') = []
    /\ (forall other, other <> sid ->
          messages_of other (db_chat_messages st')
          = messages_of other (db_chat_messages st))
    /\ db_users st' = db_users st
    /\ db_documents st' = db_documents st
    /\ vector_store st' = vector_store st
    /\ faiss_index st' = faiss_index st.
Proof.
  intros Hx Hid Hu Hnd.
  pose proof (@owned_session_found _ _ _ _ Hx Hid Hu) as Hfound.
  destruct (Mongo.find_one (owned_session sid current_user)
                           (db_chat_sessions st)) as [y|] eqn:Hy;
    [|congruence].
  eexists. split.
  { unfold delete_session. run_handler. rewrite Hy. reflexivity. }
  assert (Hgone : Mongo.find_one (owned_session sid current_user)
                    (Mongo.delete_one (fun z => session_id z =? sid)%string
                                      (db_chat_sessions st)) = None).
  { apply find_one_none. intros z Hz.
    apply (delete_one_unique session_id sid _ Hnd) in Hz.
    destruct (owned_session sid current_user z) eqn:E; [|reflexivity].
    apply owned_session_spec in E. tauto. }
  unfold get_session_messages, delete_session. run_handler.
  unfold set_db_chat_sessions, set_db_chat_messages.
  cbn [db_chat_sessions db_chat_messages db_users db_documents vector_store
       faiss_index uploads]. rewrite Hgone.
  split; [reflexivity|]. split; [reflexivity|]. split; [|split].
  - unfold messages_of, Mongo.delete_many.
    induction (db_chat_messages st) as [|m l IH]; simpl; [reflexivity|].
    destruct (msg_session_id m =? sid)%string eqn:E; simpl;
      [exact IH | now rewrite E].
  - intros other Hother. unfold messages_of, Mongo.delete_many.
    apply filter_filter_implied. intros m Hm.
    apply String.eqb_eq in Hm. apply negb_true_iff, String.eqb_neq.
    congruence.
  - repeat split.
Qed.

Lemma delete_session_is_final_witness :
  exists st',
    delete_session "s-1" Demo.viewer one_exchange
    = (Ok "Session deleted"%string, st')
    /\ get_session_messages "s-1" Demo.viewer st'
       = (Raise (HTTPException 404 "Session not found"), st').
Proof.
  destruct (@delete_session_is_final
              "s-1" Demo.viewer one_exchange
              (mkSession "s-1" "u-view" "gloves?" 100 104 2))
    as (st' & Hdel & Hget & _).
  - left. reflexivity.
  - reflexivity.
  - reflexivity.
  - simpl. repeat constructor. simpl. tauto.
  - exists st'. split; [exact Hdel | exact Hget].
Defined.

Lemma newer_first_of_key_le (l : list Session) :
  StronglySorted (key_le (fun x => (- session_updated_at x)%Z)) l ->
  StronglySorted newer_first l.
Proof.
  induction 1 as [|a l Hl IH Ha]; constructor; [exact IH|].
  rewrite Forall_forall in *. intros b Hb. specialize (Ha b Hb).
  unfold key_le in Ha. unfold newer_first. lia.
Qed.

(** The session list of a user holds sessions of that user only, the
    most recently updated first, at most 100 of them, and all of them
    when the user has at most 100; listing changes nothing. *)
Theorem list_chat_sessions_own_newest_first
        (current_user : User) (st : State) :
  exists listed,
    list_chat_sessions current_user st = (Ok listed, st)
    /\ List.length listed <= 100
    /\ StronglySorted newer_first listed
    /\ (forall x, In x listed ->
          In x (db_chat_sessions st)
          /\ session_user_id x = user_id current_user)
    /\ (List.length
          (filter (fun x => session_user_id x =? user_id current_user)%string
                  (db_chat_sessions st)) <= 100 ->
        forall x, In x (db_chat_sessions st) ->
                  session_user_id x = user_id current_user ->
                  In x listed).
Proof.
  eexists. split; [reflexivity|].
  set (own := filter (fun x => session_user_id x =? user_id current_user)%string
                     (db_chat_sessions st)).
  pose proof (sort_asc_perm (fun x => (- session_updated_at x)%Z) own)
    as Hperm.
  unfold Mongo.to_list. split; [apply firstn_le_length|]. split; [|split].
  - apply StronglySorted_firstn, newer_first_of_key_le, sort_asc_sorted.
  - intros x Hin. apply In_firstn in Hin.
    apply (Permutation_in _ Hperm) in Hin. unfold own in Hin.
    apply filter_In in Hin. destruct Hin as [Hin Heq].
    apply String.eqb_eq in Heq. tauto.
  - intros Hlen x Hx Hu.
    rewrite firstn_all2 by now rewrite (Permutation_length Hperm).
    apply (Permutation_in _ (Permutation_sym Hperm)).
    unfold own. apply filter_In. split; [exact Hx|].
    now apply String.eqb_eq.
Qed.

Lemma list_chat_sessions_own_newest_first_witness :
  exists listed,
    list_chat_sessions Demo.viewer one_exchange = (Ok listed, one_exchange)
    /\ In (mkSession "s-1" "u-view" "gloves?" 100 104 2) listed.
Proof.
  destruct (list_chat_sessions_own_newest_first Demo.viewer one_exchange)
    as (listed & Hl & _ & _ & _ & Hall).
  exists listed. split; [exact Hl|].
  apply Hall; [simpl; lia | left; reflexivity | reflexivity].
Defined.

(** ** Accounts *)

Section RegisterRun.

Variable L : Libraries.
Variable env : RegisterEnv.
Variable body : RegisterBody.

(** The user document a registration stores. *)
Lemma post_auth_register_run (st : State) :
  post_auth_register L env body st
  = match EmailStr L (rb_email body) with
    | None =>
        (Raise (HTTPException 422 "value is not a valid email address"), st)
    | Some email =>
        let role := match rb_role body with
                    | Some r => r
                    | None => "viewer"%string
                    end in
        if negb (str_in role RoleType) then
          (Raise (HTTPException 422 "Input should be 'admin', 'engineer', 'technician' or 'viewer'"),
           st)
        else
          match Mongo.find_one (fun u => user_email u =? email)%string
                               (db_users st) with
          | Some _ =>
              (Raise (HTTPException 400 "Email already registered"), st)
          | None =>
              if bcrypt_hashpw_raises L (rb_password body) then
                (Raise (Exception "ValueError"), st)
              else
                (Ok (mkTokenResponse
                       (jwt_encode L
                          (mkTokenPayload (reg_uuid env) email role
                             (reg_now_token env + 24 * 3600 * 1000000)%Z))
                       "bearer"
                       (mkUserResponse (reg_uuid env) email (rb_name body)
                                       role (reg_now env) true)),
                 set_db_users
                   (db_users st
                      ++ [mkUser (reg_uuid env) email (rb_name body) role
                                 (bcrypt_hashpw L (rb_password body)
                                                (reg_salt env))
                                 (reg_now env) true]) st)
          end
    end.
Proof.
  unfold post_auth_register, UserCreate_validate, register, hash_password.
  run_handler.
  destruct (EmailStr L (rb_email body)) as [email|]; [|reflexivity].
  destruct (rb_role body) as [r|]; cbv zeta.
  - destruct (str_in r RoleType); [|reflexivity]. simpl.
    destruct (Mongo.find_one (fun u => user_email u =? email)%string
                             (db_users st)); [reflexivity|].
    destruct (bcrypt_hashpw_raises L (rb_password body)); reflexivity.
  - simpl.
    destruct (Mongo.find_one (fun u => user_email u =? email)%string
                             (db_users st)); [reflexivity|].
    destruct (bcrypt_hashpw_raises L (rb_password body)); reflexivity.
Qed.

End RegisterRun.

(** A registration that fails changes nothing.  It fails with 422 for an
    address that does not validate and for a role outside the four roles,
    with 400 for an address that is already registered, and with the
    [ValueError] of [bcrypt.hashpw] when the library refuses the password
    of a body that passed these checks; it fails in no other way. *)
Theorem register_rejects_bad_input
        (L : Libraries) (env : RegisterEnv) (body : RegisterBody)
        (st : State) :
  (EmailStr L (rb_email body) = None ->
   post_auth_register L env body st
   = (Raise (HTTPException 422 "value is not a valid email address"), st))
  /\ (forall email r,
        EmailStr L (rb_email body) = Some email ->
        rb_role body = Some r -> ~ In r RoleType ->
        post_auth_register L env body st
        = (Raise (HTTPException 422 "Input should be 'admin', 'engineer', 'technician' or 'viewer'"),
           st))
  /\ (forall email u,
        EmailStr L (rb_email body) = Some email ->
        match rb_role body with Some r => In r RoleType | None => True end ->
        In u (db_users st) -> user_email u = email ->
        post_auth_register L env body st
        = (Raise (HTTPException 400 "Email already registered"), st))
  /\ (forall email,
        EmailStr L (rb_email body) = Some email ->
        match rb_role body with Some r => In r RoleType | None => True end ->
        Mongo.find_one (fun u => user_email u =? email)%string (db_users st)
        = None ->
        bcrypt_hashpw_raises L (rb_password body) = true ->
        post_auth_register L env body st
        = (Raise (Exception "ValueError"), st))
  /\ (forall e st',
        post_auth_register L env body st = (Raise e, st') ->
        st' = st
        /\ ((exists detail,
               e = HTTPException 422 detail \/ e = HTTPException 400 detail)
            \/ (e = Exception "ValueError"
                /\ bcrypt_hashpw_raises L (rb_password body) = true))).
Proof.
  rewrite post_auth_register_run.
  split; [|split; [|split; [|split]]].
  - intros ->. reflexivity.
  - intros email r -> -> Hr. apply str_in_false in Hr.
    cbv beta iota zeta. now rewrite Hr.
  - intros email u -> Hrole Hu Hmail.
    assert (Hvalid : str_in (match rb_role body with
                             | Some r => r
                             | None => "viewer"%string
                             end) RoleType = true).
    { destruct (rb_role body); [now apply str_in_spec | reflexivity]. }
    cbv zeta. rewrite Hvalid. cbn [negb].
    destruct (Mongo.find_one (fun u0 => user_email u0 =? email)%string
                             (db_users st)) eqn:E; [reflexivity|].
    rewrite find_one_none in E. specialize (E u Hu). simpl in E.
    apply String.eqb_neq in E. contradiction.
  - intros email -> Hrole Hnew Hraises.
    assert (Hvalid : str_in (match rb_role body with
                             | Some r => r
                             | None => "viewer"%string
                             end) RoleType = true).
    { destruct (rb_role body); [now apply str_in_spec | reflexivity]. }
    cbv zeta. rewrite Hvalid. cbn [negb]. now rewrite Hnew, Hraises.
  - intros e st'.
    destruct (EmailStr L (rb_email body)) as [email|].
    + cbv zeta.
      destruct (negb (str_in _ RoleType)).
      * intros H. injection H as <- <-. split; [reflexivity|]. eauto.
      * destruct (Mongo.find_one _ (db_users st)).
        { intros H. injection H as <- <-. split; [reflexivity|]. eauto. }
        destruct (bcrypt_hashpw_raises L (rb_password body));
          intros H; [|discriminate].
        injection H as <- <-. split; [reflexivity|]. now right.
    + intros H. injection H as <- <-. split; [reflexivity|]. eauto.
Qed.

Lemma register_rejects_bad_input_witness :
  post_auth_register Demo.libs DemoAuth.eve_env
    (mkRegisterBody "eve@x.com" "Eve" (Some "root") "pw") initial_state
  = (Raise (HTTPException 422 "Input should be 'admin', 'engineer', 'technician' or 'viewer'"),
     initial_state).
Proof.
  apply (proj1 (proj2 (register_rejects_bad_input
                         Demo.libs DemoAuth.eve_env
                         (mkRegisterBody "eve@x.com" "Eve" (Some "root") "pw")
                         initial_state))
               "eve@x.com"%string "root"%string eq_refl eq_refl).
  simpl. intuition discriminate.
Defined.

(** An address registers once.  After a registration succeeded, every
    further registration with a body whose address validates to the same
    address is refused with 400, whatever its name, role and password,
    and the users are left as the first registration made them. *)
Theorem register_twice_same_email
        (L : Libraries) (env env' : RegisterEnv) (body body' : RegisterBody)
        (st st1 : State) (resp : TokenResponse) :
  post_auth_register L env body st = (Ok resp, st1) ->
  EmailStr L (rb_email body') = EmailStr L (rb_email body) ->
  match rb_role body' with Some r => In r RoleType | None => True end ->
  post_auth_register L env' body' st1
  = (Raise (HTTPException 400 "Email already registered"), st1)
  /\ List.length (db_users st1) = S (List.length (db_users st)).
Proof.
  intros Hfirst Hsame Hrole.
  rewrite post_auth_register_run in Hfirst.
  rewrite post_auth_register_run, Hsame.
  destruct (EmailStr L (rb_email body)) as [email|]; [|discriminate].
  cbv zeta in Hfirst.
  destruct (negb (str_in _ RoleType)) in Hfirst; [discriminate|].
  destruct (Mongo.find_one _ (db_users st)) eqn:E in Hfirst; [discriminate|].
  destruct (bcrypt_hashpw_raises L (rb_password body)) in Hfirst;
    [discriminate|].
  injection Hfirst as _ <-.
  assert (Hvalid : str_in (match rb_role body' with
                           | Some r => r
                           | None => "viewer"%string
                           end) RoleType = true).
  { destruct (rb_role body'); [now apply str_in_spec | reflexivity]. }
  cbv zeta. rewrite Hvalid. cbn [negb db_users set_db_users].
  rewrite find_one_app, E. simpl. rewrite String.eqb_refl.
  split; [reflexivity|]. rewrite length_app. simpl. lia.
Qed.

Lemma register_twice_same_email_witness :
  post_auth_register Demo.libs (mkRegisterEnv "u-2" "salt" 7 8)
    (mkRegisterBody "eve@x.com" "Mallory" (Some "admin") "other")
    DemoAuth.eve_registered
  = (Raise (HTTPException 400 "Email already registered"),
     DemoAuth.eve_registered).
Proof.
  refine (proj1 (@register_twice_same_email
                   Demo.libs DemoAuth.eve_env (mkRegisterEnv "u-2" "salt" 7 8)
                   DemoAuth.eve_body
                   (mkRegisterBody "eve@x.com" "Mallory" (Some "admin") "other")
                   initial_state DemoAuth.eve_registered _ eq_refl eq_refl _)).
  simpl. tauto.
Defined.

(** Login never changes the state.  It answers 401 "Invalid credentials"
    both for an unknown address and for a wrong password, also when the
    account is deactivated; 401 "Account is deactivated" only when the
    password is right; and otherwise a token for the id, address and role
    of the user found, expiring 24 hours after the clock reading. *)
Theorem login_outcomes
        (L : Libraries) (A : AuthLibraries) (now : Timestamp)
        (body : LoginBody) (st : State) (email : string) :
  EmailStr L (lb_email body) = Some email ->
  snd (post_auth_login L A now body st) = st
  /\ (Mongo.find_one (fun u => user_email u =? email)%string (db_users st)
      = None ->
      fst (post_auth_login L A now body st)
      = Raise (HTTPException 401 "Invalid credentials"))
  /\ (forall u,
        Mongo.find_one (fun u => user_email u =? email)%string (db_users st)
        = Some u ->
        (bcrypt_checkpw A (lb_password body) (user_password_hash u) = false ->
         fst (post_auth_login L A now body st)
         = Raise (HTTPException 401 "Invalid credentials"))
        /\ (bcrypt_checkpw A (lb_password body) (user_password_hash u) = true ->
            user_is_active u = false ->
            fst (post_auth_login L A now body st)
            = Raise (HTTPException 401 "Account is deactivated"))
        /\ (bcrypt_checkpw A (lb_password body) (user_password_hash u) = true ->
            user_is_active u = true ->
            fst (post_auth_login L A now body st)
            = Ok (mkTokenResponse
                    (jwt_encode L
                       (mkTokenPayload (user_id u) (user_email u)
                          (user_role u) (now + 24 * 3600 * 1000000)%Z))
                    "bearer"
                    (mkUserResponse (user_id u) (user_email u) (user_name u)
                                    (user_role u) (user_created_at u) true)))).
Proof.
  intros Hemail.
  unfold post_auth_login, UserLogin_validate, login, verify_password.
  run_handler. rewrite Hemail. cbn [lb_email lb_password].
  destruct (Mongo.find_one (fun u => user_email u =? email)%string
                           (db_users st)) as [u|].
  - split; [|split; [discriminate|]].
    + destruct (bcrypt_checkpw A (lb_password body) (user_password_hash u)),
        (user_is_active u); reflexivity.
    + intros u' Hu. injection Hu as <-.
      split; [|split].
      * intros ->. reflexivity.
      * intros -> ->. reflexivity.
      * intros -> Hact. rewrite Hact. cbn [negb fst].
        unfold UserResponse_of. now rewrite Hact.
  - split; [reflexivity|]. split; [reflexivity | discriminate].
Qed.

Lemma login_outcomes_witness :
  fst (post_auth_login Demo.libs DemoAuth.auth 50
                       (mkLoginBody "eve@x.com" "guess")
                       DemoAuth.eve_registered)
  = Raise (HTTPException 401 "Invalid credentials").
Proof.
  refine (proj1 (proj2 (proj2
            (@login_outcomes Demo.libs DemoAuth.auth 50
               (mkLoginBody "eve@x.com" "guess") DemoAuth.eve_registered
               "eve@x.com" eq_refl))
            (mkUser "u-1" "eve@x.com" "Eve" "engineer" "saltpw" 5 true)
            eq_refl) eq_refl).
Defined.

(** Registering and then logging in with the same address and password
    succeeds and names the same user, provided the password check accepts
    the hash made at registration. *)
Theorem register_then_login
        (L : Libraries) (A : AuthLibraries) (env : RegisterEnv)
        (body : RegisterBody) (st st1 : State) (resp : TokenResponse)
        (now : Timestamp) :
  post_auth_register L env body st = (Ok resp, st1) ->
  bcrypt_checkpw A (rb_password body)
                 (bcrypt_hashpw L (rb_password body) (reg_salt env)) = true ->
  exists resp',
    post_auth_login L A now (mkLoginBody (rb_email body) (rb_password body))
                    st1
    = (Ok resp', st1)
    /\ token_user resp' = token_user resp
    /\ ur_id (token_user resp') = reg_uuid env
    /\ ur_is_active (token_user resp') = true.
Proof.
  intros Hreg Hcheck. rewrite post_auth_register_run in Hreg.
  destruct (EmailStr L (rb_email body)) as [email|] eqn:Hemail;
    [|discriminate].
  cbv zeta in Hreg.
  destruct (negb (str_in _ RoleType)) in Hreg; [discriminate|].
  destruct (Mongo.find_one _ (db_users st)) eqn:E in Hreg; [discriminate|].
  destruct (bcrypt_hashpw_raises L (rb_password body)) in Hreg;
    [discriminate|].
  injection Hreg as <- <-.
  unfold post_auth_login, UserLogin_validate, login, verify_password.
  run_handler. cbn [lb_email lb_password]. rewrite Hemail.
  cbn [db_users set_db_users lb_email lb_password].
  rewrite find_one_app, E. simpl.
  rewrite String.eqb_refl. cbn [user_password_hash user_is_active].
  rewrite Hcheck. simpl.
  eexists. split; [reflexivity|]. repeat split.
Qed.

Lemma register_then_login_witness :
  exists resp',
    post_auth_login Demo.libs DemoAuth.auth 50
                    (mkLoginBody "eve@x.com" "pw") DemoAuth.eve_registered
    = (Ok resp', DemoAuth.eve_registered)
    /\ ur_id (token_user resp') = "u-1"%string.
Proof.
  destruct (@register_then_login
              Demo.libs DemoAuth.auth DemoAuth.eve_env DemoAuth.eve_body
              initial_state DemoAuth.eve_registered _ 50 eq_refl eq_refl)
    as (resp' & Hlogin & _ & Hid & _).
  exists resp'. split; [exact Hlogin | exact Hid].
Defined.

(** [get_current_user] never changes the state and fails with 401 only.
    When it returns a user, the token decoded to a non-empty subject, the
    user is the first user document with that id, and it is active. *)
Theorem get_current_user_outcomes
        (A : AuthLibraries) (now : Timestamp) (credentials : string)
        (st : State) :
  snd (get_current_user A now credentials st) = st
  /\ (forall e, fst (get_current_user A now credentials st) = Raise e ->
        exists detail, e = HTTPException 401 detail)
  /\ (forall u, fst (get_current_user A now credentials st) = Ok u ->
        exists sub,
          jwt_decode A now credentials = JwtDecoded (Some sub)
          /\ sub <> ""%string
          /\ Mongo.find_one (fun v => user_id v =? sub)%string (db_users st)
             = Some u
          /\ user_id u = sub
          /\ user_is_active u = true)
  /\ (jwt_decode A now credentials = JwtExpired ->
      fst (get_current_user A now credentials st)
      = Raise (HTTPException 401 "Token expired")).
Proof.
  unfold get_current_user. run_handler.
  destruct (jwt_decode A now credentials) as [[sub|]| |]; simpl.
  - destruct (sub =? "")%string eqn:Esub.
    + split; [reflexivity|]. split; [|split; discriminate].
      intros e H. injection H as <-. eauto.
    + apply String.eqb_neq in Esub.
      destruct (Mongo.find_one (fun v => user_id v =? sub)%string
                               (db_users st)) as [u|] eqn:E.
      * pose proof (find_one_some _ _ E) as [_ Hid]. simpl in Hid.
        apply String.eqb_eq in Hid.
        destruct (user_is_active u) eqn:Eact; simpl.
        -- split; [reflexivity|]. split; [discriminate|].
           split; [|discriminate].
           intros u' H. injection H as <-. exists sub. repeat split; auto.
        -- split; [reflexivity|]. split; [|split; discriminate].
           intros e H. injection H as <-. eauto.
      * split; [reflexivity|]. split; [|split; discriminate].
        intros e H. injection H as <-. eauto.
  - split; [reflexivity|]. split; [|split; discriminate].
    intros e H. injection H as <-. eauto.
  - split; [reflexivity|]. split; [|split; [discriminate | reflexivity]].
    intros e H. injection H as <-. eauto.
  - split; [reflexivity|]. split; [|split; discriminate].
    intros e H. injection H as <-. eauto.
Qed.

Lemma get_current_user_outcomes_witness :
  exists sub,
    jwt_decode DemoAuth.auth 50 "u-1.engineer" = JwtDecoded (Some sub)
    /\ sub <> ""%string
    /\ Mongo.find_one (fun v => user_id v =? sub)%string
                      (db_users DemoAuth.eve_registered)
       = Some (mkUser "u-1" "eve@x.com" "Eve" "engineer" "saltpw" 5 true).
Proof.
  destruct (proj1 (proj2 (proj2 (get_current_user_outcomes
                                   DemoAuth.auth 50 "u-1.engineer"
                                   DemoAuth.eve_registered)))
                  (mkUser "u-1" "eve@x.com" "Eve" "engineer" "saltpw" 5 true)
                  eq_refl)
    as (sub & Hdec & Hne & Hfind & _).
  exists sub. repeat split; assumption.
Defined.

(** The token a registration returns authenticates as the user it
    created, for as long as the library decodes it to the new id,
    provided the id is not empty and no user had it before. *)
Theorem registered_token_authenticates
        (L : Libraries) (A : AuthLibraries) (env : RegisterEnv)
        (body : RegisterBody) (st st1 : State) (resp : TokenResponse)
        (now : Timestamp) :
  post_auth_register L env body st = (Ok resp, st1) ->
  reg_uuid env <> ""%string ->
  Mongo.find_one (fun v => user_id v =? reg_uuid env)%string (db_users st)
  = None ->
  jwt_decode A now (access_token resp) = JwtDecoded (Some (reg_uuid env)) ->
  exists u,
    get_current_user A now (access_token resp) st1 = (Ok u, st1)
    /\ UserResponse_of u = token_user resp
    /\ In u (db_users st1).
Proof.
  intros Hreg Hne Hfresh Hdec. rewrite post_auth_register_run in Hreg.
  destruct (EmailStr L (rb_email body)) as [email|]; [|discriminate].
  cbv zeta in Hreg.
  destruct (negb (str_in _ RoleType)) in Hreg; [discriminate|].
  destruct (Mongo.find_one _ (db_users st)) in Hreg; [discriminate|].
  destruct (bcrypt_hashpw_raises L (rb_password body)) in Hreg;
    [discriminate|].
  injection Hreg as <- <-.
  unfold get_current_user. run_handler. cbn [access_token] in *.
  rewrite Hdec. cbn [sub_missing].
  apply String.eqb_neq in Hne. rewrite Hne.
  cbn [db_users set_db_users]. rewrite find_one_app, Hfresh. simpl.
  rewrite String.eqb_refl. simpl.
  eexists. split; [reflexivity|]. split; [reflexivity|].
  apply in_or_app. right. now left.
Qed.

Lemma registered_token_authenticates_witness :
  exists u,
    get_current_user DemoAuth.auth 50 "u-1.engineer" DemoAuth.eve_registered
    = (Ok u, DemoAuth.eve_registered)
    /\ user_role u = "engineer"%string.
Proof.
  destruct (@registered_token_authenticates
              Demo.libs DemoAuth.auth DemoAuth.eve_env DemoAuth.eve_body
              initial_state DemoAuth.eve_registered _ 50 eq_refl)
    as (u & Hget & Hresp & _).
  - discriminate.
  - reflexivity.
  - reflexivity.
  - exists u. split; [exact Hget|].
    change (user_role u) with (ur_role (UserResponse_of u)).
    now rewrite Hresp.
Defined.

(** ** User management *)

Lemma apply_update_id (update : UserUpdate) (uid : string) (u : User) :
  (user_id (apply_update update u) =? uid)%string = (user_id u =? uid)%string.
Proof. reflexivity. Qed.

Lemma update_one_length {T} (q : T -> bool) (u : T -> T) (c : list T) :
  List.length (Mongo.update_one q u c) = List.length c.
Proof.
  induction c as [|d c IH]; simpl; [reflexivity|].
  destruct (q d); simpl; [reflexivity | now rewrite IH].
Qed.

Lemma update_one_others {T} (q : T -> bool) (u : T -> T) (c : list T) (x : T) :
  In x c -> q x = false -> In x (Mongo.update_one q u c).
Proof.
  induction c as [|d c IH]; simpl; [tauto|].
  intros [Hx|Hx] Hq.
  - subst d. rewrite Hq. now left.
  - destruct (q d); simpl; [now right | right; now apply IH].
Qed.

Lemma update_one_origin {T} (q : T -> bool) (u : T -> T) (c : list T) (y : T) :
  In y (Mongo.update_one q u c) ->
  In y c \/ exists x, In x c /\ q x = true /\ y = u x.
Proof.
  induction c as [|d c IH]; simpl; [tauto|].
  destruct (q d) eqn:E; simpl.
  - intros [Hy|Hy]; [right; exists d; auto | left; now right].
  - intros [Hy|Hy]; [left; now left|].
    destruct (IH Hy) as [H|[x (Hx & Hq & ->)]]; [left; now right|].
    right. exists x. auto.
Qed.

Section UserManagementRun.

Variable current_user : User.
Variable uid : string.
Variable body : UserUpdate.

Lemma put_users_run (st : State) :
  put_users uid body current_user st
  = if negb (match uu_role body with
             | Some r => str_in r RoleType
             | None => true
             end)
    then (Raise (HTTPException 422 "Input should be 'admin', 'engineer', 'technician' or 'viewer'"),
          st)
    else if negb (str_in "manage_users"
                         (role_permissions (user_role current_user)))
    then (Raise (HTTPException 403 "Permission denied: manage_users"), st)
    else
      match Mongo.find_one (fun u => user_id u =? uid)%string (db_users st)
      with
      | None => (Raise (HTTPException 404 "User not found"), st)
      | Some u =>
          (Ok (UserResponse_of (apply_update body u)),
           if update_data_nonempty body then
             set_db_users (Mongo.update_one (fun u => user_id u =? uid)%string
                                            (apply_update body)
                                            (db_users st)) st
           else st)
      end.
Proof.
  unfold put_users, UserUpdate_validate, update_user, check_permission.
  run_handler.
  destruct (uu_role body) as [r|] eqn:Er.
  - destruct (str_in r RoleType); [|reflexivity]. cbn [negb].
    destruct (str_in "manage_users"
                (role_permissions (user_role current_user))); [|reflexivity].
    cbn [negb].
    destruct (Mongo.find_one (fun u => user_id u =? uid)%string (db_users st))
      as [u|] eqn:Eu; [|reflexivity].
    assert (Hne : update_data_nonempty body = true)
      by (unfold update_data_nonempty; rewrite Er;
          destruct (uu_name body); reflexivity).
    rewrite Hne. cbn [db_users set_db_users].
    rewrite find_one_update_one by (intros; apply apply_update_id).
    rewrite Eu. reflexivity.
  - cbn [negb].
    destruct (str_in "manage_users"
                (role_permissions (user_role current_user))); [|reflexivity].
    cbn [negb].
    destruct (Mongo.find_one (fun u => user_id u =? uid)%string (db_users st))
      as [u|] eqn:Eu; [|reflexivity].
    destruct (update_data_nonempty body) eqn:Hne.
    + cbn [db_users set_db_users].
      rewrite find_one_update_one by (intros; apply apply_update_id).
      rewrite Eu. reflexivity.
    + rewrite Eu. unfold update_data_nonempty in Hne. rewrite Er in Hne.
      destruct (uu_name body) eqn:En; [discriminate|].
      destruct (uu_is_active body) eqn:Ea; [discriminate|].
      unfold UserResponse_of, apply_update. rewrite Er, En, Ea. reflexivity.
Qed.

Lemma delete_user_run (st : State) :
  delete_user uid current_user st
  = if negb (str_in "manage_users"
                    (role_permissions (user_role current_user)))
    then (Raise (HTTPException 403 "Permission denied: manage_users"), st)
    else if (uid =? user_id current_user)%string
    then (Raise (HTTPException 400 "Cannot delete yourself"), st)
    else
      match Mongo.find_one (fun u => user_id u =? uid)%string (db_users st)
      with
      | None => (Raise (HTTPException 404 "User not found"), st)
      | Some _ =>
          (Ok "User deleted"%string,
           set_db_users (Mongo.delete_one (fun u => user_id u =? uid)%string
                                          (db_users st)) st)
      end.
Proof.
  unfold delete_user, check_permission. run_handler.
  destruct (str_in "manage_users"
              (role_permissions (user_role current_user))); [|reflexivity].
  cbn [negb]. destruct (uid =? user_id current_user)%string; [reflexivity|].
  destruct (Mongo.find_one (fun u => user_id u =? uid)%string (db_users st));
    reflexivity.
Qed.

End UserManagementRun.

(** Every user-management route answers 403 to a user whose role is not
    [admin], also when the target is the user's own account, and changes
    nothing. *)
Theorem user_management_is_admin_only
        (current_user : User) (uid : string) (body : UserUpdate)
        (st : State) :
  user_role current_user <> "admin"%string ->
  list_users current_user st
  = (Raise (HTTPException 403 "Permission denied: manage_users"), st)
  /\ update_user uid body current_user st
     = (Raise (HTTPException 403 "Permission denied: manage_users"), st)
  /\ delete_user uid current_user st
     = (Raise (HTTPException 403 "Permission denied: manage_users"), st).
Proof.
  intros Hrole.
  assert (Hflag : str_in "manage_users"
                         (role_permissions (user_role current_user)) = false).
  { destruct (str_in "manage_users"
                (role_permissions (user_role current_user))) eqn:E;
      [|reflexivity].
    apply admin_permission_flag in E; [contradiction | now left]. }
  unfold list_users, update_user, delete_user, check_permission.
  run_handler. rewrite Hflag. repeat split.
Qed.

Lemma user_management_is_admin_only_witness :
  delete_user "u-tech" Demo.technician initial_state
  = (Raise (HTTPException 403 "Permission denied: manage_users"),
     initial_state).
Proof.
  refine (proj2 (proj2 (@user_management_is_admin_only
                          Demo.technician "u-tech"
                          (mkUserUpdate None None None) initial_state _))).
  discriminate.
Defined.

(** An update by an admin returns the user after the update and changes
    the name, the role and the active flag that the body carries and
    nothing else: id, address, password hash and creation time of the
    user stay, a key the body leaves out keeps its value, the other users
    and the rest of the state are untouched.  Nothing stops admins from
    updating their own account. *)
Theorem update_user_changes_only_requested_fields
        (current_user : User) (uid : string) (body : UserUpdate)
        (st : State) (u : User) :
  user_role current_user = "admin"%string ->
  match uu_role body with Some r => In r RoleType | None => True end ->
  Mongo.find_one (fun v => user_id v =? uid)%string (db_users st) = Some u ->
  exists st',
    put_users uid body current_user st
    = (Ok (mkUserResponse
             (user_id u) (user_email u)
             (match uu_name body with Some n => n | None => user_name u end)
             (match uu_role body with Some r => r | None => user_role u end)
             (user_created_at u)
             (match uu_is_active body with
              | Some b => b
              | None => user_is_active u
              end)),
       st')
    /\ List.length (db_users st') = List.length (db_users st)
    /\ (forall v, In v (db_users st) -> user_id v <> uid ->
                  In v (db_users st'))
    /\ (forall v', In v' (db_users st') ->
          exists v, In v (db_users st)
                    /\ user_id v' = user_id v
                    /\ user_email v' = user_email v
                    /\ user_password_hash v' = user_password_hash v
                    /\ user_created_at v' = user_created_at v)
    /\ Mongo.find_one (fun v => user_id v =? uid)%string (db_users st')
       = Some (apply_update body u)
    /\ db_documents st' = db_documents st
    /\ db_chat_sessions st' = db_chat_sessions st
    /\ db_chat_messages st' = db_chat_messages st
    /\ index_entries st' = index_entries st.
Proof.
  intros Hrole Hvalid Hfind.
  rewrite put_users_run.
  assert (Hv : match uu_role body with
               | Some r => str_in r RoleType
               | None => true
               end = true)
    by (destruct (uu_role body); [now apply str_in_spec | reflexivity]).
  rewrite Hv. cbn [negb].
  rewrite (proj2 (@admin_permission_flag current_user "manage_users"
                    (or_introl eq_refl)) Hrole).
  cbn [negb]. rewrite Hfind.
  eexists. split; [reflexivity|].
  destruct (update_data_nonempty body) eqn:Hne.
  - cbn [db_users set_db_users db_documents db_chat_sessions db_chat_messages].
    split; [apply update_one_length|]. split.
    { intros v Hin Hid. apply update_one_others; [exact Hin|].
      now apply String.eqb_neq. }
    split.
    { intros v' Hin. apply update_one_origin in Hin.
      destruct Hin as [Hin|[v (Hin & _ & ->)]].
      - exists v'. repeat split; assumption.
      - exists v. repeat split; assumption. }
    split.
    { rewrite find_one_update_one by (intros; apply apply_update_id).
      now rewrite Hfind. }
    repeat split.
  - split; [reflexivity|]. split; [tauto|]. split.
    { intros v' Hin. exists v'. repeat split; assumption. }
    split; [|repeat split].
    rewrite Hfind. f_equal. unfold update_data_nonempty in Hne.
    destruct (uu_name body) eqn:En; [discriminate|].
    destruct (uu_role body) eqn:Er; [discriminate|].
    destruct (uu_is_active body) eqn:Ea; [discriminate|].
    unfold apply_update. rewrite En, Er, Ea. now destruct u.
Qed.

Lemma update_user_changes_only_requested_fields_witness :
  exists st',
    put_users "u-1" (mkUserUpdate None (Some "admin") None)
              Demo.admin DemoAuth.eve_registered
    = (Ok (mkUserResponse "u-1" "eve@x.com" "Eve" "admin" 5 true), st').
Proof.
  destruct (@update_user_changes_only_requested_fields
              Demo.admin "u-1" (mkUserUpdate None (Some "admin") None)
              DemoAuth.eve_registered
              (mkUser "u-1" "eve@x.com" "Eve" "engineer" "saltpw" 5 true))
    as (st' & Hput & _).
  - reflexivity.
  - simpl. tauto.
  - reflexivity.
  - exists st'. exact Hput.
Defined.

(** An admin cannot delete its own account (400) and gets 404 for an id
    no user has, the state unchanged in both cases.  Deleting another
    user removes one user document and nothing else: the sessions, the
    messages and the documents of that user stay. *)
Theorem delete_user_rules
        (current_user : User) (uid : string) (st : State) :
  user_role current_user = "admin"%string ->
  (uid = user_id current_user ->
   delete_user uid current_user st
   = (Raise (HTTPException 400 "Cannot delete yourself"), st))
  /\ (uid <> user_id current_user ->
      Mongo.find_one (fun v => user_id v =? uid)%string (db_users st) = None ->
      delete_user uid current_user st
      = (Raise (HTTPException 404 "User not found"), st))
  /\ (forall u,
        uid <> user_id current_user ->
        Mongo.find_one (fun v => user_id v =? uid)%string (db_users st)
        = Some u ->
        exists st',
          delete_user uid current_user st = (Ok "User deleted"%string, st')
          /\ S (List.length (db_users st')) = List.length (db_users st)
          /\ (forall v, In v (db_users st') -> In v (db_users st))
          /\ (NoDup (map user_id (db_users st)) ->
              Mongo.find_one (fun v => user_id v =? uid)%string (db_users st')
              = None)
          /\ db_chat_sessions st' = db_chat_sessions st
          /\ db_chat_messages st' = db_chat_messages st
          /\ db_documents st' = db_documents st
          /\ uploads st' = uploads st
          /\ index_entries st' = index_entries st).
Proof.
  intros Hrole. rewrite delete_user_run.
  rewrite (proj2 (@admin_permission_flag current_user "manage_users"
                    (or_introl eq_refl)) Hrole).
  cbn [negb]. split; [|split].
  - intros ->. now rewrite String.eqb_refl.
  - intros Hne Hnone. apply String.eqb_neq in Hne. now rewrite Hne, Hnone.
  - intros u Hne Hfind. apply String.eqb_neq in Hne. rewrite Hne, Hfind.
    eexists. split; [reflexivity|].
    cbn [db_users set_db_users db_chat_sessions db_chat_messages db_documents
         uploads].
    apply find_one_some in Hfind. destruct Hfind as [Hin Hq].
    split; [now apply delete_one_length with (x := u)|].
    split; [intros v; apply delete_one_incl|].
    split; [|repeat split].
    intros Hnd. apply find_one_none. intros v Hv.
    apply (delete_one_unique user_id uid _ Hnd) in Hv.
    now apply String.eqb_neq.
Qed.

Lemma delete_user_rules_witness :
  delete_user "u-admin" Demo.admin DemoAuth.eve_registered
  = (Raise (HTTPException 400 "Cannot delete yourself"),
     DemoAuth.eve_registered).
Proof.
  apply (proj1 (@delete_user_rules Demo.admin "u-admin"
                  DemoAuth.eve_registered eq_refl)).
  reflexivity.
Defined.

(** What an admin does to an account takes effect on the tokens already
    issued, because [get_current_user] reads the user document and not
    the token: once the account is deactivated the token is refused with
    401 "User is deactivated"; once it is deleted (user ids being unique),
    with 401 "User not found"; and after a change of role the token
    authenticates with the new role. *)
Theorem account_changes_apply_to_issued_tokens
        (A : AuthLibraries) (now : Timestamp) (credentials uid : string)
        (current_user : User) (st : State) (u : User) :
  jwt_decode A now credentials = JwtDecoded (Some uid) ->
  uid <> ""%string ->
  user_role current_user = "admin"%string ->
  Mongo.find_one (fun v => user_id v =? uid)%string (db_users st) = Some u ->
  (forall st',
      snd (put_users uid (mkUserUpdate None None (Some false))
                     current_user st) = st' ->
      get_current_user A now credentials st'
      = (Raise (HTTPException 401 "User is deactivated"), st'))
  /\ (forall st',
        uid <> user_id current_user ->
        NoDup (map user_id (db_users st)) ->
        snd (delete_user uid current_user st) = st' ->
        get_current_user A now credentials st'
        = (Raise (HTTPException 401 "User not found"), st'))
  /\ (forall r st',
        In r RoleType ->
        user_is_active u = true ->
        snd (put_users uid (mkUserUpdate None (Some r) None)
                       current_user st) = st' ->
        exists u',
          get_current_user A now credentials st' = (Ok u', st')
          /\ user_role u' = r
          /\ user_id u' = user_id u).
Proof.
  intros Hdec Hne Hrole Hfind.
  pose proof (proj2 (@admin_permission_flag current_user "manage_users"
                       (or_introl eq_refl)) Hrole) as Hflag.
  assert (Hsub : (uid =? "")%string = false) by now apply String.eqb_neq.
  split; [|split].
  - intros st' <-. rewrite put_users_run.
    cbn [uu_role negb]. rewrite Hflag. cbn [negb]. rewrite Hfind.
    cbn [snd update_data_nonempty uu_name uu_role uu_is_active].
    unfold get_current_user. run_handler. rewrite Hdec.
    cbn [sub_missing]. rewrite Hsub. cbn [db_users set_db_users].
    rewrite find_one_update_one by (intros; apply apply_update_id).
    rewrite Hfind. reflexivity.
  - intros st' Hself Hnd <-. rewrite delete_user_run, Hflag. cbn [negb].
    apply String.eqb_neq in Hself. rewrite Hself, Hfind. cbn [snd].
    unfold get_current_user. run_handler. rewrite Hdec.
    cbn [sub_missing]. rewrite Hsub. cbn [db_users set_db_users].
    assert (Hgone : Mongo.find_one (fun v => user_id v =? uid)%string
                      (Mongo.delete_one (fun v => user_id v =? uid)%string
                                        (db_users st)) = None).
    { apply find_one_none. intros v Hv.
      apply (delete_one_unique user_id uid _ Hnd) in Hv.
      now apply String.eqb_neq. }
    now rewrite Hgone.
  - intros r st' Hr Hact <-. rewrite put_users_run.
    cbn [uu_role]. apply str_in_spec in Hr. rewrite Hr. cbn [negb].
    rewrite Hflag. cbn [negb]. rewrite Hfind.
    cbn [snd update_data_nonempty uu_name uu_role uu_is_active].
    unfold get_current_user. run_handler. rewrite Hdec.
    cbn [sub_missing]. rewrite Hsub. cbn [db_users set_db_users].
    rewrite find_one_update_one by (intros; apply apply_update_id).
    rewrite Hfind. cbn. rewrite Hact. cbn.
    eexists. split; [reflexivity|]. split; reflexivity.
Qed.

Lemma account_changes_apply_to_issued_tokens_witness :
  get_current_user DemoAuth.auth 50 "u-1.engineer"
    (snd (put_users "u-1" (mkUserUpdate None None (Some false))
                    Demo.admin DemoAuth.eve_registered))
  = (Raise (HTTPException 401 "User is deactivated"),
     snd (put_users "u-1" (mkUserUpdate None None (Some false))
                    Demo.admin DemoAuth.eve_registered)).
Proof.
  refine (proj1 (@account_changes_apply_to_issued_tokens
                   DemoAuth.auth 50 "u-1.engineer" "u-1" Demo.admin
                   DemoAuth.eve_registered
                   (mkUser "u-1" "eve@x.com" "Eve" "engineer" "saltpw" 5 true)
                   eq_refl _ eq_refl eq_refl) _ eq_refl).
  discriminate.
Defined.

(** ** Documents *)

Section DeleteDocumentRun.

Variable current_user : User.
Variable id : string.

Lemma delete_document_run (st : State) :
  delete_document id current_user st
  = if negb (str_in "delete_docs"
                    (role_permissions (user_role current_user)))
    then (Raise (HTTPException 403 "Permission denied: delete_docs"), st)
    else
      match db_documents_find_one (db_documents st) id with
      | None => (Raise (HTTPException 404 "Document not found"), st)
      | Some doc =>
          (Ok "Document deleted"%string,
           mkState (vector_store st) (faiss_index st)
                   (filter (fun pc => negb (fst pc =? doc_file_path doc)%string)
                           (uploads st))
                   (db_users st)
                   (Mongo.delete_one (fun d => doc_id d =? id)%string
                                     (db_documents st))
                   (db_chat_sessions st) (db_chat_messages st))
      end.
Proof.
  unfold delete_document, check_permission, db_documents_find_one.
  run_handler.
  destruct (str_in "delete_docs"
              (role_permissions (user_role current_user))); [|reflexivity].
  cbn [negb].
  destruct (Mongo.find_one (fun d => doc_id d =? id)%string (db_documents st));
    reflexivity.
Qed.

End DeleteDocumentRun.

(** Deleting a document is for admins (403 otherwise, 404 for an unknown
    id, the state unchanged).  It removes the record and the stored file
    and leaves the index as it is: the chunks of the document stay in the
    store and in the saved index, so a later search still returns them
    and they still go into the context, but (document ids being unique)
    a chat no longer cites the document. *)
Theorem delete_document_keeps_index
        (current_user : User) (id : string) (st : State) :
  (user_role current_user <> "admin"%string ->
   delete_document id current_user st
   = (Raise (HTTPException 403 "Permission denied: delete_docs"), st))
  /\ (user_role current_user = "admin"%string ->
      db_documents_find_one (db_documents st) id = None ->
      delete_document id current_user st
      = (Raise (HTTPException 404 "Document not found"), st))
  /\ (forall doc,
        user_role current_user = "admin"%string ->
        db_documents_find_one (db_documents st) id = Some doc ->
        exists st',
          delete_document id current_user st
          = (Ok "Document deleted"%string, st')
          /\ vector_store st' = vector_store st
          /\ faiss_index st' = faiss_index st
          /\ S (List.length (db_documents st'))
             = List.length (db_documents st)
          /\ (forall content, ~ In (doc_file_path doc, content) (uploads st'))
          /\ (NoDup (map doc_id (db_documents st)) ->
              db_documents_find_one (db_documents st') id = None
              /\ forall results,
                  citations_of_doc id
                    (sources (chat_loop (db_documents st') results)) = 0
                  /\ List.length
                       (context_parts (chat_loop (db_documents st') results))
                     = List.length (non_system results))).
Proof.
  rewrite delete_document_run. split; [|split].
  - intros Hrole.
    destruct (str_in "delete_docs"
                (role_permissions (user_role current_user))) eqn:E;
      [|reflexivity].
    apply admin_permission_flag in E; [contradiction | now right].
  - intros Hrole Hnone.
    rewrite (proj2 (@admin_permission_flag current_user "delete_docs"
                      (or_intror eq_refl)) Hrole).
    cbn [negb]. now rewrite Hnone.
  - intros doc Hrole Hfind.
    rewrite (proj2 (@admin_permission_flag current_user "delete_docs"
                      (or_intror eq_refl)) Hrole).
    cbn [negb]. rewrite Hfind.
    eexists. split; [reflexivity|].
    cbn [vector_store faiss_index db_documents uploads].
    split; [reflexivity|]. split; [reflexivity|].
    pose proof (find_one_some _ _ Hfind) as [Hin Hq].
    split; [now apply delete_one_length with (x := doc)|]. split.
    { intros content Hc. apply filter_In in Hc. destruct Hc as [_ Hc].
      simpl in Hc. now rewrite String.eqb_refl in Hc. }
    intros Hnd.
    assert (Hgone : db_documents_find_one
                      (Mongo.delete_one (fun d => doc_id d =? id)%string
                                        (db_documents st)) id = None).
    { apply find_one_none. intros d Hd.
      apply (delete_one_unique doc_id id _ Hnd) in Hd.
      now apply String.eqb_neq. }
    split; [exact Hgone|]. intros results.
    pose proof (chat_loop_refines
                  (Mongo.delete_one (fun d => doc_id d =? id)%string
                                    (db_documents st)) results) as Href.
    unfold filter_and_dedupe in Href. injection Href as Hctx Hsrc.
    split.
    + rewrite Hsrc.
      destruct (in_dec string_dec id
                  (map result_id (first_occurrences [] (non_system results))))
        as [Hi|Hi].
      * rewrite citations_of_doc_NoDup
          by (try apply first_occurrences_NoDup; exact Hi).
        now rewrite Hgone.
      * now apply citations_of_doc_absent.
    + rewrite Hctx. apply length_map.
Qed.

Lemma delete_document_keeps_index_witness :
  exists st',
    delete_document "d-1" Demo.admin Demo.two_docs
    = (Ok "Document deleted"%string, st')
    /\ vector_store st' = vector_store Demo.two_docs.
Proof.
  destruct (proj2 (proj2 (delete_document_keeps_index
                            Demo.admin "d-1" Demo.two_docs))
                  (mkDocRecord "d-1" "Gloves" "" "sop" "gloves.txt"
                               "uploads/d-1.txt" "u-admin" "Ada" 10 1 11)
                  eq_refl eq_refl)
    as (st' & Hdel & Hvs & _).
  exists st'. split; [exact Hdel | exact Hvs].
Defined.

(** For the two roles whose chat search is filtered, the document list
    is filtered to the same doc types: it never fails, ignores the
    [doc_type] parameter, shows only documents of the doc types the chat
    of that role may search, and shows all of those when there are at
    most 1000. *)
Theorem list_documents_matches_chat_filter
        (doc_type' : option string) (current_user : User) (st : State)
        (allowed : list string) :
  chat_doc_types (user_role current_user) = Some allowed ->
  exists listed,
    list_documents doc_type' current_user st = (Ok listed, st)
    /\ list_documents None current_user st = (Ok listed, st)
    /\ (forall d, In d listed -> In (dr_doc_type d) allowed)
    /\ (List.length (filter (fun d => str_in (doc_type d) allowed)
                            (db_documents st)) <= 1000 ->
        forall d, In d (db_documents st) -> In (doc_type d) allowed ->
                  In (DocumentResponse_fields d) listed).
Proof.
  intros Hrole.
  assert (Hq : forall p d,
             list_documents_query (user_role current_user) p d
             = str_in (doc_type d) allowed
             /\ (str_in (doc_type d) allowed = true ->
                 str_in (doc_type d) DocType = true)).
  { intros p d. unfold chat_doc_types in Hrole. unfold list_documents_query.
    destruct (user_role current_user =? "technician")%string.
    - injection Hrole as <-. simpl. rewrite orb_false_r. split; [reflexivity|].
      intros H. apply String.eqb_eq in H. now rewrite H.
    - destruct (user_role current_user =? "viewer")%string; [|discriminate].
      injection Hrole as <-. split; [reflexivity|].
      intros H. apply str_in_spec in H. apply str_in_spec.
      simpl in H |- *. tauto. }
  assert (Hfilter : forall p,
             filter (list_documents_query (user_role current_user) p)
                    (db_documents st)
             = filter (fun d => str_in (doc_type d) allowed)
                      (db_documents st)).
  { intros p. apply filter_ext. intros d. apply Hq. }
  set (docs := Mongo.to_list 1000
                 (filter (fun d => str_in (doc_type d) allowed)
                         (db_documents st))).
  assert (Hvalid : forallb (fun d => str_in (doc_type d) DocType) docs = true).
  { apply forallb_forall. intros d Hd. unfold docs, Mongo.to_list in Hd.
    apply In_firstn, filter_In in Hd. now apply (Hq None d). }
  exists (map DocumentResponse_fields docs).
  assert (Hrun : forall p, list_documents p current_user st
                           = (Ok (map DocumentResponse_fields docs), st)).
  { intros p. unfold list_documents. run_handler. rewrite Hfilter.
    fold docs. now rewrite Hvalid. }
  split; [apply Hrun|]. split; [apply Hrun|]. split.
  - intros d Hd. apply in_map_iff in Hd. destruct Hd as [rec [<- Hrec]].
    unfold docs, Mongo.to_list in Hrec. apply In_firstn, filter_In in Hrec.
    destruct Hrec as [_ Hin]. now apply str_in_spec in Hin.
  - intros Hlen d Hd Hin. apply in_map. unfold docs, Mongo.to_list.
    rewrite firstn_all2 by exact Hlen.
    apply filter_In. split; [exact Hd | now apply str_in_spec].
Qed.

Lemma list_documents_matches_chat_filter_witness :
  exists listed,
    list_documents (Some "manual"%string) Demo.technician Demo.two_docs
    = (Ok listed, Demo.two_docs)
    /\ forall d, In d listed -> In (dr_doc_type d) ["sop"%string].
Proof.
  destruct (@list_documents_matches_chat_filter
              (Some "manual"%string) Demo.technician Demo.two_docs
              ["sop"%string] eq_refl)
    as (listed & Hl & _ & Hall & _).
  exists listed. split; [exact Hl | exact Hall].
Defined.

(** For the other roles the list is filtered by the [doc_type] parameter
    only, an empty parameter counting as none.  One record whose doc type
    is not among the literals of [DocumentResponse] makes every listing
    that selects it fail, for it is rejected when the answer is built;
    without such a record among the first 1000 selected, the listing
    returns them in collection order. *)
Theorem list_documents_unfiltered_roles
        (doc_type' : option string) (current_user : User) (st : State) :
  chat_doc_types (user_role current_user) = None ->
  let selected :=
    Mongo.to_list 1000
      (match doc_type' with
       | Some t => if (t =? "")%string then db_documents st
                   else filter (fun d => doc_type d =? t)%string
                               (db_documents st)
       | None => db_documents st
       end) in
  ((forall d, In d selected -> In (doc_type d) DocType) ->
   list_documents doc_type' current_user st
   = (Ok (map DocumentResponse_fields selected), st))
  /\ (forall d, In d selected -> ~ In (doc_type d) DocType ->
        list_documents doc_type' current_user st
        = (Raise (Exception "ValidationError: doc_type"), st)).
Proof.
  intros Hrole selected.
  assert (Hsel : Mongo.to_list 1000
                   (filter (list_documents_query (user_role current_user)
                                                 doc_type')
                           (db_documents st)) = selected).
  { unfold selected. f_equal. unfold chat_doc_types in Hrole.
    unfold list_documents_query.
    destruct (user_role current_user =? "technician")%string; [discriminate|].
    destruct (user_role current_user =? "viewer")%string; [discriminate|].
    destruct doc_type' as [t|].
    - destruct (t =? "")%string; [|reflexivity].
      induction (db_documents st) as [|d l IH]; simpl; congruence.
    - induction (db_documents st) as [|d l IH]; simpl; congruence. }
  unfold list_documents. run_handler. rewrite Hsel. split.
  - intros Hall.
    assert (Hv : forallb (fun d => str_in (doc_type d) DocType) selected = true).
    { apply forallb_forall. intros d Hd. apply str_in_spec. now apply Hall. }
    now rewrite Hv.
  - intros d Hd Hbad.
    destruct (forallb (fun d => str_in (doc_type d) DocType) selected) eqn:E;
      [|reflexivity].
    rewrite forallb_forall in E. specialize (E d Hd).
    apply str_in_spec in E. contradiction.
Qed.

Lemma list_documents_unfiltered_roles_witness :
  list_documents None Demo.admin
    (snd (upload_document Demo.libs (Demo.upload_env "d-3" 30) Demo.sop_file
                          "" "" "SOP" Demo.admin Demo.two_docs))
  = (Raise (Exception "ValidationError: doc_type"),
     snd (upload_document Demo.libs (Demo.upload_env "d-3" 30) Demo.sop_file
                          "" "" "SOP" Demo.admin Demo.two_docs)).
Proof.
  refine (proj2 (@list_documents_unfiltered_roles
                   None Demo.admin
                   (snd (upload_document Demo.libs (Demo.upload_env "d-3" 30)
                                         Demo.sop_file "" "" "SOP" Demo.admin
                                         Demo.two_docs))
                   eq_refl)
                (mkDocRecord "d-3" "gloves" "" "SOP" "gloves.txt"
                             "uploads/d-3.txt" "u-admin" "Ada" 30 1 11) _ _).
  - right. right. left. reflexivity.
  - simpl. intuition discriminate.
Defined.

(** ** Statistics *)

Lemma bump_lookup (k k' : string) (groups : list (string * nat)) :
  group_lookup k (bump k' groups)
  = group_lookup k groups + (if (k' =? k)%string then 1 else 0).
Proof.
  induction groups as [|[k0 n] rest IH]; simpl.
  - destruct (k' =? k)%string; reflexivity.
  - destruct (k0 =? k')%string eqn:E0; simpl.
    + apply String.eqb_eq in E0. subst k0.
      destruct (k' =? k)%string; lia.
    + destruct (k0 =? k)%string eqn:E1; [|exact IH].
      apply String.eqb_eq in E1. subst k0.
      rewrite String.eqb_sym, E0. lia.
Qed.

Lemma bump_total (k : string) (groups : list (string * nat)) :
  group_total (bump k groups) = S (group_total groups).
Proof.
  unfold group_total.
  induction groups as [|[k0 n] rest IH]; simpl; [reflexivity|].
  destruct (k0 =? k)%string; simpl; [reflexivity | rewrite IH; lia].
Qed.

Lemma bump_keys (k : string) (groups : list (string * nat)) (x : string) :
  In x (map fst (bump k groups)) <-> x = k \/ In x (map fst groups).
Proof.
  induction groups as [|[k0 n] rest IH]; simpl.
  - intuition.
  - destruct (k0 =? k)%string eqn:E; simpl.
    + apply String.eqb_eq in E. subst k0. intuition.
    + rewrite IH. intuition.
Qed.

Lemma bump_NoDup (k : string) (groups : list (string * nat)) :
  NoDup (map fst groups) -> NoDup (map fst (bump k groups)).
Proof.
  induction groups as [|[k0 n] rest IH]; simpl; intros Hnd.
  - repeat constructor. simpl. tauto.
  - inversion Hnd as [|a l Ha Hl]; subst.
    destruct (k0 =? k)%string eqn:E; simpl.
    + now constructor.
    + constructor; [|now apply IH].
      rewrite bump_keys. apply String.eqb_neq in E.
      intros [H|H]; [congruence | contradiction].
Qed.

Lemma lookup_of_member (k : string) (n : nat) (groups : list (string * nat)) :
  NoDup (map fst groups) -> In (k, n) groups -> group_lookup k groups = n.
Proof.
  induction groups as [|[k0 n0] rest IH]; simpl; intros Hnd Hin; [tauto|].
  inversion Hnd as [|a l Ha Hl]; subst.
  destruct Hin as [Hin|Hin].
  - injection Hin as -> ->. now rewrite String.eqb_refl.
  - destruct (k0 =? k)%string eqn:E; [|now apply IH].
    apply String.eqb_eq in E. subst k0. exfalso. apply Ha.
    now apply (in_map fst) in Hin.
Qed.

Lemma member_of_lookup (k : string) (groups : list (string * nat)) :
  0 < group_lookup k groups -> In (k, group_lookup k groups) groups.
Proof.
  induction groups as [|[k0 n0] rest IH]; simpl; [lia|].
  destruct (k0 =? k)%string eqn:E.
  - apply String.eqb_eq in E. subst k0. now left.
  - intros H. right. now apply IH.
Qed.

Lemma group_count_from (keys : list string) :
  forall acc,
    NoDup (map fst acc) ->
    let groups := fold_left (fun g k => bump k g) keys acc in
    NoDup (map fst groups)
    /\ group_total groups = group_total acc + List.length keys
    /\ forall k, group_lookup k groups
                 = group_lookup k acc
                   + List.length (filter (fun k' => k' =? k)%string keys).
Proof.
  induction keys as [|k0 keys IH]; intros acc Hnd; simpl.
  - split; [exact Hnd|]. split; [lia | intros; lia].
  - destruct (IH (bump k0 acc) (bump_NoDup k0 _ Hnd)) as (H1 & H2 & H3).
    split; [exact H1|]. split.
    + rewrite H2, bump_total. lia.
    + intros k. rewrite H3, bump_lookup.
      destruct (k0 =? k)%string; simpl; lia.
Qed.

Lemma filter_map_length {A B} (f : A -> B) (p : B -> bool) (l : list A) :
  List.length (filter p (map f l))
  = List.length (filter (fun x => p (f x)) l).
Proof.
  induction l as [|x l IH]; simpl; [reflexivity|].
  destruct (p (f x)); simpl; now rewrite IH.
Qed.

(** The statistics are the same for every role: documents and users are
    counted without any filter, only the session count is the
    requester's own.  The breakdown has one entry per doc type, each with
    the number of documents of that type, and, when the documents have at
    most 100 different doc types, its counts add up to the number of
    documents and every doc type in use appears in it. *)
Theorem get_stats_counts_everything (current_user : User) (st : State) :
  exists stats,
    get_stats current_user st = (Ok stats, st)
    /\ total_documents stats = List.length (db_documents st)
    /\ total_users stats = List.length (db_users st)
    /\ my_sessions stats
       = List.length
           (filter (fun x => session_user_id x =? user_id current_user)%string
                   (db_chat_sessions st))
    /\ (forall other stats',
          get_stats other st = (Ok stats', st) ->
          total_documents stats' = total_documents stats
          /\ total_users stats' = total_users stats
          /\ stats_doc_types stats' = stats_doc_types stats)
    /\ NoDup (map fst (stats_doc_types stats))
    /\ (forall t n, In (t, n) (stats_doc_types stats) ->
          n = docs_of_type t (db_documents st) /\ 0 < n)
    /\ (List.length (group_count (map doc_type (db_documents st))) <= 100 ->
        group_total (stats_doc_types stats) = total_documents stats
        /\ forall d, In d (db_documents st) ->
             In (doc_type d, docs_of_type (doc_type d) (db_documents st))
                (stats_doc_types stats)).
Proof.
  eexists. split; [reflexivity|].
  cbn [total_documents total_users my_sessions stats_doc_types].
  split; [reflexivity|]. split; [reflexivity|]. split; [reflexivity|].
  split.
  { intros other stats' H. unfold get_stats in H. run_handler.
    injection H as <-. repeat split. }
  set (keys := map doc_type (db_documents st)).
  destruct (group_count_from keys [] (NoDup_nil _)) as (Hnd & Htot & Hlook).
  fold (group_count keys) in Hnd, Htot, Hlook.
  assert (Hcount : forall t,
             group_lookup t (group_count keys)
             = docs_of_type t (db_documents st)).
  { intros t. rewrite Hlook. simpl. unfold docs_of_type, keys.
    now rewrite filter_map_length. }
  unfold Mongo.to_list. split; [|split].
  - rewrite <- (firstn_skipn 100 (group_count keys)) in Hnd.
    rewrite map_app in Hnd. now apply NoDup_app_remove_r in Hnd.
  - intros t n Hin. apply In_firstn in Hin.
    pose proof (@lookup_of_member _ _ _ Hnd Hin) as Hn.
    rewrite Hcount in Hn. split; [now symmetry|].
    assert (Hpos : forall groups,
               Forall (fun g => 0 < snd g) groups ->
               forall k, Forall (fun g => 0 < snd g) (bump k groups)).
    { intros groups Hf k. induction Hf as [|[k0 n0] rest H0 Hrest IH];
        simpl; [repeat constructor|].
      destruct (k0 =? k)%string; constructor; simpl in *; auto; lia. }
    assert (Hall : forall ks acc,
               Forall (fun g => 0 < snd g) acc ->
               Forall (fun g => 0 < snd g)
                      (fold_left (fun g k => bump k g) ks acc)).
    { induction ks as [|k ks IH]; intros acc Hacc; simpl; [exact Hacc|].
      apply IH, Hpos, Hacc. }
    specialize (Hall keys [] (Forall_nil _)).
    rewrite Forall_forall in Hall. exact (Hall _ Hin).
  - intros Hsmall. rewrite firstn_all2 by exact Hsmall. split.
    + rewrite Htot. unfold keys. simpl. now rewrite length_map.
    + intros d Hd. rewrite <- Hcount. apply member_of_lookup.
      rewrite Hcount. unfold docs_of_type.
      assert (Hin : In d (filter (fun d0 => doc_type d0 =? doc_type d)%string
                                 (db_documents st)))
        by (apply filter_In; split; [exact Hd | apply String.eqb_refl]).
      destruct (filter (fun d0 => doc_type d0 =? doc_type d)%string
                       (db_documents st)); [destruct Hin | simpl; lia].
Qed.

Lemma get_stats_counts_everything_witness :
  exists stats,
    get_stats Demo.technician Demo.two_docs = (Ok stats, Demo.two_docs)
    /\ In ("manual"%string, 1) (stats_doc_types stats).
Proof.
  destruct (get_stats_counts_everything Demo.technician Demo.two_docs)
    as (stats & Hget & _ & _ & _ & _ & _ & _ & Hall).
  exists stats. split; [exact Hget|].
  destruct (Hall ltac:(simpl; lia)) as [_ Hin].
  exact (Hin (mkDocRecord "d-2" "Pump" "" "manual" "pump.txt"
                          "uploads/d-2.txt" "u-admin" "Ada" 20 1 11)
             ltac:(right; left; reflexivity)).
Defined.

(** ** From upload to citation *)

Lemma upload_document_success
      (L : Libraries) (env : UploadEnv) (file : UploadFile)
      (title description dt : string) (current_user : User)
      (st st1 : State) (resp : DocumentResponse) :
  upload_document L env file title description dt current_user st
  = (Ok resp, st1) ->
  exists text s0 doc_record,
    fst (extract_text L (file_ext_of L file) (file_bytes file) st) = Ok text
    /\ strip_is_empty text = false
    /\ add_document (split_text L) (up_index env) (up_uuid env)
                    (doc_title_of L file title) text dt st
       = (Ok (List.length (split_text L text)), s0)
    /\ doc_record
       = mkDocRecord (up_uuid env) (doc_title_of L file title) description dt
                     (filename file)
                     (UPLOADS_PATH ++ up_uuid env ++ file_ext_of L file)%string
                     (user_id current_user) (user_name current_user)
                     (up_now env) (List.length (split_text L text))
                     (String.length (file_bytes file))
    /\ resp = DocumentResponse_fields doc_record
    /\ st1 = mkState (vector_store s0) (faiss_index s0)
                     ((doc_file_path doc_record, file_bytes file)
                        :: filter (fun pc => negb (fst pc =? doc_file_path doc_record)%string)
                                  (uploads s0))
                     (db_users s0) (db_documents s0 ++ [doc_record])
                     (db_chat_sessions s0) (db_chat_messages s0)
    /\ In dt DocType
    /\ In (file_ext_of L file) allowed_extensions
    /\ (user_role current_user = "admin"%string
        \/ user_role current_user = "engineer"%string).
Proof.
  rewrite upload_document_run.
  destruct (str_in "upload_docs" (role_permissions (user_role current_user)))
    eqn:Eperm; [|discriminate].
  cbn [negb].
  destruct (str_in (file_ext_of L file) allowed_extensions) eqn:Eext;
    [|discriminate].
  cbn [negb].
  destruct (fst (extract_text L (file_ext_of L file) (file_bytes file) st))
    as [text|e]; [|discriminate].
  destruct (strip_is_empty text) eqn:Eblank; [discriminate|].
  destruct (add_document (split_text L) (up_index env) (up_uuid env)
              (doc_title_of L file title) text dt st)
    as [[n|e] s0] eqn:Hadd; [|discriminate].
  destruct (add_document_frame _ _ _ _ _ _ _ Hadd) as (_ & _ & Hok).
  destruct (Hok n eq_refl) as (Hn & _). subst n.
  cbv zeta. destruct (up_write_ok env); [|discriminate].
  destruct (str_in dt DocType) eqn:Edt; [|discriminate].
  intros H. injection H as <- <-.
  exists text, s0. eexists.
  split; [reflexivity|]. split; [exact Eblank|]. split; [exact Hadd|].
  split; [reflexivity|]. split; [reflexivity|]. split; [reflexivity|].
  split; [now apply str_in_spec|]. split; [now apply str_in_spec|].
  now apply upload_permission_flag.
Qed.

(** An upload that returns has stored the raw bytes under
    [uploads/<id><extension>], appended one record whose chunk count is
    the number of chunks the splitter made and whose title is the given
    title, or the stem of the file name when the title is empty, and
    answers with the fields of that record; the uploader is an admin or
    an engineer, the extension one of the three allowed, and the doc type
    one of the four literals. *)
Theorem upload_document_returns_stored_record
        (L : Libraries) (env : UploadEnv) (file : UploadFile)
        (title description dt : string) (current_user : User)
        (st st1 : State) (resp : DocumentResponse) :
  upload_document L env file title description dt current_user st
  = (Ok resp, st1) ->
  let path := (UPLOADS_PATH ++ up_uuid env
                 ++ str_lower L (path_suffix L (filename file)))%string in
  In (path, file_bytes file) (uploads st1)
  /\ (forall content, In (path, content) (uploads st1) ->
                      content = file_bytes file)
  /\ dr_id resp = up_uuid env
  /\ dr_title resp
     = (if (title =? "")%string then path_stem L (filename file) else title)
  /\ dr_doc_type resp = dt
  /\ dr_uploaded_by resp = user_id current_user
  /\ dr_file_size resp = String.length (file_bytes file)
  /\ (exists doc_record,
        db_documents st1 = db_documents st ++ [doc_record]
        /\ resp = DocumentResponse_fields doc_record
        /\ doc_file_path doc_record = path)
  /\ In dt DocType
  /\ In (str_lower L (path_suffix L (filename file)))
        [".pdf"; ".docx"; ".txt"]%string
  /\ (user_role current_user = "admin"%string
      \/ user_role current_user = "engineer"%string).
Proof.
  intros Hup path.
  destruct (upload_document_success _ _ _ _ _ _ _ _ Hup)
    as (text & s0 & rec & _ & _ & Hadd & Hrec & Hresp & Hst & Hdt & Hext
        & Hrole).
  destruct (add_document_frame _ _ _ _ _ _ _ Hadd)
    as ((_ & _ & Hdocs & _) & _).
  subst st1 resp rec. cbn.
  split; [now left|]. split.
  { intros content [H|H]; [now injection H|].
    apply filter_In in H. destruct H as [_ H]. simpl in H.
    unfold path, file_ext_of in H. now rewrite String.eqb_refl in H. }
  repeat (split; [reflexivity|]).
  split.
  { eexists. rewrite Hdocs. split; [reflexivity|]. split; reflexivity. }
  split; [exact Hdt|]. split; [exact Hext | exact Hrole].
Qed.

Lemma upload_document_returns_stored_record_witness :
  In ("uploads/d-3.txt"%string, "wear gloves"%string)
     (uploads (snd (upload_document Demo.libs (Demo.upload_env "d-3" 30)
                                    Demo.sop_file "" "" "sop" Demo.admin
                                    Demo.two_docs))).
Proof.
  exact (proj1 (@upload_document_returns_stored_record
                  Demo.libs (Demo.upload_env "d-3" 30) Demo.sop_file
                  "" "" "sop" Demo.admin Demo.two_docs _ _ eq_refl)).
Defined.

Lemma small_store_search_contains
      (distance : string -> string -> Q) (store : Store) (query : string)
      (k : nat) (doc_types : option (list string)) (e : Document) :
  List.length store <= k ->
  In e store ->
  (truthy_list doc_types = true ->
   doc_type_in e (match doc_types with Some l => l | None => [] end) = true) ->
  In (e, distance query (page_content e))
     (if truthy_list doc_types then
        firstn k (filter_doc_types
                    (match doc_types with Some l => l | None => [] end)
                    (nearest distance store query (k * 2)))
      else nearest distance store query k).
Proof.
  intros Hlen He Hallowed.
  set (all := sort_scored
                (map (fun d => (d, distance query (page_content d))) store)).
  assert (Hall_len : List.length all = List.length store)
    by (unfold all;
        now rewrite (Permutation_length (sort_scored_perm _)), length_map).
  assert (Hin : In (e, distance query (page_content e)) all).
  { apply (Permutation_in _ (Permutation_sym (sort_scored_perm _))).
    apply in_map_iff. now exists e. }
  destruct (truthy_list doc_types).
  - unfold nearest. fold all. rewrite (firstn_all2 all) by lia.
    rewrite firstn_all2.
    + apply filter_In. split; [exact Hin | now apply Hallowed].
    + unfold filter_doc_types.
      pose proof (filter_length_le
                    (fun ds => doc_type_in (fst ds)
                                 (match doc_types with
                                  | Some l => l
                                  | None => []
                                  end)) all).
      lia.
  - unfold nearest. fold all. now rewrite firstn_all2 by lia.
Qed.

Lemma citations_of_doc_member (id : string) (srcs : list Citation) :
  0 < citations_of_doc id srcs ->
  exists c, In c srcs /\ cit_doc_id c = id.
Proof.
  unfold citations_of_doc.
  destruct (filter (fun c => cit_doc_id c =? id)%string srcs) as [|c l] eqn:E;
    simpl; [lia|]. intros _.
  assert (Hc : In c (filter (fun c => cit_doc_id c =? id)%string srcs))
    by (rewrite E; now left).
  apply filter_In in Hc. destruct Hc as [Hin Hid].
  apply String.eqb_eq in Hid. now exists c.
Qed.

(** What goes in comes out.  After an upload that returned (its document
    id being new and not the placeholder's, and the splitter having made
    at least one chunk), a chat by a user whose role may see the doc type
    cites the document exactly once, with the id, title and doc type the
    upload answered, as long as the store holds no more than the five
    entries a search looks at and the query can be embedded. *)
Theorem uploaded_document_is_cited
        (L : Libraries) (env : UploadEnv) (file : UploadFile)
        (title description dt : string) (uploader reader : User)
        (st st1 : State) (resp : DocumentResponse)
        (cenv : ChatEnv) (request : ChatRequest) :
  upload_document L env file title description dt uploader st
  = (Ok resp, st1) ->
  db_documents_find_one (db_documents st) (up_uuid env) = None ->
  up_uuid env <> "system"%string ->
  0 < dr_chunk_count resp ->
  match chat_doc_types (user_role reader) with
  | Some allowed => In dt allowed
  | None => True
  end ->
  embed_query_ok (chat_index cenv) = true ->
  List.length (store_entries (vector_store st1)) <= 5 ->
  exists cresp st2 c,
    chat L cenv request reader st1 = (Ok cresp, st2)
    /\ In c (resp_sources cresp)
    /\ cit_doc_id c = dr_id resp
    /\ cit_title c = dr_title resp
    /\ cit_doc_type c = dr_doc_type resp
    /\ citations_of_doc (dr_id resp) (resp_sources cresp) = 1.
Proof.
  intros Hup Hfresh Hsys Hchunks Hrole Hq Hsmall.
  destruct (upload_document_success _ _ _ _ _ _ _ _ Hup)
    as (text & s0 & rec & _ & _ & Hadd & Hrec & Hresp & Hst & _).
  destruct (add_document_frame _ _ _ _ _ _ _ Hadd)
    as ((_ & _ & Hdocs & _) & _ & Hok).
  destruct (Hok _ eq_refl) as (_ & base & Hvs & _).
  set (entries := chunk_entries (split_text L) (up_uuid env)
                    (doc_title_of L file title) text dt) in *.
  assert (Hst1_vs : vector_store st1 = Some (base ++ entries))
    by (rewrite Hst; exact Hvs).
  assert (Hst1_docs : db_documents st1 = db_documents st ++ [rec])
    by (rewrite Hst; cbn [db_documents]; now rewrite Hdocs).
  assert (Hrec_id : doc_id rec = up_uuid env) by now rewrite Hrec.
  (* one chunk of the document *)
  assert (Hsome : exists e, In e entries).
  { assert (Hlen : 0 < List.length entries).
    { unfold entries. rewrite chunk_entries_length.
      rewrite Hresp, Hrec in Hchunks. exact Hchunks. }
    destruct entries as [|e l]; [simpl in Hlen; lia|]. exists e. now left. }
  destruct Hsome as [e He].
  pose proof (chunk_entries_meta _ _ _ _ _ _ He) as [Heid Hedt].
  (* the search of the chat returns it *)
  set (dts := chat_doc_types (user_role reader)) in *.
  pose proof (load_or_create_store_loaded (chat_index cenv) st1 Hst1_vs)
    as Hload.
  pose proof (search_run (distance L) (chat_index cenv) (req_message request)
                         5 dts st1) as Hsearch.
  rewrite Hload, Hq in Hsearch.
  change (Nat.eqb 5 0) with false in Hsearch. cbv iota in Hsearch.
  match type of Hsearch with _ = (Ok ?r, _) => set (results := r) in * end.
  assert (Hin : In (e, distance L (req_message request) (page_content e))
                   results).
  { unfold results. apply small_store_search_contains.
    - rewrite Hst1_vs in Hsmall. exact Hsmall.
    - apply in_or_app. now right.
    - intros Htruthy. unfold doc_type_in. rewrite Hedt.
      destruct dts as [allowed|]; [|discriminate]. now apply str_in_spec. }
  (* the loop cites it *)
  assert (Hfind : db_documents_find_one (db_documents st1) (up_uuid env)
                  = Some rec).
  { rewrite Hst1_docs. unfold db_documents_find_one in *.
    rewrite find_one_app, Hfresh. simpl. rewrite Hrec_id.
    now rewrite String.eqb_refl. }
  pose proof (chat_loop_refines (db_documents st1) results) as Href.
  unfold filter_and_dedupe in Href. injection Href as _ Hsrc.
  assert (Hids : In (up_uuid env)
                    (map result_id
                         (first_occurrences [] (non_system results)))).
  { apply first_occurrences_ids. split; [|simpl; tauto].
    apply non_system_ids. split; [|exact Hsys].
    apply in_map_iff. exists (e, distance L (req_message request)
                                          (page_content e)).
    split; [exact Heid | exact Hin]. }
  assert (Hone : citations_of_doc (up_uuid env)
                   (sources (chat_loop (db_documents st1) results)) = 1).
  { rewrite Hsrc.
    rewrite citations_of_doc_NoDup
      by (try apply first_occurrences_NoDup; exact Hids).
    now rewrite Hfind. }
  destruct (@citations_of_doc_member (up_uuid env)
              (sources (chat_loop (db_documents st1) results)))
    as (c & Hc & Hcid); [lia|].
  pose proof (sources_from_results _ _ _ Hc)
    as (doc & d & info & _ & _ & Hinfo & Hceq).
  assert (Hdoc : md_doc_id (metadata doc) = up_uuid env)
    by (rewrite Hceq in Hcid; exact Hcid).
  rewrite Hdoc, Hfind in Hinfo. injection Hinfo as <-.
  eexists. eexists. exists c. split.
  { rewrite chat_run. fold dts. rewrite Hsearch. reflexivity. }
  cbn [resp_sources].
  split; [exact Hc|].
  rewrite Hresp. cbn [dr_id dr_title dr_doc_type DocumentResponse_fields].
  rewrite Hrec_id. split; [exact Hcid|].
  rewrite Hceq. cbn [cit_title cit_doc_type citation_of].
  split; [reflexivity|]. split; [reflexivity | exact Hone].
Qed.

Lemma uploaded_document_is_cited_witness :
  exists cresp st2 c,
    chat Demo.libs (Demo.chat_env "1" 100 Demo.llm_echo)
         (mkChatRequest "gloves?" None) Demo.technician
         (snd (upload_document Demo.libs (Demo.upload_env "d-1" 10)
                               Demo.sop_file "Gloves" "" "sop" Demo.admin
                               initial_state))
    = (Ok cresp, st2)
    /\ In c (resp_sources cresp)
    /\ cit_doc_id c = "d-1"%string
    /\ cit_title c = "Gloves"%string.
Proof.
  destruct (@uploaded_document_is_cited
              Demo.libs (Demo.upload_env "d-1" 10) Demo.sop_file
              "Gloves" "" "sop" Demo.admin Demo.technician initial_state
              _ _ (Demo.chat_env "1" 100 Demo.llm_echo)
              (mkChatRequest "gloves?" None) eq_refl)
    as (cresp & st2 & c & Hchat & Hin & Hid & Htitle & _).
  - reflexivity.
  - discriminate.
  - simpl. lia.
  - simpl. tauto.
  - reflexivity.
  - simpl. lia.
  - exists cresp, st2, c. repeat split; assumption.
Defined.
